(** * Trading-bot dashboard: preference controller and live activity merger

    A shallow embedding of the two client-side classes of the dashboard,
    [DashboardSwitcher] (view / theme / layout / refresh-rate preferences)
    and [TradingDashboard] (live channel, recent-trade table, notifications),
    together with the properties of the synchronisation and persistence
    engine that they are expected to satisfy.

    The browser is modelled by explicit state: the parts of the document the
    code queries, [localStorage] as a finite map of strings, the table of
    active timers, and the listeners registered on the colour-scheme media
    query.  Every method is a function on that state; a method that can
    raise a [TypeError] or [SyntaxError] returns an [outcome]. *)

From Stdlib Require Import Ascii ZArith QArith DecimalString DecimalZ DecimalPos.
From stdpp Require Import gmap strings list fin_maps.

Local Open Scope string_scope.

(** ** JavaScript values and the built-ins the dashboard relies on *)

Module Js.

(** Values produced by [JSON.parse] and by property reads.  A number carries
    the exact rational value of its double; [VUndefined] is what reading an
    absent property yields. *)
#[warnings="-register-all"]
Inductive value :=
| VUndefined
| VNull
| VBool (b : bool)
| VNumber (q : Q)
| VString (s : string)
| VArray (items : list value)
| VObject (props : list (string * value)).

(** The result of a call that may throw. *)
Inductive outcome (A : Type) :=
| Returns (a : A)
| Throws (a : A).
Arguments Returns {A} a.
Arguments Throws {A} a.

(** ToBoolean. *)
Definition truthy (v : value) : bool :=
  match v with
  | VUndefined | VNull => false
  | VBool b => b
  | VNumber q => negb (Qnum q =? 0)%Z
  | VString s => negb (String.eqb s "")
  | VArray _ | VObject _ => true
  end.

(** A string is truthy when it is not empty ([if (savedTheme)] on the
    result of [localStorage.getItem], where [None] is [null]). *)
Definition truthyItem (o : option string) : option string :=
  match o with
  | Some s => if String.eqb s "" then None else Some s
  | None => None
  end.

Fixpoint assoc (k : string) (props : list (string * value)) : value :=
  match props with
  | [] => VUndefined
  | (k', v) :: rest => if String.eqb k k' then v else assoc k rest
  end.

(** Property read [v.k]; [None] is the [TypeError] raised on [undefined]
    and [null].  Strings and arrays expose [length]. *)
Definition get (v : value) (k : string) : option value :=
  match v with
  | VUndefined | VNull => None
  | VObject props => Some (assoc k props)
  | VArray items =>
      Some (if String.eqb k "length"
            then VNumber (inject_Z (Z.of_nat (length items))) else VUndefined)
  | VString s =>
      Some (if String.eqb k "length"
            then VNumber (inject_Z (Z.of_nat (String.length s))) else VUndefined)
  | VBool _ | VNumber _ => Some VUndefined
  end.

(** Indexed read [v[0]]; as for [get], [None] is a [TypeError]. *)
Definition item0 (v : value) : option value :=
  match v with
  | VUndefined | VNull => None
  | VArray items => Some (hd VUndefined items)
  | VString s =>
      Some (match s with
            | EmptyString => VUndefined
            | String c _ => VString (String c EmptyString)
            end)
  | VObject props => Some (assoc "0" props)
  | VBool _ | VNumber _ => Some VUndefined
  end.

(** [v > 0].  Numbers and booleans compare by value, [undefined] and [null]
    are never greater than zero.  A string, array or object operand would
    first go through ToNumber; that coercion is not modelled and such an
    operand compares as [NaN]. *)
Definition gtZero (v : value) : bool :=
  match v with
  | VNumber q => (0 <? Qnum q)%Z
  | VBool b => b
  | _ => false
  end.

(** Strict equality of a value with a string literal, as performed by the
    [case] labels of a [switch]. *)
Definition isString (v : value) (lit : string) : bool :=
  match v with
  | VString s => String.eqb s lit
  | _ => false
  end.

(** *** Number.prototype.toFixed(2)

    The decimal [n / 100] closest to the number, the larger [n] on a tie,
    computed on the magnitude with the sign put in front (so a small negative
    number prints as [-0.00]).  Magnitudes of 10^21 and more, which print in
    exponent notation, are outside the model. *)
Definition decimal (n : N) : string := NilZero.string_of_uint (N.to_uint n).

Definition twoDigits (n : N) : string :=
  if (n <? 10)%N then "0" ++ decimal n else decimal n.

Definition toFixed2 (q : Q) : string :=
  let den := Zpos (Qden q) in
  let n := Z.to_N ((2 * 100 * Z.abs (Qnum q) + den) / (2 * den))%Z in
  (if (Qnum q <? 0)%Z then "-" else "")
    ++ decimal (n / 100)%N ++ "." ++ twoDigits (n mod 100)%N.

(** The method call [v.toFixed(2)]: defined on numbers only; on any other
    value it is a [TypeError] ([None]). *)
Definition callToFixed2 (v : value) : option string :=
  match v with
  | VNumber q => Some (toFixed2 q)
  | _ => None
  end.

(** *** String.prototype.toLowerCase, on the ASCII letters. *)
Definition lowerAscii (c : ascii) : ascii :=
  let n := nat_of_ascii c in
  if (65 <=? n)%nat && (n <=? 90)%nat then ascii_of_nat (n + 32) else c.

Fixpoint toLowerCase (s : string) : string :=
  match s with
  | EmptyString => EmptyString
  | String c s' => String (lowerAscii c) (toLowerCase s')
  end.

Definition callToLowerCase (v : value) : option string :=
  match v with
  | VString s => Some (toLowerCase s)
  | _ => None
  end.

(** *** Integers as [parseInt] returns them

    [setRefreshRate] is only ever called with a result of [parseInt]: an
    integer, or [NaN] when the text does not start with a number. *)
Inductive integer :=
| Int (z : Z)
| NaN.

(** [String(n)], the text [localStorage.setItem] stores and a template
    literal interpolates. *)
Definition toString (n : integer) : string :=
  match n with
  | Int z => NilZero.string_of_int (Z.to_int z)
  | NaN => "NaN"
  end.

Definition isWhite (c : ascii) : bool :=
  match nat_of_ascii c with
  | 9 | 10 | 11 | 12 | 13 | 32 => true
  | _ => false
  end%nat.

Fixpoint trimStart (s : string) : string :=
  match s with
  | String c s' => if isWhite c then trimStart s' else s
  | EmptyString => EmptyString
  end.

Definition digit (c : ascii) : option (Decimal.uint -> Decimal.uint) :=
  match nat_of_ascii c with
  | 48 => Some Decimal.D0 | 49 => Some Decimal.D1 | 50 => Some Decimal.D2
  | 51 => Some Decimal.D3 | 52 => Some Decimal.D4 | 53 => Some Decimal.D5
  | 54 => Some Decimal.D6 | 55 => Some Decimal.D7 | 56 => Some Decimal.D8
  | 57 => Some Decimal.D9
  | _ => None
  end%nat.

(** The longest prefix of decimal digits. *)
Fixpoint digits (s : string) : Decimal.uint :=
  match s with
  | String c s' =>
      match digit c with
      | Some d => d (digits s')
      | None => Decimal.Nil
      end
  | EmptyString => Decimal.Nil
  end.

Definition magnitude (s : string) : option Z :=
  match digits s with
  | Decimal.Nil => None
  | d => Some (Z.of_uint d)
  end.

(** [parseInt(s)] with no radix: leading white space is skipped, an optional
    sign is read, then the longest run of decimal digits; no digit at all
    gives [NaN].  The hexadecimal form [0x...] is not modelled; the
    dashboard never stores it. *)
Definition parseInt (s : string) : integer :=
  match trimStart s with
  | String "-" rest =>
      match magnitude rest with Some z => Int (- z) | None => NaN end
  | String "+" rest =>
      match magnitude rest with Some z => Int z | None => NaN end
  | rest =>
      match magnitude rest with Some z => Int z | None => NaN end
  end.

(** [n > 0] on a [parseInt] result; [NaN] compares false. *)
Definition aboveZero (n : integer) : bool :=
  match n with
  | Int z => (0 <? z)%Z
  | NaN => false
  end.

End Js.

(** ** The parts of the document both classes query *)

Module Dom.

(** An element selected through a [data-*] attribute: the attribute's value
    and whether the element carries the class [active].  Selectors built by
    interpolating a name, such as [[data-view="${view}"]], are read as
    equality with the attribute; names are taken to be free of quotes and
    backslashes, for which the selector would not parse. *)
Record element := { attr : string; active : bool }.

(** [forEach(el => el.classList.remove('active'))] *)
Definition removeActive (els : list element) : list element :=
  map (fun el => {| attr := attr el; active := false |}) els.

(** [querySelector] returns the first match in document order;
    [classList.add('active')] is applied to it when there is one. *)
Fixpoint addActive (name : string) (els : list element) : list element :=
  match els with
  | [] => []
  | el :: rest =>
      if String.eqb (attr el) name
      then {| attr := attr el; active := true |} :: rest
      else el :: addActive name rest
  end.

(** The attribute values of the elements carrying [active]. *)
Definition activeOnes (els : list element) : list string :=
  attr <$> filter (fun el => active el = true) els.

(** [.bot-status]: the value last assigned to [textContent] (the document
    stores its string conversion) and the [className]. *)
Record statusElement := { statusText : Js.value; className : string }.

(** The three scalar cells; [None] when the element is not in the page.
    [.current-price] and [.account-balance] hold their [textContent]. *)
Record cells := {
  priceElement : option string;
  balanceElement : option string;
  botStatus : option statusElement
}.

Definition with_price (t : string) (c : cells) : cells :=
  {| priceElement := Some t; balanceElement := balanceElement c;
     botStatus := botStatus c |}.

Definition with_balance (t : string) (c : cells) : cells :=
  {| priceElement := priceElement c; balanceElement := Some t;
     botStatus := botStatus c |}.

Definition with_status (e : statusElement) (c : cells) : cells :=
  {| priceElement := priceElement c; balanceElement := balanceElement c;
     botStatus := Some e |}.

(** A row of [.trade-history tbody] as [createTradeRow] builds it: the
    values interpolated into its six cells.  The price cell is the text
    [toFixed(2)] returned; the other cells keep the value whose string
    conversion (or, for the time stamp, local date format) the page shows. *)
Record row := {
  symbol : Js.value;
  side : Js.value;        (* trade.type *)
  price : string;
  quantity : Js.value;
  status : Js.value;
  timestamp : Js.value
}.

End Dom.

(** ** DashboardSwitcher: the preference controller *)

Module DashboardSwitcher.

(** The only listener the class registers on the media query
    [(prefers-color-scheme: dark)]: the arrow function of [enableAutoTheme],
    which re-applies the theme the event resolves to. *)
Inductive listener := AutoThemeListener.

(** What a timer runs when it fires. *)
Inductive callback :=
| RefreshData
| RemoveRefreshNotification.

Record timer := { task : callback; delay : Js.integer; repeats : bool }.

Record state := {
  (* fields of the object *)
  currentView : string;
  currentTheme : string;
  refreshInterval : option positive;
  (* document *)
  viewContainers : list Dom.element;    (* .view-container, by data-view *)
  viewSwitchers : list Dom.element;     (* [data-view-switch] *)
  themeSwitchers : list Dom.element;    (* [data-theme-switch] *)
  layoutSwitchers : list Dom.element;   (* [data-layout-switch] *)
  refreshSwitchers : list Dom.element;  (* [data-refresh-switch] *)
  bodyTheme : option string;            (* body[data-theme] *)
  rootStyle : gmap string string;       (* custom properties of :root *)
  dashboardContainer : option (gset string);  (* its class list *)
  tradeFilterInputs : list nat;         (* input listeners per filter input *)
  refreshNotifications : list positive; (* .refresh-notification elements,
                                           named by their removal timer *)
  cells : Dom.cells;
  (* window *)
  localStorage : gmap string string;
  prefersDark : bool;                   (* matchMedia(...).matches *)
  mediaListeners : list listener;
  timers : gmap positive timer;         (* active timers by handle *)
  nextTimer : positive;
  requests : list string                (* URLs fetched so far, oldest first *)
}.

(** Assignments to one field. *)
Definition with_currentView (x : string) (s : state) : state :=
  Build_state x (currentTheme s) (refreshInterval s) (viewContainers s)
    (viewSwitchers s) (themeSwitchers s) (layoutSwitchers s)
    (refreshSwitchers s) (bodyTheme s) (rootStyle s) (dashboardContainer s)
    (tradeFilterInputs s) (refreshNotifications s) (cells s)
    (localStorage s) (prefersDark s) (mediaListeners s) (timers s)
    (nextTimer s) (requests s).

Definition with_currentTheme (x : string) (s : state) : state :=
  Build_state (currentView s) x (refreshInterval s) (viewContainers s)
    (viewSwitchers s) (themeSwitchers s) (layoutSwitchers s)
    (refreshSwitchers s) (bodyTheme s) (rootStyle s) (dashboardContainer s)
    (tradeFilterInputs s) (refreshNotifications s) (cells s)
    (localStorage s) (prefersDark s) (mediaListeners s) (timers s)
    (nextTimer s) (requests s).

Definition with_refreshInterval (x : option positive) (s : state) : state :=
  Build_state (currentView s) (currentTheme s) x (viewContainers s)
    (viewSwitchers s) (themeSwitchers s) (layoutSwitchers s)
    (refreshSwitchers s) (bodyTheme s) (rootStyle s) (dashboardContainer s)
    (tradeFilterInputs s) (refreshNotifications s) (cells s)
    (localStorage s) (prefersDark s) (mediaListeners s) (timers s)
    (nextTimer s) (requests s).

Definition with_viewContainers (x : list Dom.element) (s : state) : state :=
  Build_state (currentView s) (currentTheme s) (refreshInterval s) x
    (viewSwitchers s) (themeSwitchers s) (layoutSwitchers s)
    (refreshSwitchers s) (bodyTheme s) (rootStyle s) (dashboardContainer s)
    (tradeFilterInputs s) (refreshNotifications s) (cells s)
    (localStorage s) (prefersDark s) (mediaListeners s) (timers s)
    (nextTimer s) (requests s).

Definition with_viewSwitchers (x : list Dom.element) (s : state) : state :=
  Build_state (currentView s) (currentTheme s) (refreshInterval s)
    (viewContainers s) x (themeSwitchers s) (layoutSwitchers s)
    (refreshSwitchers s) (bodyTheme s) (rootStyle s) (dashboardContainer s)
    (tradeFilterInputs s) (refreshNotifications s) (cells s)
    (localStorage s) (prefersDark s) (mediaListeners s) (timers s)
    (nextTimer s) (requests s).

Definition with_themeSwitchers (x : list Dom.element) (s : state) : state :=
  Build_state (currentView s) (currentTheme s) (refreshInterval s)
    (viewContainers s) (viewSwitchers s) x (layoutSwitchers s)
    (refreshSwitchers s) (bodyTheme s) (rootStyle s) (dashboardContainer s)
    (tradeFilterInputs s) (refreshNotifications s) (cells s)
    (localStorage s) (prefersDark s) (mediaListeners s) (timers s)
    (nextTimer s) (requests s).

Definition with_layoutSwitchers (x : list Dom.element) (s : state) : state :=
  Build_state (currentView s) (currentTheme s) (refreshInterval s)
    (viewContainers s) (viewSwitchers s) (themeSwitchers s) x
    (refreshSwitchers s) (bodyTheme s) (rootStyle s) (dashboardContainer s)
    (tradeFilterInputs s) (refreshNotifications s) (cells s)
    (localStorage s) (prefersDark s) (mediaListeners s) (timers s)
    (nextTimer s) (requests s).

Definition with_refreshSwitchers (x : list Dom.element) (s : state) : state :=
  Build_state (currentView s) (currentTheme s) (refreshInterval s)
    (viewContainers s) (viewSwitchers s) (themeSwitchers s)
    (layoutSwitchers s) x (bodyTheme s) (rootStyle s) (dashboardContainer s)
    (tradeFilterInputs s) (refreshNotifications s) (cells s)
    (localStorage s) (prefersDark s) (mediaListeners s) (timers s)
    (nextTimer s) (requests s).

Definition with_bodyTheme (x : option string) (s : state) : state :=
  Build_state (currentView s) (currentTheme s) (refreshInterval s)
    (viewContainers s) (viewSwitchers s) (themeSwitchers s)
    (layoutSwitchers s) (refreshSwitchers s) x (rootStyle s)
    (dashboardContainer s) (tradeFilterInputs s) (refreshNotifications s)
    (cells s) (localStorage s) (prefersDark s) (mediaListeners s) (timers s)
    (nextTimer s) (requests s).

Definition with_rootStyle (x : gmap string string) (s : state) : state :=
  Build_state (currentView s) (currentTheme s) (refreshInterval s)
    (viewContainers s) (viewSwitchers s) (themeSwitchers s)
    (layoutSwitchers s) (refreshSwitchers s) (bodyTheme s) x
    (dashboardContainer s) (tradeFilterInputs s) (refreshNotifications s)
    (cells s) (localStorage s) (prefersDark s) (mediaListeners s) (timers s)
    (nextTimer s) (requests s).

Definition with_dashboardContainer (x : option (gset string)) (s : state) : state :=
  Build_state (currentView s) (currentTheme s) (refreshInterval s)
    (viewContainers s) (viewSwitchers s) (themeSwitchers s)
    (layoutSwitchers s) (refreshSwitchers s) (bodyTheme s) (rootStyle s) x
    (tradeFilterInputs s) (refreshNotifications s) (cells s)
    (localStorage s) (prefersDark s) (mediaListeners s) (timers s)
    (nextTimer s) (requests s).

Definition with_tradeFilterInputs (x : list nat) (s : state) : state :=
  Build_state (currentView s) (currentTheme s) (refreshInterval s)
    (viewContainers s) (viewSwitchers s) (themeSwitchers s)
    (layoutSwitchers s) (refreshSwitchers s) (bodyTheme s) (rootStyle s)
    (dashboardContainer s) x (refreshNotifications s) (cells s)
    (localStorage s) (prefersDark s) (mediaListeners s) (timers s)
    (nextTimer s) (requests s).

Definition with_refreshNotifications (x : list positive) (s : state) : state :=
  Build_state (currentView s) (currentTheme s) (refreshInterval s)
    (viewContainers s) (viewSwitchers s) (themeSwitchers s)
    (layoutSwitchers s) (refreshSwitchers s) (bodyTheme s) (rootStyle s)
    (dashboardContainer s) (tradeFilterInputs s) x (cells s)
    (localStorage s) (prefersDark s) (mediaListeners s) (timers s)
    (nextTimer s) (requests s).

Definition with_cells (x : Dom.cells) (s : state) : state :=
  Build_state (currentView s) (currentTheme s) (refreshInterval s)
    (viewContainers s) (viewSwitchers s) (themeSwitchers s)
    (layoutSwitchers s) (refreshSwitchers s) (bodyTheme s) (rootStyle s)
    (dashboardContainer s) (tradeFilterInputs s) (refreshNotifications s) x
    (localStorage s) (prefersDark s) (mediaListeners s) (timers s)
    (nextTimer s) (requests s).

Definition with_localStorage (x : gmap string string) (s : state) : state :=
  Build_state (currentView s) (currentTheme s) (refreshInterval s)
    (viewContainers s) (viewSwitchers s) (themeSwitchers s)
    (layoutSwitchers s) (refreshSwitchers s) (bodyTheme s) (rootStyle s)
    (dashboardContainer s) (tradeFilterInputs s) (refreshNotifications s)
    (cells s) x (prefersDark s) (mediaListeners s) (timers s) (nextTimer s)
    (requests s).

Definition with_prefersDark (x : bool) (s : state) : state :=
  Build_state (currentView s) (currentTheme s) (refreshInterval s)
    (viewContainers s) (viewSwitchers s) (themeSwitchers s)
    (layoutSwitchers s) (refreshSwitchers s) (bodyTheme s) (rootStyle s)
    (dashboardContainer s) (tradeFilterInputs s) (refreshNotifications s)
    (cells s) (localStorage s) x (mediaListeners s) (timers s) (nextTimer s)
    (requests s).

Definition with_mediaListeners (x : list listener) (s : state) : state :=
  Build_state (currentView s) (currentTheme s) (refreshInterval s)
    (viewContainers s) (viewSwitchers s) (themeSwitchers s)
    (layoutSwitchers s) (refreshSwitchers s) (bodyTheme s) (rootStyle s)
    (dashboardContainer s) (tradeFilterInputs s) (refreshNotifications s)
    (cells s) (localStorage s) (prefersDark s) x (timers s) (nextTimer s)
    (requests s).

Definition with_timers (x : gmap positive timer) (s : state) : state :=
  Build_state (currentView s) (currentTheme s) (refreshInterval s)
    (viewContainers s) (viewSwitchers s) (themeSwitchers s)
    (layoutSwitchers s) (refreshSwitchers s) (bodyTheme s) (rootStyle s)
    (dashboardContainer s) (tradeFilterInputs s) (refreshNotifications s)
    (cells s) (localStorage s) (prefersDark s) (mediaListeners s) x
    (nextTimer s) (requests s).

Definition with_nextTimer (x : positive) (s : state) : state :=
  Build_state (currentView s) (currentTheme s) (refreshInterval s)
    (viewContainers s) (viewSwitchers s) (themeSwitchers s)
    (layoutSwitchers s) (refreshSwitchers s) (bodyTheme s) (rootStyle s)
    (dashboardContainer s) (tradeFilterInputs s) (refreshNotifications s)
    (cells s) (localStorage s) (prefersDark s) (mediaListeners s) (timers s)
    x (requests s).

Definition with_requests (x : list string) (s : state) : state :=
  Build_state (currentView s) (currentTheme s) (refreshInterval s)
    (viewContainers s) (viewSwitchers s) (themeSwitchers s)
    (layoutSwitchers s) (refreshSwitchers s) (bodyTheme s) (rootStyle s)
    (dashboardContainer s) (tradeFilterInputs s) (refreshNotifications s)
    (cells s) (localStorage s) (prefersDark s) (mediaListeners s) (timers s)
    (nextTimer s) x.

Arguments with_currentView x !s /.
Arguments with_currentTheme x !s /.
Arguments with_refreshInterval x !s /.
Arguments with_viewContainers x !s /.
Arguments with_viewSwitchers x !s /.
Arguments with_themeSwitchers x !s /.
Arguments with_layoutSwitchers x !s /.
Arguments with_refreshSwitchers x !s /.
Arguments with_bodyTheme x !s /.
Arguments with_rootStyle x !s /.
Arguments with_dashboardContainer x !s /.
Arguments with_tradeFilterInputs x !s /.
Arguments with_refreshNotifications x !s /.
Arguments with_cells x !s /.
Arguments with_localStorage x !s /.
Arguments with_prefersDark x !s /.
Arguments with_mediaListeners x !s /.
Arguments with_timers x !s /.
Arguments with_nextTimer x !s /.
Arguments with_requests x !s /.

(** The object as the constructor leaves it before [init] runs, in a page
    [s] that has just been loaded. *)
Definition constructed (s : state) : state :=
  with_refreshInterval None
    (with_currentTheme "light" (with_currentView "dashboard" s)).

Definition getItem (key : string) (s : state) : option string :=
  localStorage s !! key.

Definition setItem (key value : string) (s : state) : state :=
  with_localStorage (<[key := value]> (localStorage s)) s.

Definition setProperty (name value : string) (s : state) : state :=
  with_rootStyle (<[name := value]> (rootStyle s)) s.

Definition applyTheme (theme : string) (s : state) : state :=
  let s := with_bodyTheme (Some theme) s in
  if String.eqb theme "dark" then
    let s := setProperty "--primary-color" "#3b82f6" s in
    let s := setProperty "--secondary-color" "#94a3b8" s in
    let s := setProperty "--dark-color" "#f8fafc" s in
    let s := setProperty "--light-color" "#1e293b" s in
    setProperty "--border-color" "#334155" s
  else
    let s := setProperty "--primary-color" "#2563eb" s in
    let s := setProperty "--secondary-color" "#64748b" s in
    let s := setProperty "--dark-color" "#1e293b" s in
    let s := setProperty "--light-color" "#f8fafc" s in
    setProperty "--border-color" "#e2e8f0" s.

(** The body of [switchTheme] below its test for ['auto']. *)
Definition switchConcreteTheme (theme : string) (s : state) : state :=
  let s := with_currentTheme theme s in
  let s := applyTheme theme s in
  let s := setItem "dashboard-theme" theme s in
  let s := with_themeSwitchers (Dom.removeActive (themeSwitchers s)) s in
  with_themeSwitchers (Dom.addActive theme (themeSwitchers s)) s.

(** [enableAutoTheme] calls [switchTheme] with ['dark'] or ['light'], never
    with ['auto'], so the call runs the body above (see
    [enableAutoTheme_unfold]). *)
Definition enableAutoTheme (s : state) : state :=
  let theme := if prefersDark s then "dark" else "light" in
  let s := switchConcreteTheme theme s in
  let s := setItem "dashboard-theme" "auto" s in
  with_mediaListeners (mediaListeners s ++ [AutoThemeListener]) s.

Definition switchTheme (theme : string) (s : state) : state :=
  if String.eqb theme "auto" then enableAutoTheme s
  else switchConcreteTheme theme s.

(** A [change] event of the media query: the system preference becomes
    [matches] and every registered listener runs, in registration order. *)
Definition runListener (matches : bool) (s : state) (l : listener) : state :=
  match l with
  | AutoThemeListener => applyTheme (if matches then "dark" else "light") s
  end.

Definition systemPreferenceChange (matches : bool) (s : state) : state :=
  foldl (runListener matches) (with_prefersDark matches s) (mediaListeners s).

(** *** Views *)

(** [fetch(url)]: the request leaves when the call is made; what the
    response does is a separate step ([dashboardDataArrived] below). *)
Definition fetch (url : string) (s : state) : state :=
  with_requests (requests s ++ [url]) s.

Definition loadDashboardData : state -> state := fetch "/api/dashboard-data".
Definition loadTradeHistory : state -> state := fetch "/api/trade-history".
Definition loadAnalyticsData : state -> state := fetch "/api/analytics-data".
Definition loadSettings : state -> state := fetch "/api/settings".

(** [setupDashboardCharts] and [setupAnalyticsCharts] only obtain a drawing
    context for each chart element (taken to be canvases); nothing the
    model tracks changes. *)
Definition setupDashboardCharts (s : state) : state := s.
Definition setupAnalyticsCharts (s : state) : state := s.

(** One more [input] listener on every filter input. *)
Definition setupTradeFilters (s : state) : state :=
  with_tradeFilterInputs (S <$> tradeFilterInputs s) s.

Definition initializeDashboard (s : state) : state :=
  setupDashboardCharts (loadDashboardData s).

Definition initializeTradesView (s : state) : state :=
  setupTradeFilters (loadTradeHistory s).

Definition initializeAnalyticsView (s : state) : state :=
  setupAnalyticsCharts (loadAnalyticsData s).

Definition initializeSettingsView (s : state) : state := loadSettings s.

Definition initializeView (view : string) (s : state) : state :=
  if String.eqb view "dashboard" then initializeDashboard s
  else if String.eqb view "trades" then initializeTradesView s
  else if String.eqb view "analytics" then initializeAnalyticsView s
  else if String.eqb view "settings" then initializeSettingsView s
  else s.

Definition switchView (view : string) (s : state) : state :=
  let s := with_viewContainers (Dom.removeActive (viewContainers s)) s in
  let s := with_viewContainers (Dom.addActive view (viewContainers s)) s in
  let s := with_viewSwitchers (Dom.removeActive (viewSwitchers s)) s in
  let s := with_viewSwitchers (Dom.addActive view (viewSwitchers s)) s in
  let s := with_currentView view s in
  let s := setItem "dashboard-view" view s in
  initializeView view s.

(** *** Layout *)

Definition layoutClasses : gset string :=
  {[ "layout-grid"; "layout-list"; "layout-compact" ]}.

Definition applyLayout (layout : string) (s : state) : state :=
  match dashboardContainer s with
  | Some classes =>
      with_dashboardContainer
        (Some ((classes ∖ layoutClasses) ∪ {[ "layout-" ++ layout ]})) s
  | None => s
  end.

Definition switchLayout (layout : string) (s : state) : state :=
  let s := match dashboardContainer s with
           | Some classes =>
               with_dashboardContainer
                 (Some ((classes ∖ layoutClasses) ∪ {[ "layout-" ++ layout ]})) s
           | None => s
           end in
  let s := setItem "dashboard-layout" layout s in
  let s := with_layoutSwitchers (Dom.removeActive (layoutSwitchers s)) s in
  with_layoutSwitchers (Dom.addActive layout (layoutSwitchers s)) s.

(** *** Refresh rate *)

Definition clearInterval (id : positive) (s : state) : state :=
  with_timers (delete id (timers s)) s.

(** [setInterval] and [setTimeout] hand out the next handle. *)
Definition addTimer (t : timer) (s : state) : positive * state :=
  (nextTimer s,
   with_nextTimer (Pos.succ (nextTimer s))
     (with_timers (<[nextTimer s := t]> (timers s)) s)).

Definition times1000 (n : Js.integer) : Js.integer :=
  match n with
  | Js.Int z => Js.Int (z * 1000)
  | Js.NaN => Js.NaN
  end.

Definition setRefreshRate (seconds : Js.integer) (s : state) : state :=
  let s := match refreshInterval s with
           | Some id => clearInterval id s
           | None => s
           end in
  let s := if Js.aboveZero seconds then
             let '(id, s) :=
               addTimer {| task := RefreshData; delay := times1000 seconds;
                           repeats := true |} s in
             with_refreshInterval (Some id) s
           else s in
  let s := setItem "dashboard-refresh-rate" (Js.toString seconds) s in
  let s := with_refreshSwitchers (Dom.removeActive (refreshSwitchers s)) s in
  with_refreshSwitchers
    (Dom.addActive (Js.toString seconds) (refreshSwitchers s)) s.

(** *** Start-up *)

Definition loadSavedSettings (s : state) : state :=
  let s := match Js.truthyItem (getItem "dashboard-theme" s) with
           | Some savedTheme =>
               applyTheme savedTheme (with_currentTheme savedTheme s)
           | None => s
           end in
  let s := match Js.truthyItem (getItem "dashboard-view" s) with
           | Some savedView => switchView savedView (with_currentView savedView s)
           | None => s
           end in
  let s := match Js.truthyItem (getItem "dashboard-layout" s) with
           | Some savedLayout => applyLayout savedLayout s
           | None => s
           end in
  match Js.truthyItem (getItem "dashboard-refresh-rate" s) with
  | Some savedRefreshRate => setRefreshRate (Js.parseInt savedRefreshRate) s
  | None => s
  end.

(** [new DashboardSwitcher()]; the [setup...] methods of [init] only attach
    click handlers, whose effect is that of the method each one calls. *)
Definition init (s : state) : state := loadSavedSettings (constructed s).

(** *** Data refresh *)

Definition onCells (f : Dom.cells -> Dom.cells) (s : state) : state :=
  with_cells (f (cells s)) s.

Definition andThen {A} (o : Js.outcome A) (f : A -> Js.outcome A) : Js.outcome A :=
  match o with
  | Js.Returns a => f a
  | Js.Throws a => Js.Throws a
  end.

Definition updateDashboardData (data : Js.value) (s : state) : Js.outcome state :=
  let price s :=
    match Js.get data "current_price" with
    | None => Js.Throws s
    | Some current_price =>
        if Js.truthy current_price then
          match Dom.priceElement (cells s) with
          | Some _ =>
              match Js.callToFixed2 current_price with
              | Some text => Js.Returns (onCells (Dom.with_price ("$" ++ text)) s)
              | None => Js.Throws s
              end
          | None => Js.Returns s
          end
        else Js.Returns s
    end in
  let balance s :=
    match Js.get data "balance" with
    | None => Js.Throws s
    | Some balance =>
        if Js.truthy balance then
          match Dom.balanceElement (cells s) with
          | Some _ =>
              match Js.callToFixed2 balance with
              | Some text => Js.Returns (onCells (Dom.with_balance ("$" ++ text)) s)
              | None => Js.Throws s
              end
          | None => Js.Returns s
          end
        else Js.Returns s
    end in
  let status s :=
    match Js.get data "bot_status" with
    | None => Js.Throws s
    | Some bot_status =>
        if Js.truthy bot_status then
          match Dom.botStatus (cells s) with
          | Some el =>
              let s := onCells (Dom.with_status
                          {| Dom.statusText := bot_status;
                             Dom.className := Dom.className el |}) s in
              match Js.callToLowerCase bot_status with
              | Some lower =>
                  Js.Returns (onCells (Dom.with_status
                          {| Dom.statusText := bot_status;
                             Dom.className := "bot-status status-" ++ lower |}) s)
              | None => Js.Throws s
              end
          | None => Js.Returns s
          end
        else Js.Returns s
    end in
  andThen (andThen (price s) balance) status.

Definition showRefreshNotification (s : state) : state :=
  let '(id, s) :=
    addTimer {| task := RemoveRefreshNotification; delay := Js.Int 2000;
                repeats := false |} s in
  with_refreshNotifications (refreshNotifications s ++ [id]) s.

(** The response of a request for [/api/dashboard-data] arrives with body
    [data].  [loadDashboardData] applies it; [refreshData] also announces
    it.  Both catch what [updateDashboardData] throws and log it, which
    leaves the state as the throw found it. *)
Definition caught (o : Js.outcome state) : state :=
  match o with
  | Js.Returns s => s
  | Js.Throws s => s
  end.

Definition dashboardDataArrived (data : Js.value) (s : state) : state :=
  caught (updateDashboardData data s).

Definition refreshDataArrived (data : Js.value) (s : state) : state :=
  match updateDashboardData data s with
  | Js.Returns s => showRefreshNotification s
  | Js.Throws s => s
  end.

(** A timer fires. *)
Definition fireTimer (id : positive) (s : state) : state :=
  match timers s !! id with
  | Some {| task := RefreshData |} => fetch "/api/dashboard-data" s
  | Some {| task := RemoveRefreshNotification |} =>
      with_refreshNotifications
        (filter (fun n => n ≠ id) (refreshNotifications s))
        (with_timers (delete id (timers s)) s)
  | None => s
  end.

(** *** Everything that can happen to the controller once it is built

    A click on a switcher button is the call it makes.  The button of the
    auto theme carries two click handlers, the common one and one of its
    own, so a click on it is [SwitchTheme "auto"] followed by
    [EnableAutoTheme]. *)

Inductive event :=
| SwitchView (view : string)
| SwitchTheme (theme : string)
| EnableAutoTheme
| SwitchLayout (layout : string)
| SetRefreshRate (seconds : Js.integer)
| SystemPreferenceChange (matches : bool)
| TimerFires (id : positive)
| DashboardDataArrived (data : Js.value)
| RefreshDataArrived (data : Js.value).

Definition step (s : state) (e : event) : state :=
  match e with
  | SwitchView view => switchView view s
  | SwitchTheme theme => switchTheme theme s
  | EnableAutoTheme => enableAutoTheme s
  | SwitchLayout layout => switchLayout layout s
  | SetRefreshRate seconds => setRefreshRate seconds s
  | SystemPreferenceChange matches => systemPreferenceChange matches s
  | TimerFires id => fireTimer id s
  | DashboardDataArrived data => dashboardDataArrived data s
  | RefreshDataArrived data => refreshDataArrived data s
  end.

Definition run (s : state) (es : list event) : state := foldl step s es.

End DashboardSwitcher.

(** ** TradingDashboard: live channel, recent trades, notifications *)

Module TradingDashboard.

(** A [.notification] element: the node created for it, and the class and
    message of the markup. *)
Record notification := { node : nat; kind : string; message : string }.

(** What a pending [setTimeout] runs. *)
Inductive callback :=
| RemoveNotification (n : nat)
| Reconnect.

(** A pending timeout and the time, in milliseconds, at which it is due. *)
Record timeout := { due : Z; task : callback }.

Record state := {
  cells : Dom.cells;
  tradeTable : option (list Dom.row);     (* rows of .trade-history tbody *)
  container : option (list notification); (* .notification-container *)
  nextNode : nat;                         (* nodes created so far *)
  pending : list timeout;
  now : Z;
  webSocketAvailable : bool;              (* whether [new WebSocket] works *)
  sockets : nat;                          (* WebSocket objects created *)
  console : list string;
  removeCalls : list nat    (* notification nodes [remove()] was called on *)
}.

(** Assignments to one field. *)
Definition with_cells (x : Dom.cells) (s : state) : state :=
  Build_state x (tradeTable s) (container s) (nextNode s) (pending s) (now s)
    (webSocketAvailable s) (sockets s) (console s) (removeCalls s).

Definition with_tradeTable (x : option (list Dom.row)) (s : state) : state :=
  Build_state (cells s) x (container s) (nextNode s) (pending s) (now s)
    (webSocketAvailable s) (sockets s) (console s) (removeCalls s).

Definition with_container (x : option (list notification)) (s : state) : state :=
  Build_state (cells s) (tradeTable s) x (nextNode s) (pending s) (now s)
    (webSocketAvailable s) (sockets s) (console s) (removeCalls s).

Definition with_nextNode (x : nat) (s : state) : state :=
  Build_state (cells s) (tradeTable s) (container s) x (pending s) (now s)
    (webSocketAvailable s) (sockets s) (console s) (removeCalls s).

Definition with_pending (x : list timeout) (s : state) : state :=
  Build_state (cells s) (tradeTable s) (container s) (nextNode s) x (now s)
    (webSocketAvailable s) (sockets s) (console s) (removeCalls s).

Definition with_now (x : Z) (s : state) : state :=
  Build_state (cells s) (tradeTable s) (container s) (nextNode s) (pending s)
    x (webSocketAvailable s) (sockets s) (console s) (removeCalls s).

Definition with_webSocketAvailable (x : bool) (s : state) : state :=
  Build_state (cells s) (tradeTable s) (container s) (nextNode s) (pending s)
    (now s) x (sockets s) (console s) (removeCalls s).

Definition with_sockets (x : nat) (s : state) : state :=
  Build_state (cells s) (tradeTable s) (container s) (nextNode s) (pending s)
    (now s) (webSocketAvailable s) x (console s) (removeCalls s).

Definition with_console (x : list string) (s : state) : state :=
  Build_state (cells s) (tradeTable s) (container s) (nextNode s) (pending s)
    (now s) (webSocketAvailable s) (sockets s) x (removeCalls s).

Definition with_removeCalls (x : list nat) (s : state) : state :=
  Build_state (cells s) (tradeTable s) (container s) (nextNode s) (pending s)
    (now s) (webSocketAvailable s) (sockets s) (console s) x.

Arguments with_cells x !s /.
Arguments with_tradeTable x !s /.
Arguments with_container x !s /.
Arguments with_nextNode x !s /.
Arguments with_pending x !s /.
Arguments with_now x !s /.
Arguments with_webSocketAvailable x !s /.
Arguments with_sockets x !s /.
Arguments with_console x !s /.
Arguments with_removeCalls x !s /.

Definition log (line : string) (s : state) : state :=
  with_console (console s ++ [line]) s.

Definition onCells (f : Dom.cells -> Dom.cells) (s : state) : state :=
  with_cells (f (cells s)) s.

Definition andThen {A} (o : Js.outcome A) (f : A -> Js.outcome A) : Js.outcome A :=
  match o with
  | Js.Returns a => f a
  | Js.Throws a => Js.Throws a
  end.

(** The pending timeouts are kept in the order they will fire: by due
    time, and among those due together in the order they were set. *)
Fixpoint enqueue (t : timeout) (queue : list timeout) : list timeout :=
  match queue with
  | [] => [t]
  | u :: rest =>
      if decide (due u ≤ due t)%Z then u :: enqueue t rest else t :: queue
  end.

(** [setTimeout(task, delay)]; a negative delay counts as none. *)
Definition setTimeout (task : callback) (delay : Z) (s : state) : state :=
  with_pending
    (enqueue {| due := now s + Z.max 0 delay; task := task |} (pending s)) s.

(** *** Scalar cells *)

Definition updatePriceDisplay (price : Js.value) (s : state) : Js.outcome state :=
  match Dom.priceElement (cells s) with
  | Some _ =>
      match Js.callToFixed2 price with
      | Some text => Js.Returns (onCells (Dom.with_price ("$" ++ text)) s)
      | None => Js.Throws s
      end
  | None => Js.Returns s
  end.

Definition updateBalanceDisplay (balance : Js.value) (s : state) : Js.outcome state :=
  match Dom.balanceElement (cells s) with
  | Some _ =>
      match Js.callToFixed2 balance with
      | Some text => Js.Returns (onCells (Dom.with_balance ("$" ++ text)) s)
      | None => Js.Throws s
      end
  | None => Js.Returns s
  end.

Definition updateBotStatus (status : Js.value) (s : state) : Js.outcome state :=
  match Dom.botStatus (cells s) with
  | Some el =>
      let s := onCells (Dom.with_status
                  {| Dom.statusText := status;
                     Dom.className := Dom.className el |}) s in
      match Js.callToLowerCase status with
      | Some lower =>
          Js.Returns (onCells (Dom.with_status
                  {| Dom.statusText := status;
                     Dom.className := "bot-status status-" ++ lower |}) s)
      | None => Js.Throws s
      end
  | None => Js.Returns s
  end.

(** *** Recent trades *)

(** [None] when building the row throws: [trade] is [undefined] or [null],
    or [trade.price] is not a number. *)
Definition createTradeRow (trade : Js.value) : option Dom.row :=
  symbol ← Js.get trade "symbol";
  side ← Js.get trade "type";
  price ← Js.get trade "price";
  text ← Js.callToFixed2 price;
  quantity ← Js.get trade "quantity";
  status ← Js.get trade "status";
  timestamp ← Js.get trade "timestamp";
  Some {| Dom.symbol := symbol; Dom.side := side; Dom.price := "$" ++ text;
          Dom.quantity := quantity; Dom.status := status;
          Dom.timestamp := timestamp |}.

(** [insertBefore(newRow, firstChild)], then the last row is removed when
    the table has more than ten. *)
Definition insertRow (newRow : Dom.row) (rows : list Dom.row) : list Dom.row :=
  let rows := newRow :: rows in
  if (10 <? length rows)%nat then removelast rows else rows.

Definition updateTradeHistory (trades : Js.value) (s : state) : Js.outcome state :=
  match tradeTable s with
  | Some rows =>
      match Js.get trades "length" with
      | None => Js.Throws s
      | Some len =>
          if Js.gtZero len then
            match Js.item0 trades ≫= createTradeRow with
            | Some newRow =>
                Js.Returns (with_tradeTable (Some (insertRow newRow rows)) s)
            | None => Js.Throws s
            end
          else Js.Returns s
      end
  | None => Js.Returns s
  end.

(** *** Live channel *)

(** [event.data], by what [JSON.parse] makes of it. *)
Inductive payload :=
| Malformed (text : string)
| Json (data : Js.value).

(** [None] is the [SyntaxError]. *)
Definition JSON_parse (p : payload) : option Js.value :=
  match p with
  | Malformed _ => None
  | Json data => Some data
  end.

Definition handleWebSocketMessage (data : Js.value) (s : state) : Js.outcome state :=
  match Js.get data "type" with
  | None => Js.Throws s
  | Some type =>
      if Js.isString type "price_update" then
        updatePriceDisplay (default Js.VUndefined (Js.get data "price")) s
      else if Js.isString type "trade_update" then
        updateTradeHistory (default Js.VUndefined (Js.get data "trade")) s
      else if Js.isString type "balance_update" then
        updateBalanceDisplay (default Js.VUndefined (Js.get data "balance")) s
      else if Js.isString type "status_update" then
        updateBotStatus (default Js.VUndefined (Js.get data "status")) s
      else Js.Returns s
  end.

(** The [onmessage] handler.  It has no [try]: whatever is thrown leaves
    the handler. *)
Definition onmessage (p : payload) (s : state) : Js.outcome state :=
  match JSON_parse p with
  | Some data => handleWebSocketMessage data s
  | None => Js.Throws s
  end.

Definition setupWebSocket (s : state) : state :=
  if webSocketAvailable s then with_sockets (S (sockets s)) s
  else log "WebSocket not available, using polling" s.

Definition onopen (s : state) : state := log "WebSocket connected" s.

Definition onclose (s : state) : state :=
  setTimeout Reconnect 5000 (log "WebSocket disconnected" s).

Definition onerror (s : state) : state := log "WebSocket error:" s.

(** *** Polling: the response of [/api/dashboard-data] arrives *)

Definition updateDashboardData (data : Js.value) (s : state) : state :=
  let body :=
    match Js.get data "current_price" with
    | None => Js.Throws s
    | Some current_price =>
        andThen (updatePriceDisplay current_price s) (fun s =>
        andThen (updateBalanceDisplay (default Js.VUndefined (Js.get data "balance")) s) (fun s =>
        andThen (updateTradeHistory (default Js.VUndefined (Js.get data "recent_trades")) s) (fun s =>
        updateBotStatus (default Js.VUndefined (Js.get data "bot_status")) s)))
    end in
  match body with
  | Js.Returns s => s
  | Js.Throws s => log "Failed to update dashboard data:" s
  end.

(** *** Notifications *)

Definition setupNotifications (s : state) : state :=
  match container s with
  | Some _ => s
  | None => with_container (Some []) s
  end.

Definition showNotification (message type : string) (duration : Z) (s : state) : state :=
  match container s with
  | None => s
  | Some children =>
      let n := nextNode s in
      let s := with_nextNode (S n) s in
      let s := with_container
                 (Some (children ++ [{| node := n;
                                        kind := "notification notification-" ++ type;
                                        message := message |}])%list) s in
      setTimeout (RemoveNotification n) duration s
  end.

(** [notification.remove()]: detaches the node if it is attached. *)
Definition remove (n : nat) (s : state) : state :=
  let s := with_removeCalls (removeCalls s ++ [n]) s in
  with_container (filter (fun x => node x ≠ n) <$> container s) s.

(** A click on the close button of notification [n]. *)
Definition dismiss (n : nat) (s : state) : state := remove n s.

Definition fire (s : state) (t : timeout) : state :=
  match task t with
  | RemoveNotification n => remove n s
  | Reconnect => setupWebSocket s
  end.

(** Time moves on to [t]: the timeouts due by then run, in the order of
    the table, and leave it. *)
Definition advance (t : Z) (s : state) : state :=
  let dueNow := filter (fun x => due x ≤ t)%Z (pending s) in
  let later := filter (fun x => ¬ (due x ≤ t)%Z) (pending s) in
  foldl fire (with_now (Z.max (now s) t) (with_pending later s)) dueNow.

Inductive event :=
| Open
| Message (p : payload)
| Close
| Error
| PollArrived (data : Js.value)
| ShowNotification (message type : string) (duration : Z)
| Dismiss (n : nat)
| Advance (t : Z).

Definition uncaught (o : Js.outcome state) : state :=
  match o with
  | Js.Returns s => s
  | Js.Throws s => s
  end.

Definition step (s : state) (e : event) : state :=
  match e with
  | Open => onopen s
  | Message p => uncaught (onmessage p s)
  | Close => onclose s
  | Error => onerror s
  | PollArrived data => updateDashboardData data s
  | ShowNotification message type duration =>
      showNotification message type duration s
  | Dismiss n => dismiss n s
  | Advance t => advance t s
  end.

Definition run (s : state) (es : list event) : state := foldl step s es.

End TradingDashboard.

(** ** A page to run the classes on *)

Module Sample.

Definition inactive (name : string) : Dom.element :=
  {| Dom.attr := name; Dom.active := false |}.

Definition shown (name : string) : Dom.element :=
  {| Dom.attr := name; Dom.active := true |}.

Definition cells : Dom.cells :=
  {| Dom.priceElement := Some "$101.50";
     Dom.balanceElement := Some "$2500.00";
     Dom.botStatus := Some {| Dom.statusText := Js.VString "Running";
                              Dom.className := "bot-status status-running" |} |}.

(** The page as served, on a system that prefers dark, before any script
    has run and with nothing stored. *)
Definition page : DashboardSwitcher.state :=
  {| DashboardSwitcher.currentView := "dashboard";
     DashboardSwitcher.currentTheme := "light";
     DashboardSwitcher.refreshInterval := None;
     DashboardSwitcher.viewContainers :=
       [shown "dashboard"; inactive "trades"; inactive "analytics";
        inactive "settings"];
     DashboardSwitcher.viewSwitchers :=
       [shown "dashboard"; inactive "trades"; inactive "analytics";
        inactive "settings"];
     DashboardSwitcher.themeSwitchers :=
       [shown "light"; inactive "dark"; inactive "auto"];
     DashboardSwitcher.layoutSwitchers :=
       [shown "grid"; inactive "list"; inactive "compact"];
     DashboardSwitcher.refreshSwitchers :=
       [shown "0"; inactive "5"; inactive "30"];
     DashboardSwitcher.bodyTheme := None;
     DashboardSwitcher.rootStyle := ∅;
     DashboardSwitcher.dashboardContainer := Some {[ "dashboard-container" ]};
     DashboardSwitcher.tradeFilterInputs := [0%nat];
     DashboardSwitcher.refreshNotifications := [];
     DashboardSwitcher.cells := cells;
     DashboardSwitcher.localStorage := ∅;
     DashboardSwitcher.prefersDark := true;
     DashboardSwitcher.mediaListeners := [];
     DashboardSwitcher.timers := ∅;
     DashboardSwitcher.nextTimer := 1%positive;
     DashboardSwitcher.requests := [] |}.

(** The same page as [TradingDashboard] sees it once [init] has run: an
    empty trade table and an empty notification container. *)
Definition dashboard : TradingDashboard.state :=
  {| TradingDashboard.cells := cells;
     TradingDashboard.tradeTable := Some [];
     TradingDashboard.container := Some [];
     TradingDashboard.nextNode := 0%nat;
     TradingDashboard.pending := [];
     TradingDashboard.now := 0%Z;
     TradingDashboard.webSocketAvailable := true;
     TradingDashboard.sockets := 1%nat;
     TradingDashboard.console := [];
     TradingDashboard.removeCalls := [] |}.

Definition trade (price : Z) : Js.value :=
  Js.VObject [("symbol", Js.VString "SOL"); ("type", Js.VString "buy");
              ("price", Js.VNumber (inject_Z price));
              ("quantity", Js.VNumber 2); ("status", Js.VString "filled");
              ("timestamp", Js.VNumber (inject_Z (1700000000000 + price)))].

(** Eleven snapshots, each carrying one new trade. *)
Definition snapshots : list Js.value :=
  (fun p => Js.VArray [trade p]) <$> [1; 2; 3; 4; 5; 6; 7; 8; 9; 10; 11]%Z.

End Sample.

(** * Properties *)

(** ** The Recent Activity Window *)

Module RecentActivity.
Import TradingDashboard.
Local Open Scope nat_scope.

(** The rows of the trade table, none when the page has no table. *)
Definition window (s : state) : list Dom.row := default [] (tradeTable s).

Definition capacity : nat := 10.

Lemma insertRow_take (r : Dom.row) (rows : list Dom.row) :
  length rows ≤ capacity → insertRow r rows = take capacity (r :: rows).
Proof.
  intros Hlen. unfold insertRow, capacity in *.
  destruct (10 <? length (r :: rows))%nat eqn:Hfull.
  - apply Nat.ltb_lt in Hfull. cbn [length] in Hfull.
    rewrite removelast_firstn_len. cbn [length Init.Nat.pred].
    replace (length rows) with 10 by lia. reflexivity.
  - apply Nat.ltb_ge in Hfull. symmetry. apply take_ge. exact Hfull.
Qed.

Lemma insertRow_length (r : Dom.row) (rows : list Dom.row) :
  length rows ≤ capacity → length (insertRow r rows) ≤ capacity.
Proof.
  intros Hlen. rewrite insertRow_take by exact Hlen.
  rewrite length_take. lia.
Qed.

Lemma take_app_take {A} (n : nat) (l k : list A) :
  take n (l ++ take n k) = take n (l ++ k).
Proof.
  rewrite !take_app, take_take. f_equal. f_equal. lia.
Qed.

(** Inserting [rs] one at a time, oldest first, leaves the newest rows in
    front, cut at the capacity. *)
Lemma insertRows_take (rs rows : list Dom.row) :
  length rows ≤ capacity →
  foldl (fun w r => insertRow r w) rows rs = take capacity (reverse rs ++ rows).
Proof.
  revert rows. induction rs as [|r rs IH]; intros rows Hlen.
  - cbn. symmetry. apply take_ge. exact Hlen.
  - cbn [foldl]. rewrite IH by (apply insertRow_length; exact Hlen).
    rewrite insertRow_take by exact Hlen.
    rewrite take_app_take, reverse_cons, <- app_assoc. reflexivity.
Qed.

(** *** What each handler does to the table *)

Lemma window_updateTradeHistory (trades : Js.value) (s : state) :
  window (uncaught (updateTradeHistory trades s)) = window s
  ∨ ∃ r rows, tradeTable s = Some rows
      ∧ window (uncaught (updateTradeHistory trades s)) = insertRow r rows.
Proof.
  unfold updateTradeHistory.
  destruct (tradeTable s) as [rows|] eqn:Htable; [|by left].
  destruct (Js.get trades "length") as [len|]; [|by left].
  destruct (Js.gtZero len); [|by left].
  destruct (Js.item0 trades ≫= createTradeRow) as [r|]; [|by left].
  right. exists r, rows. split; reflexivity.
Qed.

Lemma tradeTable_updatePriceDisplay (v : Js.value) (s : state) :
  tradeTable (uncaught (updatePriceDisplay v s)) = tradeTable s.
Proof.
  unfold updatePriceDisplay.
  destruct (Dom.priceElement (cells s)); [|reflexivity].
  destruct (Js.callToFixed2 v); reflexivity.
Qed.

Lemma tradeTable_updateBalanceDisplay (v : Js.value) (s : state) :
  tradeTable (uncaught (updateBalanceDisplay v s)) = tradeTable s.
Proof.
  unfold updateBalanceDisplay.
  destruct (Dom.balanceElement (cells s)); [|reflexivity].
  destruct (Js.callToFixed2 v); reflexivity.
Qed.

Lemma tradeTable_updateBotStatus (v : Js.value) (s : state) :
  tradeTable (uncaught (updateBotStatus v s)) = tradeTable s.
Proof.
  unfold updateBotStatus.
  destruct (Dom.botStatus (cells s)); [|reflexivity].
  destruct (Js.callToLowerCase v); reflexivity.
Qed.

Definition bounded (s : state) : Prop := length (window s) ≤ capacity.

Lemma bounded_updateTradeHistory (trades : Js.value) (s : state) :
  bounded s → bounded (uncaught (updateTradeHistory trades s)).
Proof.
  unfold bounded. intros Hs.
  destruct (window_updateTradeHistory trades s) as [->|(r & rows & Ht & ->)].
  - exact Hs.
  - apply insertRow_length. unfold window in Hs. rewrite Ht in Hs. exact Hs.
Qed.

Lemma bounded_same (s s' : state) :
  tradeTable s' = tradeTable s → bounded s → bounded s'.
Proof. unfold bounded, window. by intros ->. Qed.

Lemma uncaught_andThen (o : Js.outcome state) (f : state → Js.outcome state)
    (P : state → Prop) :
  P (uncaught o) → (∀ s, P s → P (uncaught (f s))) → P (uncaught (andThen o f)).
Proof. destruct o as [s|s]; cbn; auto. Qed.

Lemma bounded_onmessage (p : payload) (s : state) :
  bounded s → bounded (uncaught (onmessage p s)).
Proof.
  intros Hs. unfold onmessage.
  destruct (JSON_parse p) as [data|]; [|exact Hs].
  unfold handleWebSocketMessage.
  destruct (Js.get data "type") as [type|]; [|exact Hs].
  repeat case_match; try exact Hs.
  - eapply bounded_same; [apply tradeTable_updatePriceDisplay|exact Hs].
  - by apply bounded_updateTradeHistory.
  - eapply bounded_same; [apply tradeTable_updateBalanceDisplay|exact Hs].
  - eapply bounded_same; [apply tradeTable_updateBotStatus|exact Hs].
Qed.

Lemma bounded_updateDashboardData (data : Js.value) (s : state) :
  bounded s → bounded (updateDashboardData data s).
Proof.
  intros Hs. unfold updateDashboardData.
  destruct (Js.get data "current_price") as [price|]; [|exact Hs].
  set (body := andThen _ _).
  assert (bounded (uncaught body)) as Hbody.
  { subst body. apply uncaught_andThen.
    { eapply bounded_same; [apply tradeTable_updatePriceDisplay|exact Hs]. }
    intros s1 Hs1. apply uncaught_andThen.
    { eapply bounded_same; [apply tradeTable_updateBalanceDisplay|exact Hs1]. }
    intros s2 Hs2. apply uncaught_andThen.
    { by apply bounded_updateTradeHistory. }
    intros s3 Hs3.
    eapply bounded_same; [apply tradeTable_updateBotStatus|exact Hs3]. }
  destruct body; exact Hbody.
Qed.

Lemma tradeTable_fire (s : state) (t : timeout) :
  tradeTable (fire s t) = tradeTable s.
Proof.
  unfold fire. destruct (task t); [reflexivity|].
  unfold setupWebSocket. destruct (webSocketAvailable s); reflexivity.
Qed.

Lemma tradeTable_foldl_fire (ts : list timeout) (s : state) :
  tradeTable (foldl fire s ts) = tradeTable s.
Proof.
  revert s. induction ts as [|t ts IH]; intros s; [reflexivity|].
  cbn [foldl]. rewrite IH. apply tradeTable_fire.
Qed.

Lemma bounded_step (s : state) (e : event) : bounded s → bounded (step s e).
Proof.
  intros Hs. destruct e; cbn [step].
  - exact Hs.
  - by apply bounded_onmessage.
  - exact Hs.
  - exact Hs.
  - by apply bounded_updateDashboardData.
  - unfold showNotification. destruct (container s); exact Hs.
  - exact Hs.
  - eapply bounded_same; [|exact Hs].
    unfold advance. rewrite tradeTable_foldl_fire. reflexivity.
Qed.

Lemma bounded_run (es : list event) (s : state) : bounded s → bounded (run s es).
Proof.
  revert s. induction es as [|e es IH]; intros s Hs; [exact Hs|].
  apply IH, bounded_step, Hs.
Qed.

(** A trade message or snapshot whose newest trade renders as [r]. *)
Definition inserts (trades : Js.value) (r : Dom.row) : Prop :=
  (∃ len, Js.get trades "length" = Some len ∧ Js.gtZero len = true)
  ∧ Js.item0 trades ≫= createTradeRow = Some r.

Definition insert (s : state) (trades : Js.value) : state :=
  uncaught (updateTradeHistory trades s).

Lemma window_insert (trades : Js.value) (r : Dom.row) (s : state) (rows : list Dom.row) :
  tradeTable s = Some rows → inserts trades r →
  tradeTable (insert s trades) = Some (insertRow r rows).
Proof.
  intros Ht [(len & Hlen & Hpos) Hrow].
  unfold insert, updateTradeHistory. rewrite Ht, Hlen, Hpos, Hrow. reflexivity.
Qed.

Lemma window_inserts (calls : list Js.value) (rs : list Dom.row) (s : state)
    (rows : list Dom.row) :
  tradeTable s = Some rows → Forall2 inserts calls rs →
  tradeTable (foldl insert s calls)
  = Some (foldl (fun w r => insertRow r w) rows rs).
Proof.
  intros Ht Hall. revert s rows Ht.
  induction Hall as [|trades r calls rs Hins _ IH]; intros s rows Ht.
  - exact Ht.
  - cbn [foldl]. apply IH. by apply window_insert.
Qed.


(** A trade message whose [trade] is a single record, not a list, has no
    [length]: the test of [updateTradeHistory] fails and no row is added. *)
Remark single_trade_not_inserted (s : state) :
  onmessage (Json (Js.VObject [("type", Js.VString "trade_update");
                               ("trade", Sample.trade 7)])) s
  = Js.Returns s.
Proof.
  unfold onmessage, handleWebSocketMessage, updateTradeHistory. cbn.
  by destruct (tradeTable s).
Qed.


End RecentActivity.

(** ** What the controller's methods leave alone *)

Module SwitcherFrame.
Import DashboardSwitcher.

(** [updateDashboardData] writes to the three cells and nothing else. *)
Lemma updateDashboardData_cells (data : Js.value) (s : state) :
  ∃ (c : Dom.cells) (thrown : bool),
    updateDashboardData data s
    = (if thrown then Js.Throws else Js.Returns) (with_cells c s).
Proof.
  destruct s. unfold updateDashboardData, andThen, onCells, with_cells. cbn.
  repeat case_match; simplify_eq/=;
    eexists; first [exists true; reflexivity|exists false; reflexivity].
Qed.

(** [initializeView] only sends the view's request and, for the trades
    view, attaches the filter listeners. *)
Definition endpoint (view : string) : list string :=
  if String.eqb view "dashboard" then ["/api/dashboard-data"]
  else if String.eqb view "trades" then ["/api/trade-history"]
  else if String.eqb view "analytics" then ["/api/analytics-data"]
  else if String.eqb view "settings" then ["/api/settings"]
  else [].

Lemma initializeView_effect (view : string) (s : state) :
  initializeView view s
  = with_tradeFilterInputs
      (if String.eqb view "trades" then S <$> tradeFilterInputs s
       else tradeFilterInputs s)
      (with_requests (requests s ++ endpoint view) s).
Proof.
  unfold initializeView, endpoint. destruct s. cbn.
  destruct (String.eqb view "dashboard") eqn:Hd.
  - apply String.eqb_eq in Hd as ->. reflexivity.
  - destruct (String.eqb view "trades") eqn:Ht; [reflexivity|].
    destruct (String.eqb view "analytics") eqn:Ha; [reflexivity|].
    destruct (String.eqb view "settings") eqn:Hs; [reflexivity|].
    cbn. by rewrite app_nil_r.
Qed.

End SwitcherFrame.

(** ** The Refresh Scheduler *)

Module RefreshScheduler.
Import DashboardSwitcher.
Local Open Scope nat_scope.

#[local] Instance timer_task_eq_dec : EqDecision callback.
Proof. solve_decision. Defined.

(** The active timers that run [refreshData]. *)
Definition refreshTimers (s : state) : gmap positive timer :=
  filter (fun entry => task entry.2 = RefreshData) (timers s).

(** Every active refresh timer is the one whose handle the object holds. *)
Definition owned (s : state) : Prop :=
  ∀ id t, timers s !! id = Some t → task t = RefreshData →
          refreshInterval s = Some id.

(** *** Frame: what leaves the timer table and the handle alone *)

Definition sameSchedule (s s' : state) : Prop :=
  refreshInterval s' = refreshInterval s ∧ timers s' = timers s.

Lemma owned_sameSchedule (s s' : state) : sameSchedule s s' → owned s → owned s'.
Proof. intros [Hi Ht] Hs id t. rewrite Hi, Ht. apply Hs. Qed.

Lemma sameSchedule_trans (s1 s2 s3 : state) :
  sameSchedule s1 s2 → sameSchedule s2 s3 → sameSchedule s1 s3.
Proof. intros [H1 H2] [H3 H4]. split; congruence. Qed.

Lemma sameSchedule_applyTheme (theme : string) (s : state) :
  sameSchedule s (applyTheme theme s).
Proof. unfold applyTheme. case_match; split; reflexivity. Qed.

Lemma sameSchedule_switchTheme (theme : string) (s : state) :
  sameSchedule s (switchTheme theme s).
Proof.
  unfold switchTheme, enableAutoTheme, switchConcreteTheme, applyTheme.
  repeat case_match; split; reflexivity.
Qed.

Lemma sameSchedule_enableAutoTheme (s : state) : sameSchedule s (enableAutoTheme s).
Proof.
  unfold enableAutoTheme, switchConcreteTheme, applyTheme.
  repeat case_match; split; reflexivity.
Qed.

Lemma sameSchedule_switchView (view : string) (s : state) :
  sameSchedule s (switchView view s).
Proof.
  unfold switchView, initializeView. repeat case_match; split; reflexivity.
Qed.

Lemma sameSchedule_switchLayout (layout : string) (s : state) :
  sameSchedule s (switchLayout layout s).
Proof. unfold switchLayout. case_match; split; reflexivity. Qed.

Lemma sameSchedule_listeners (matches : bool) (ls : list listener) (s : state) :
  sameSchedule s (foldl (runListener matches) s ls).
Proof.
  revert s. induction ls as [|[] ls IH]; intros s; [by split|].
  cbn [foldl runListener].
  eapply sameSchedule_trans; [apply sameSchedule_applyTheme|apply IH].
Qed.

Lemma sameSchedule_updateDashboardData (data : Js.value) (s : state) :
  sameSchedule s (caught (updateDashboardData data s)).
Proof.
  destruct (SwitcherFrame.updateDashboardData_cells data s) as (c & [] & ->); by split.
Qed.

(** *** The refresh timers of a state *)

Lemma refreshTimers_lookup (s : state) (id : positive) (t : timer) :
  refreshTimers s !! id = Some t ↔ timers s !! id = Some t ∧ task t = RefreshData.
Proof. unfold refreshTimers. by rewrite map_lookup_filter_Some. Qed.

Lemma refreshTimers_none (s : state) :
  (∀ id t, timers s !! id = Some t → task t ≠ RefreshData) → refreshTimers s = ∅.
Proof.
  intros Hnone. apply map_empty. intros id. apply eq_None_not_Some.
  intros [t Ht]. apply refreshTimers_lookup in Ht as [Ht Hrefresh].
  exact (Hnone id t Ht Hrefresh).
Qed.

Lemma owned_empty (s : state) : refreshTimers s = ∅ → owned s.
Proof.
  intros Hempty id t Ht Hrefresh.
  assert (refreshTimers s !! id = Some t) as Hin by (by apply refreshTimers_lookup).
  rewrite Hempty, lookup_empty in Hin. discriminate.
Qed.

(** The invariant bounds the number of refresh timers by one. *)
Lemma owned_at_most_one (s : state) : owned s → size (refreshTimers s) ≤ 1.
Proof.
  intros Hs. destruct (refreshInterval s) as [id|] eqn:Hid.
  - destruct (refreshTimers s !! id) as [t|] eqn:Ht.
    + replace (refreshTimers s) with ({[ id := t ]} : gmap positive timer).
      { rewrite map_size_singleton. lia. }
      apply map_eq. intros i. destruct (decide (i = id)) as [->|Hne].
      * by rewrite lookup_singleton_eq.
      * rewrite lookup_singleton_ne by done. symmetry.
        apply eq_None_not_Some. intros [u Hu].
        apply refreshTimers_lookup in Hu as [Hu Hrefresh].
        specialize (Hs i u Hu Hrefresh). congruence.
    + replace (refreshTimers s) with (∅ : gmap positive timer);
      [rewrite map_size_empty; lia|].
      symmetry. apply map_empty. intros i. apply eq_None_not_Some. intros [u Hu].
      pose proof Hu as Hu'. apply refreshTimers_lookup in Hu' as [Hu' Hrefresh].
      specialize (Hs i u Hu' Hrefresh). congruence.
  - replace (refreshTimers s) with (∅ : gmap positive timer);
      [rewrite map_size_empty; lia|].
    symmetry. apply refreshTimers_none. intros i u Hu Hrefresh.
    specialize (Hs i u Hu Hrefresh). congruence.
Qed.

(** *** [setRefreshRate] *)

(** The first statement of [setRefreshRate]: the timer the object holds is
    cleared, and with it every refresh timer. *)
Definition cleared (s : state) : state :=
  match refreshInterval s with
  | Some id => clearInterval id s
  | None => s
  end.

Lemma cleared_no_refresh (s : state) : owned s → refreshTimers (cleared s) = ∅.
Proof.
  intros Hs. apply refreshTimers_none. intros id t Ht Hrefresh.
  unfold cleared in Ht. destruct (refreshInterval s) as [held|] eqn:Hheld.
  - unfold clearInterval, with_timers in Ht. cbn in Ht.
    apply lookup_delete_Some in Ht as [Hne Ht].
    specialize (Hs id t Ht Hrefresh). congruence.
  - specialize (Hs id t Ht Hrefresh). congruence.
Qed.

Definition refreshTimer (seconds : Js.integer) : timer :=
  {| task := RefreshData; delay := times1000 seconds; repeats := true |}.

Lemma setRefreshRate_timers (seconds : Js.integer) (s : state) :
  timers (setRefreshRate seconds s)
  = if Js.aboveZero seconds
    then <[nextTimer s := refreshTimer seconds]> (timers (cleared s))
    else timers (cleared s).
Proof.
  unfold setRefreshRate, cleared. destruct s as [? ? []]; cbn;
    destruct (Js.aboveZero seconds); reflexivity.
Qed.

Lemma setRefreshRate_handle (seconds : Js.integer) (s : state) :
  refreshInterval (setRefreshRate seconds s)
  = if Js.aboveZero seconds then Some (nextTimer s) else refreshInterval s.
Proof.
  unfold setRefreshRate, cleared. destruct s as [? ? []]; cbn;
    destruct (Js.aboveZero seconds); reflexivity.
Qed.

Lemma setRefreshRate_persists (seconds : Js.integer) (s : state) :
  localStorage (setRefreshRate seconds s)
  = <["dashboard-refresh-rate" := Js.toString seconds]> (localStorage s).
Proof.
  unfold setRefreshRate, cleared. destruct s as [? ? []]; cbn;
    destruct (Js.aboveZero seconds); reflexivity.
Qed.

Lemma setRefreshRate_refreshTimers (seconds : Js.integer) (s : state) :
  owned s →
  refreshTimers (setRefreshRate seconds s)
  = if Js.aboveZero seconds then {[ nextTimer s := refreshTimer seconds ]} else ∅.
Proof.
  intros Hs. pose proof (cleared_no_refresh s Hs) as Hclear.
  unfold refreshTimers in *. rewrite setRefreshRate_timers.
  destruct (Js.aboveZero seconds); [|exact Hclear].
  rewrite map_filter_insert_True by reflexivity. rewrite Hclear. reflexivity.
Qed.

Lemma owned_setRefreshRate (seconds : Js.integer) (s : state) :
  owned s → owned (setRefreshRate seconds s).
Proof.
  intros Hs. destruct (Js.aboveZero seconds) eqn:Hpos.
  - intros id t Ht Hrefresh.
    assert (refreshTimers (setRefreshRate seconds s) !! id = Some t) as Hin
      by (by apply refreshTimers_lookup).
    rewrite setRefreshRate_refreshTimers, Hpos in Hin by exact Hs.
    apply lookup_singleton_Some in Hin as [<- _].
    by rewrite setRefreshRate_handle, Hpos.
  - apply owned_empty. by rewrite setRefreshRate_refreshTimers, Hpos.
Qed.

(** *** The invariant holds along every run *)

Lemma owned_showRefreshNotification (s : state) :
  owned s → owned (showRefreshNotification s).
Proof.
  intros Hs id t Ht Hrefresh. destruct s. cbn in *.
  apply lookup_insert_Some in Ht as [[_ <-]|[_ Ht]]; [discriminate|].
  exact (Hs id t Ht Hrefresh).
Qed.

Lemma owned_fireTimer (id : positive) (s : state) : owned s → owned (fireTimer id s).
Proof.
  intros Hs. unfold fireTimer.
  destruct (timers s !! id) as [[[] ? ?]|]; try exact Hs.
  intros i t Ht Hrefresh. unfold with_refreshNotifications, with_timers in *.
  cbn in *. apply lookup_delete_Some in Ht as [_ Ht]. exact (Hs i t Ht Hrefresh).
Qed.

Lemma owned_step (s : state) (e : event) : owned s → owned (step s e).
Proof.
  intros Hs. destruct e; cbn [step].
  - eapply owned_sameSchedule; [apply sameSchedule_switchView|exact Hs].
  - eapply owned_sameSchedule; [apply sameSchedule_switchTheme|exact Hs].
  - eapply owned_sameSchedule; [apply sameSchedule_enableAutoTheme|exact Hs].
  - eapply owned_sameSchedule; [apply sameSchedule_switchLayout|exact Hs].
  - by apply owned_setRefreshRate.
  - eapply owned_sameSchedule; [|exact Hs].
    unfold systemPreferenceChange.
    eapply sameSchedule_trans; [|apply sameSchedule_listeners]. by split.
  - by apply owned_fireTimer.
  - eapply owned_sameSchedule; [apply sameSchedule_updateDashboardData|exact Hs].
  - unfold refreshDataArrived.
    destruct (SwitcherFrame.updateDashboardData_cells data s) as (c & [] & ->); cbn [caught].
    + eapply owned_sameSchedule; [|exact Hs]. by split.
    + apply owned_showRefreshNotification.
      eapply owned_sameSchedule; [|exact Hs]. by split.
Qed.

Lemma owned_run (es : list event) (s : state) : owned s → owned (run s es).
Proof.
  revert s. induction es as [|e es IH]; intros s Hs; [exact Hs|].
  apply IH, owned_step, Hs.
Qed.

(** C3.  From a state whose refresh timers are the controller's own, and
    whatever else happens in between: a call of [setRefreshRate] with a
    positive number leaves exactly one refresh timer, with that period;
    with zero (or anything not positive) it leaves none; the table never
    holds two refresh timers; and every call stores the number it was
    given. *)
Theorem one_refresh_timer (s : state) (es : list event) (seconds : Js.integer) :
  owned s →
  let before := run s es in
  let after := setRefreshRate seconds before in
  (Js.aboveZero seconds = true →
     refreshTimers after
     = {[ nextTimer before :=
            {| task := RefreshData; delay := times1000 seconds; repeats := true |} ]}
     ∧ refreshInterval after = Some (nextTimer before))
  ∧ (Js.aboveZero seconds = false → refreshTimers after = ∅)
  ∧ (seconds = Js.Int 0 → refreshTimers after = ∅)
  ∧ size (refreshTimers before) ≤ 1
  ∧ size (refreshTimers after) ≤ 1
  ∧ localStorage after !! "dashboard-refresh-rate" = Some (Js.toString seconds).
Proof.
  intros Hs before after.
  assert (owned before) as Hbefore by (apply owned_run, Hs).
  assert (owned after) as Hafter by (apply owned_setRefreshRate, Hbefore).
  pose proof (setRefreshRate_refreshTimers seconds before Hbefore) as Htimers.
  fold after in Htimers.
  split_and!.
  - intros Hpos. split.
    + by rewrite Htimers, Hpos.
    + subst after. by rewrite setRefreshRate_handle, Hpos.
  - intros Hpos. by rewrite Htimers, Hpos.
  - intros ->. exact Htimers.
  - by apply owned_at_most_one.
  - by apply owned_at_most_one.
  - subst after. rewrite setRefreshRate_persists. apply lookup_insert_eq.
Qed.

(** On the sample page: five seconds, then thirty, leaves the one timer of
    thirty seconds. *)
Lemma one_refresh_timer_witness :
  refreshTimers
    (setRefreshRate (Js.Int 30) (run Sample.page [SetRefreshRate (Js.Int 5)]))
  = {[ 2%positive := {| task := RefreshData; delay := Js.Int 30000;
                        repeats := true |} ]}.
Proof.
  assert (owned Sample.page) as Howned.
  { intros id t Ht _. cbn in Ht. rewrite lookup_empty in Ht. discriminate. }
  destruct (one_refresh_timer Sample.page [SetRefreshRate (Js.Int 5)]
              (Js.Int 30) Howned) as ((Htimers & _) & _); [reflexivity|].
  exact Htimers.
Defined.

End RefreshScheduler.

(** ** Themes and the system colour scheme *)

Module ThemeControl.
Import DashboardSwitcher.
Local Open Scope nat_scope.
Local Open Scope list_scope.

(** The concrete theme a system preference resolves to. *)
Definition resolved (prefersDark : bool) : string :=
  if prefersDark then "dark" else "light".

(** [enableAutoTheme] as the source words it, through [switchTheme]. *)
Lemma enableAutoTheme_unfold (s : state) :
  enableAutoTheme s
  = let s1 := switchTheme (resolved (prefersDark s)) s in
    let s2 := setItem "dashboard-theme" "auto" s1 in
    with_mediaListeners (mediaListeners s2 ++ [AutoThemeListener]) s2.
Proof. unfold enableAutoTheme, switchTheme, resolved. by destruct (prefersDark s). Qed.

(** The events that activate the auto theme. *)
Definition activation (e : event) : bool :=
  match e with
  | SwitchTheme theme => String.eqb theme "auto"
  | EnableAutoTheme => true
  | _ => false
  end.

Definition activations (es : list event) : nat :=
  length (filter (fun e => activation e = true) es).

(** *** Listeners are only ever added *)

Lemma listeners_applyTheme (theme : string) (s : state) :
  mediaListeners (applyTheme theme s) = mediaListeners s.
Proof. unfold applyTheme. by case_match. Qed.

Lemma listeners_enableAutoTheme (s : state) :
  mediaListeners (enableAutoTheme s) = mediaListeners s ++ [AutoThemeListener].
Proof.
  unfold enableAutoTheme, switchConcreteTheme, applyTheme.
  by repeat case_match.
Qed.

Lemma listeners_switchTheme (theme : string) (s : state) :
  mediaListeners (switchTheme theme s)
  = mediaListeners s ++ (if String.eqb theme "auto" then [AutoThemeListener] else []).
Proof.
  unfold switchTheme. destruct (String.eqb theme "auto").
  - apply listeners_enableAutoTheme.
  - rewrite app_nil_r. unfold switchConcreteTheme, applyTheme. by case_match.
Qed.

Lemma listeners_foldl (matches : bool) (ls : list listener) (s : state) :
  mediaListeners (foldl (runListener matches) s ls) = mediaListeners s.
Proof.
  revert s. induction ls as [|[] ls IH]; intros s; [reflexivity|].
  cbn [foldl runListener]. rewrite IH. apply listeners_applyTheme.
Qed.

Lemma listeners_step (s : state) (e : event) :
  mediaListeners (step s e)
  = mediaListeners s ++ (if activation e then [AutoThemeListener] else []).
Proof.
  destruct e; cbn [step activation]; rewrite ?app_nil_r.
  - unfold switchView. rewrite SwitcherFrame.initializeView_effect. reflexivity.
  - apply listeners_switchTheme.
  - apply listeners_enableAutoTheme.
  - unfold switchLayout. by case_match.
  - unfold setRefreshRate. destruct s as [? ? []]; cbn; by case_match.
  - unfold systemPreferenceChange. by rewrite listeners_foldl.
  - unfold fireTimer. by repeat case_match.
  - unfold dashboardDataArrived.
    by destruct (SwitcherFrame.updateDashboardData_cells data s) as (c & [] & ->).
  - unfold refreshDataArrived.
    by destruct (SwitcherFrame.updateDashboardData_cells data s) as (c & [] & ->).
Qed.

Lemma listeners_run (es : list event) (s : state) :
  mediaListeners (run s es)
  = mediaListeners s ++ replicate (activations es) AutoThemeListener.
Proof.
  revert s. induction es as [|e es IH]; intros s.
  - cbn. by rewrite app_nil_r.
  - change (run s (e :: es)) with (run (step s e) es).
    rewrite IH, listeners_step, <- app_assoc. f_equal.
    unfold activations. rewrite filter_cons.
    destruct (activation e); cbn; [reflexivity|].
    case_decide; [discriminate|reflexivity].
Qed.

(** *** A change of the system preference *)

Lemma change_iter (matches : bool) (ls : list listener) (s : state) :
  foldl (runListener matches) s ls
  = Nat.iter (length ls) (applyTheme (resolved matches)) s.
Proof.
  revert s. induction ls as [|[] ls IH]; intros s; [reflexivity|].
  cbn [foldl runListener length]. rewrite IH, Nat.iter_succ_r. reflexivity.
Qed.

(** C10.  Each activation of the auto theme appends one listener to those
    of the media query; nothing that can happen removes one; so after [k]
    activations on a page that had none, one change of the system
    preference applies the resolved theme [k] times over. *)
Theorem auto_listeners_accumulate (s : state) (es : list event) (matches : bool) :
  let s' := run s es in
  mediaListeners (enableAutoTheme s) = mediaListeners s ++ [AutoThemeListener]
  ∧ switchTheme "auto" s = enableAutoTheme s
  ∧ mediaListeners s' = mediaListeners s ++ replicate (activations es) AutoThemeListener
  ∧ systemPreferenceChange matches s'
    = Nat.iter (length (mediaListeners s) + activations es)
        (applyTheme (if matches then "dark" else "light"))
        (with_prefersDark matches s').
Proof.
  intros s'. split_and!.
  - apply listeners_enableAutoTheme.
  - reflexivity.
  - apply listeners_run.
  - unfold systemPreferenceChange. rewrite change_iter. f_equal.
    subst s'. by rewrite listeners_run, length_app, length_replicate.
Qed.

(** *** The applied theme *)

(** What the page shows of the theme: the attribute on [body] and the
    custom properties on the root element. *)
Definition appliedTheme (s : state) : option string * gmap string string :=
  (bodyTheme s, rootStyle s).

(** A lookup through a chain of [setProperty] calls, one name at a time. *)
Ltac strip_insert j :=
  match goal with
  | |- <[?k := _]> _ !! j = _ =>
      destruct (decide (j = k)) as [->|?];
      [by rewrite !lookup_insert_eq
      |rewrite !(lookup_insert_ne _ k j) by done]
  end.

Lemma applyTheme_twice (theme : string) (s : state) :
  applyTheme theme (applyTheme theme s) = applyTheme theme s.
Proof.
  unfold applyTheme, setProperty. destruct s.
  destruct (String.eqb theme "dark"); cbn;
    f_equal; apply map_eq; intros j; repeat strip_insert j; reflexivity.
Qed.

Lemma applyTheme_iter (n : nat) (theme : string) (s : state) :
  0 < n → Nat.iter n (applyTheme theme) s = applyTheme theme s.
Proof.
  intros Hn. destruct n as [|n]; [lia|]. clear Hn.
  induction n as [|n IH]; [reflexivity|].
  rewrite Nat.iter_succ, IH. apply applyTheme_twice.
Qed.

Lemma appliedTheme_switchTheme (theme : string) (s : state) :
  String.eqb theme "auto" = false →
  appliedTheme (switchTheme theme s) = appliedTheme (applyTheme theme s)
  ∧ currentTheme (switchTheme theme s) = theme
  ∧ localStorage (switchTheme theme s) !! "dashboard-theme" = Some theme.
Proof.
  intros Hauto. unfold switchTheme. rewrite Hauto.
  unfold switchConcreteTheme, applyTheme, appliedTheme.
  destruct (String.eqb theme "dark"); cbn; split_and!; try reflexivity;
    apply lookup_insert_eq.
Qed.

(** *** An explicit choice against a change of the system preference *)

Lemma frame_applyTheme (theme : string) (s : state) :
  currentTheme (applyTheme theme s) = currentTheme s
  ∧ localStorage (applyTheme theme s) = localStorage s.
Proof. unfold applyTheme. by case_match. Qed.

Lemma frame_applyTheme_iter (n : nat) (theme : string) (s : state) :
  currentTheme (Nat.iter n (applyTheme theme) s) = currentTheme s
  ∧ localStorage (Nat.iter n (applyTheme theme) s) = localStorage s.
Proof.
  induction n as [|n [IH1 IH2]]; [by split|].
  rewrite Nat.iter_succ.
  destruct (frame_applyTheme theme (Nat.iter n (applyTheme theme) s)) as [-> ->].
  by split.
Qed.

Lemma appliedTheme_applyTheme (theme : string) (s : state) :
  appliedTheme (applyTheme theme s)
  = (Some theme, rootStyle (applyTheme theme s)).
Proof. unfold applyTheme, appliedTheme. by case_match. Qed.

Lemma rootStyle_applyTheme_prefersDark (theme : string) (matches : bool) (s : state) :
  rootStyle (applyTheme theme (with_prefersDark matches s))
  = rootStyle (applyTheme theme s).
Proof. unfold applyTheme. destruct s. by case_match. Qed.

Lemma change_after_run (s0 : state) (es : list event) (theme : string)
    (matches : bool) :
  mediaListeners s0 = [] → String.eqb theme "auto" = false →
  systemPreferenceChange matches (switchTheme theme (run s0 es))
  = Nat.iter (activations es) (applyTheme (resolved matches))
      (with_prefersDark matches (switchTheme theme (run s0 es))).
Proof.
  intros Hfresh Hauto. unfold systemPreferenceChange. rewrite change_iter.
  f_equal.
  rewrite listeners_switchTheme, Hauto, app_nil_r, listeners_run, Hfresh.
  cbn. apply length_replicate.
Qed.

(** C1, as the code has it.  After an explicit [switchTheme('dark')] or
    [switchTheme('light')] a change of the system preference leaves the
    applied theme alone exactly when the auto theme was never activated
    before; once it has been, the listener is still subscribed and the
    change applies the system's theme over the explicit one.  The recorded
    and the stored theme stay those of the explicit choice either way. *)
Theorem explicit_theme_and_system_change (s0 : state) (es : list event)
    (theme : string) (matches : bool) :
  mediaListeners s0 = [] →
  theme = "dark" ∨ theme = "light" →
  let s := switchTheme theme (run s0 es) in
  let s' := systemPreferenceChange matches s in
  (activations es = 0 → appliedTheme s' = appliedTheme s)
  ∧ (0 < activations es →
       bodyTheme s' = Some (if matches then "dark" else "light")
       ∧ rootStyle s'
         = rootStyle (applyTheme (if matches then "dark" else "light") s))
  ∧ currentTheme s' = theme
  ∧ localStorage s' !! "dashboard-theme" = Some theme.
Proof.
  intros Hfresh Htheme s s'.
  assert (String.eqb theme "auto" = false) as Hauto
    by (by destruct Htheme as [-> | ->]).
  assert (s' = Nat.iter (activations es) (applyTheme (resolved matches))
                 (with_prefersDark matches s)) as Hs'
    by (apply change_after_run; assumption).
  destruct (appliedTheme_switchTheme theme (run s0 es) Hauto) as (_ & Hcur & Hsto).
  fold s in Hcur, Hsto.
  split_and!.
  - intros Hnone. rewrite Hs', Hnone. by destruct s.
  - intros Hsome. rewrite Hs', applyTheme_iter by exact Hsome.
    pose proof (appliedTheme_applyTheme (resolved matches)
                  (with_prefersDark matches s)) as Happ.
    apply (f_equal fst) in Happ.
    split; [exact Happ|]. apply rootStyle_applyTheme_prefersDark.
  - rewrite Hs'.
    destruct (frame_applyTheme_iter (activations es) (resolved matches)
                (with_prefersDark matches s)) as [-> _].
    rewrite <- Hcur. by destruct s.
  - rewrite Hs'.
    destruct (frame_applyTheme_iter (activations es) (resolved matches)
                (with_prefersDark matches s)) as [_ ->].
    rewrite <- Hsto. by destruct s.
Qed.

(** On the sample page, with the auto theme never activated, the system
    turning dark changes nothing of what [switchTheme('light')] applied. *)
Lemma explicit_theme_and_system_change_witness :
  appliedTheme (systemPreferenceChange true (switchTheme "light" Sample.page))
  = appliedTheme (switchTheme "light" Sample.page).
Proof.
  apply (explicit_theme_and_system_change Sample.page [] "light" true).
  - reflexivity.
  - right. reflexivity.
  - reflexivity.
Defined.

(** C1 as stated fails: the user picks the auto theme, then light; the
    system turns dark, and the page turns dark with it although the
    controller still records light. *)
Lemma explicit_choice_overridden :
  let s := run Sample.page [SwitchTheme "auto"; SwitchTheme "light"] in
  bodyTheme s = Some "light"
  ∧ currentTheme (systemPreferenceChange true s) = "light"
  ∧ bodyTheme (systemPreferenceChange true s) = Some "dark".
Proof. cbn. split_and!; reflexivity. Qed.

End ThemeControl.

(** ** Switching views *)

Module ViewControl.
Import DashboardSwitcher.
Local Open Scope nat_scope.
Local Open Scope list_scope.

Lemma removeActive_addActive (name : string) (els : list Dom.element) :
  Dom.removeActive (Dom.addActive name els) = Dom.removeActive els.
Proof.
  induction els as [|el els IH]; [reflexivity|].
  cbn. destruct (String.eqb (Dom.attr el) name); cbn; [reflexivity|].
  f_equal. exact IH.
Qed.

Lemma removeActive_twice (els : list Dom.element) :
  Dom.removeActive (Dom.removeActive els) = Dom.removeActive els.
Proof. induction els as [|el els IH]; [reflexivity|]. cbn. f_equal. exact IH. Qed.

Lemma activeOnes_removeActive (els : list Dom.element) :
  Dom.activeOnes (Dom.removeActive els) = [].
Proof.
  unfold Dom.activeOnes. induction els as [|el els IH]; [reflexivity|].
  cbn [Dom.removeActive map]. rewrite filter_cons_False; [exact IH|].
  cbn. discriminate.
Qed.

(** With no element of that name, [querySelector] finds nothing to
    activate. *)
Lemma addActive_missing (name : string) (els : list Dom.element) :
  (∀ el, el ∈ els → Dom.attr el ≠ name) → Dom.addActive name els = els.
Proof.
  induction els as [|el els IH]; intros Hmissing; [reflexivity|].
  cbn. destruct (String.eqb (Dom.attr el) name) eqn:Heq.
  - apply String.eqb_eq in Heq. exfalso. apply (Hmissing el); [left|exact Heq].
  - f_equal. apply IH. intros el' Hin. apply Hmissing. by right.
Qed.

Lemma attr_removeActive (els : list Dom.element) (el : Dom.element) :
  el ∈ Dom.removeActive els → ∃ el', el' ∈ els ∧ Dom.attr el' = Dom.attr el.
Proof.
  unfold Dom.removeActive. intros Hin. apply list_elem_of_fmap in Hin as (el' & -> & Hin').
  exists el'. by split.
Qed.

(** What [switchView] does apart from the view's initialisation. *)
Lemma switchView_fields (view : string) (s : state) :
  let s' := switchView view s in
  viewContainers s' = Dom.addActive view (Dom.removeActive (viewContainers s))
  ∧ viewSwitchers s' = Dom.addActive view (Dom.removeActive (viewSwitchers s))
  ∧ currentView s' = view
  ∧ localStorage s' = <["dashboard-view" := view]> (localStorage s)
  ∧ requests s' = requests s ++ SwitcherFrame.endpoint view.
Proof.
  cbn. unfold switchView. rewrite SwitcherFrame.initializeView_effect.
  destruct s. cbn. by split_and!.
Qed.


(** A page on which the settings view is not mounted. *)
Definition withoutSettings : state :=
  with_viewContainers
    [Sample.shown "dashboard"; Sample.inactive "trades"; Sample.inactive "analytics"]
    Sample.page.



(** C6, as the code has it.  A second [switchView] with the same view
    changes nothing but what the view's initialisation does: the state is
    the one a single call leaves, with the initialisation run once more, so
    the request of a known view goes out a second time. *)
Theorem switchView_twice (view : string) (s : state) :
  switchView view (switchView view s) = initializeView view (switchView view s)
  ∧ requests (switchView view (switchView view s))
    = requests (switchView view s) ++ SwitcherFrame.endpoint view.
Proof.
  split.
  - unfold switchView. rewrite !SwitcherFrame.initializeView_effect.
    destruct s. cbn. f_equal.
    + by rewrite removeActive_addActive, removeActive_twice.
    + by rewrite removeActive_addActive, removeActive_twice.
    + apply insert_insert_eq.
  - by destruct (switchView_fields view (switchView view s)) as (_ & _ & _ & _ & ->).
Qed.

(** C6 as stated fails: switching to the dashboard view twice fetches the
    dashboard data twice. *)
Lemma switchView_twice_fetches_twice :
  requests (switchView "dashboard" Sample.page) = ["/api/dashboard-data"]
  ∧ requests (switchView "dashboard" (switchView "dashboard" Sample.page))
    = ["/api/dashboard-data"; "/api/dashboard-data"]
  ∧ switchView "dashboard" (switchView "dashboard" Sample.page)
    ≠ switchView "dashboard" Sample.page.
Proof.
  split_and!; [reflexivity|reflexivity|].
  intros Heq. apply (f_equal requests) in Heq. discriminate Heq.
Qed.

End ViewControl.

(** ** Numbers through [localStorage] *)

Module JsFacts.
Import Js.

Lemma digits_string_of_uint (d : Decimal.uint) :
  digits (NilEmpty.string_of_uint d) = d.
Proof. induction d; cbn; by rewrite ?IHd. Qed.

Lemma of_uint_to_uint (p : positive) : Z.of_uint (Pos.to_uint p) = Zpos p.
Proof. unfold Z.of_uint. by rewrite DecimalPos.Unsigned.of_to. Qed.

Lemma magnitude_to_uint (p : positive) :
  magnitude (NilEmpty.string_of_uint (Pos.to_uint p)) = Some (Zpos p).
Proof.
  unfold magnitude. rewrite digits_string_of_uint.
  pose proof (DecimalPos.Unsigned.to_uint_nonnil p) as Hnonnil.
  rewrite <- of_uint_to_uint. by destruct (Pos.to_uint p).
Qed.

(** A number written by [String] starts with a digit: [parseInt] skips
    nothing and reads no sign. *)
Lemma parseInt_unsigned (s : string) (z : Z) :
  magnitude s = Some z → parseInt s = Int z.
Proof.
  intros Hmag. destruct s as [|c s]; [discriminate|].
  assert (digit c = None → False) as Hdigit.
  { intros Hnone. unfold magnitude in Hmag. cbn [digits] in Hmag.
    rewrite Hnone in Hmag. discriminate. }
  destruct c as [[] [] [] [] [] [] [] []];
    try (exfalso; apply Hdigit; reflexivity);
    cbv -[magnitude]; cbv -[magnitude] in Hmag; by rewrite Hmag.
Qed.

Lemma string_of_uint_nonnil (d : Decimal.uint) :
  d ≠ Decimal.Nil → NilZero.string_of_uint d = NilEmpty.string_of_uint d.
Proof. by destruct d. Qed.

(** What [setRefreshRate] stores, [parseInt] reads back. *)
Lemma parseInt_toString (n : integer) : parseInt (toString n) = n.
Proof.
  destruct n as [[|p|p]|]; try reflexivity; unfold toString; cbn [Z.to_int NilZero.string_of_int];
    rewrite string_of_uint_nonnil by apply DecimalPos.Unsigned.to_uint_nonnil.
  - apply parseInt_unsigned, magnitude_to_uint.
  - pose proof (magnitude_to_uint p) as Hmag.
    set (rest := NilEmpty.string_of_uint (Pos.to_uint p)) in *.
    cbv -[magnitude rest]. by rewrite Hmag.
Qed.

Lemma toString_nonempty (n : integer) : String.eqb (toString n) "" = false.
Proof.
  destruct n as [[|p|p]|]; try reflexivity; unfold toString; cbn [Z.to_int NilZero.string_of_int].
  pose proof (DecimalPos.Unsigned.to_uint_nonnil p) as Hnonnil.
  by destruct (Pos.to_uint p).
Qed.

Example toFixed2_rounds : toFixed2 (123456 # 1000) = "123.46".
Proof. reflexivity. Qed.

Example toFixed2_zero : toFixed2 0 = "0.00".
Proof. reflexivity. Qed.

Example toFixed2_negative : toFixed2 (-(15 # 10)) = "-1.50".
Proof. reflexivity. Qed.

Example parseInt_prefix : parseInt " 30px" = Int 30.
Proof. reflexivity. Qed.

Example parseInt_text : parseInt "fast" = NaN.
Proof. reflexivity. Qed.

End JsFacts.

(** ** Stored preferences and reloading *)

Module Persistence.
Import DashboardSwitcher.
Local Open Scope nat_scope.
Local Open Scope list_scope.

(** The page is loaded again with [stored] in [localStorage], and the
    controller is built. *)
Definition reload (page : state) (stored : gmap string string) : state :=
  init (with_localStorage stored page).

(** What a preference shows as once applied: theme attribute and tokens,
    view containers, layout classes, timers and the handle held, and the
    listeners on the system preference. *)
Definition applied (s : state) :=
  (bodyTheme s, rootStyle s, viewContainers s, dashboardContainer s,
   timers s, refreshInterval s, mediaListeners s).

Lemma storage_applyTheme (theme : string) (s : state) :
  localStorage (applyTheme theme s) = localStorage s.
Proof. unfold applyTheme. by case_match. Qed.

Lemma storage_applyLayout (layout : string) (s : state) :
  localStorage (applyLayout layout s) = localStorage s.
Proof. unfold applyLayout. by case_match. Qed.

Lemma truthyItem_some (value : string) :
  String.eqb value "" = false → Js.truthyItem (Some value) = Some value.
Proof. intros Hne. cbn. by rewrite Hne. Qed.

Lemma storage_with_currentTheme (theme : string) (s : state) :
  localStorage (with_currentTheme theme s) = localStorage s.
Proof. by destruct s. Qed.

Lemma storage_with_currentView (view : string) (s : state) :
  localStorage (with_currentView view s) = localStorage s.
Proof. by destruct s. Qed.

Lemma storage_switchView (view : string) (s : state) :
  localStorage (switchView view s) = <["dashboard-view" := view]> (localStorage s).
Proof. by destruct (ViewControl.switchView_fields view s) as (_ & _ & _ & -> & _). Qed.

Create Rewrite HintDb storage.
#[local] Hint Rewrite storage_applyTheme storage_applyLayout
  storage_with_currentTheme storage_with_currentView storage_switchView
  : storage.

(** *** One stored key at a time *)

(** Walks through the four tests of [loadSavedSettings] against a store
    [Hstore] that holds a single key. *)
Ltac load Hstore Hne :=
  unfold loadSavedSettings, getItem; cbv zeta;
  repeat progress
    (cbn [Js.truthyItem]; autorewrite with storage;
     rewrite ?Hstore, ?lookup_insert_ne, ?lookup_singleton_ne by done;
     rewrite ?lookup_singleton_eq, ?truthyItem_some by exact Hne);
  try reflexivity.

Lemma load_theme (theme : string) (s : state) :
  localStorage s = {[ "dashboard-theme" := theme ]} →
  String.eqb theme "" = false →
  loadSavedSettings s = applyTheme theme (with_currentTheme theme s).
Proof. intros Hstore Hne. load Hstore Hne. Qed.

Lemma load_view (view : string) (s : state) :
  localStorage s = {[ "dashboard-view" := view ]} →
  String.eqb view "" = false →
  loadSavedSettings s = switchView view (with_currentView view s).
Proof. intros Hstore Hne. load Hstore Hne. Qed.

Lemma load_layout (layout : string) (s : state) :
  localStorage s = {[ "dashboard-layout" := layout ]} →
  String.eqb layout "" = false →
  loadSavedSettings s = applyLayout layout s.
Proof. intros Hstore Hne. load Hstore Hne. Qed.

Lemma load_refresh (saved : string) (s : state) :
  localStorage s = {[ "dashboard-refresh-rate" := saved ]} →
  String.eqb saved "" = false →
  loadSavedSettings s = setRefreshRate (Js.parseInt saved) s.
Proof. intros Hstore Hne. load Hstore Hne. Qed.

(** *** Reloading what a switch stored *)

Lemma constructed_reload (page : state) (stored : gmap string string) :
  localStorage (constructed (with_localStorage stored page)) = stored.
Proof. by destruct page. Qed.

(** The view comes back whole. *)
Lemma reload_view (page : state) (view : string) :
  localStorage page = ∅ → String.eqb view "" = false →
  let direct := switchView view (constructed page) in
  reload page (localStorage direct) = direct.
Proof.
  intros Hempty Hne direct. subst direct. rewrite storage_switchView.
  replace (localStorage (constructed page)) with (∅ : gmap string string)
    by (by destruct page).
  rewrite insert_empty. unfold reload, init.
  rewrite (load_view view) by (apply constructed_reload || exact Hne).
  unfold switchView. rewrite !SwitcherFrame.initializeView_effect.
  destruct page. cbn in *. subst. f_equal.
  all: rewrite insert_empty; apply insert_singleton_eq.
Qed.

(** So does the refresh rate: [parseInt] reads back the number stored. *)
Lemma reload_refresh (page : state) (seconds : Js.integer) :
  localStorage page = ∅ →
  let direct := setRefreshRate seconds (constructed page) in
  reload page (localStorage direct) = direct.
Proof.
  intros Hempty direct. subst direct.
  rewrite RefreshScheduler.setRefreshRate_persists.
  replace (localStorage (constructed page)) with (∅ : gmap string string)
    by (by destruct page).
  rewrite insert_empty. unfold reload, init.
  rewrite (load_refresh (Js.toString seconds))
    by (apply constructed_reload || apply JsFacts.toString_nonempty).
  rewrite JsFacts.parseInt_toString.
  unfold setRefreshRate. destruct page. cbn in *. subst.
  destruct (Js.aboveZero seconds); cbn; f_equal;
    rewrite insert_empty; apply insert_singleton_eq.
Qed.

(** The layout comes back as applied; the switcher buttons are not marked. *)
Lemma reload_layout (page : state) (layout : string) :
  localStorage page = ∅ → String.eqb layout "" = false →
  let direct := switchLayout layout (constructed page) in
  applied (reload page (localStorage direct)) = applied direct.
Proof.
  intros Hempty Hne direct. subst direct.
  assert (localStorage (switchLayout layout (constructed page))
          = {[ "dashboard-layout" := layout ]}) as ->.
  { unfold switchLayout. destruct page as [? ? ? ? ? ? ? ? ? ? []]; cbn in *;
      subst; apply insert_empty. }
  unfold reload, init.
  rewrite (load_layout layout) by (apply constructed_reload || exact Hne).
  unfold applyLayout, switchLayout, applied.
  by destruct page as [? ? ? ? ? ? ? ? ? ? []].
Qed.

(** A concrete theme comes back as applied. *)
Lemma reload_theme (page : state) (theme : string) :
  localStorage page = ∅ → String.eqb theme "" = false →
  String.eqb theme "auto" = false →
  let direct := switchTheme theme (constructed page) in
  applied (reload page (localStorage direct)) = applied direct
  ∧ currentTheme (reload page (localStorage direct)) = currentTheme direct.
Proof.
  intros Hempty Hne Hauto direct. subst direct.
  assert (localStorage (switchTheme theme (constructed page))
          = {[ "dashboard-theme" := theme ]}) as ->.
  { unfold switchTheme. rewrite Hauto.
    unfold switchConcreteTheme, applyTheme. destruct page.
    destruct (String.eqb theme "dark"); cbn in *; subst; apply insert_empty. }
  unfold reload, init.
  rewrite (load_theme theme) by (apply constructed_reload || exact Hne).
  unfold switchTheme. rewrite Hauto.
  unfold switchConcreteTheme, applyTheme, applied. destruct page.
  by destruct (String.eqb theme "dark").
Qed.

(** C5 at the auto theme.  [switchTheme('auto')] on a dark system shows
    the dark theme, subscribes to the system preference and stores
    ['auto'].  Reloading with that store applies the literal ['auto']: the
    attribute reads [auto], the tokens are the light ones, and nothing
    listens to the system preference. *)
Theorem reload_auto_theme :
  let direct := switchTheme "auto" (constructed Sample.page) in
  let reloaded := reload Sample.page (localStorage direct) in
  localStorage direct !! "dashboard-theme" = Some "auto"
  ∧ bodyTheme direct = Some "dark"
  ∧ bodyTheme reloaded = Some "auto"
  ∧ rootStyle direct !! "--primary-color" = Some "#3b82f6"
  ∧ rootStyle reloaded !! "--primary-color" = Some "#2563eb"
  ∧ mediaListeners direct = [AutoThemeListener]
  ∧ mediaListeners reloaded = []
  ∧ currentTheme direct = "dark"
  ∧ currentTheme reloaded = "auto".
Proof. cbv zeta. split_and!; reflexivity. Qed.

End Persistence.

(** ** The scalar cells *)

Module ScalarCells.
Local Open Scope nat_scope.
Local Open Scope list_scope.

(** *** The live channel and the poll ([TradingDashboard]) *)

(** Whatever number arrives is written, zero included. *)
Lemma updatePriceDisplay_writes (q : Q) (s : TradingDashboard.state) :
  is_Some (Dom.priceElement (TradingDashboard.cells s)) →
  ∃ s', TradingDashboard.updatePriceDisplay (Js.VNumber q) s = Js.Returns s'
        ∧ Dom.priceElement (TradingDashboard.cells s')
          = Some ("$" ++ Js.toFixed2 q)%string.
Proof.
  intros [old Hold]. unfold TradingDashboard.updatePriceDisplay.
  rewrite Hold. cbn [Js.callToFixed2]. eexists. split; [reflexivity|].
  by destruct s.
Qed.

Lemma updateBalanceDisplay_writes (q : Q) (s : TradingDashboard.state) :
  is_Some (Dom.balanceElement (TradingDashboard.cells s)) →
  ∃ s', TradingDashboard.updateBalanceDisplay (Js.VNumber q) s = Js.Returns s'
        ∧ Dom.balanceElement (TradingDashboard.cells s')
          = Some ("$" ++ Js.toFixed2 q)%string.
Proof.
  intros [old Hold]. unfold TradingDashboard.updateBalanceDisplay.
  rewrite Hold. cbn [Js.callToFixed2]. eexists. split; [reflexivity|].
  by destruct s.
Qed.

Lemma updateBotStatus_writes (status : string) (s : TradingDashboard.state) :
  is_Some (Dom.botStatus (TradingDashboard.cells s)) →
  ∃ s', TradingDashboard.updateBotStatus (Js.VString status) s = Js.Returns s'
        ∧ Dom.botStatus (TradingDashboard.cells s')
          = Some {| Dom.statusText := Js.VString status;
                    Dom.className :=
                      ("bot-status status-" ++ Js.toLowerCase status)%string |}.
Proof.
  intros [old Hold]. unfold TradingDashboard.updateBotStatus.
  rewrite Hold. cbn [Js.callToLowerCase]. eexists. split; [reflexivity|].
  by destruct s.
Qed.

(** *** The refresh scheduler ([DashboardSwitcher]) *)

(** A price is written when it is not zero. *)
Lemma refresh_writes_nonzero_price (q : Q) (s : DashboardSwitcher.state) :
  is_Some (Dom.priceElement (DashboardSwitcher.cells s)) →
  Qnum q ≠ 0%Z →
  Dom.priceElement (DashboardSwitcher.cells
    (DashboardSwitcher.caught
       (DashboardSwitcher.updateDashboardData
          (Js.VObject [("current_price", Js.VNumber q)]) s)))
  = Some ("$" ++ Js.toFixed2 q)%string.
Proof.
  intros [old Hold] Hq. unfold DashboardSwitcher.updateDashboardData.
  cbn [Js.get Js.assoc String.eqb Ascii.eqb Bool.eqb Js.truthy].
  apply Z.eqb_neq in Hq. rewrite Hq. cbn [negb]. rewrite Hold.
  cbn [Js.callToFixed2 DashboardSwitcher.andThen].
  destruct s. cbn in *. reflexivity.
Qed.

(** A snapshot in which price and balance are zero. *)
Definition emptied : Js.value :=
  Js.VObject [("current_price", Js.VNumber 0); ("balance", Js.VNumber 0);
              ("bot_status", Js.VString "Stopped"); ("recent_trades", Js.VArray [])].

(** C8 at zero.  The same snapshot, with price and balance at zero, goes
    through both paths.  The poll of [TradingDashboard] writes [$0.00] into
    both cells; the refresh of [DashboardSwitcher] tests the two numbers for
    truth first and leaves the old price and the old balance on the page,
    next to the new status. *)
Theorem zero_not_written_on_refresh :
  let polled := TradingDashboard.updateDashboardData emptied Sample.dashboard in
  let refreshed :=
    DashboardSwitcher.dashboardDataArrived emptied Sample.page in
  Dom.priceElement (TradingDashboard.cells polled) = Some "$0.00"
  ∧ Dom.balanceElement (TradingDashboard.cells polled) = Some "$0.00"
  ∧ Dom.priceElement (DashboardSwitcher.cells refreshed) = Some "$101.50"
  ∧ Dom.balanceElement (DashboardSwitcher.cells refreshed) = Some "$2500.00"
  ∧ Dom.statusText <$> Dom.botStatus (DashboardSwitcher.cells refreshed)
    = Some (Js.VString "Stopped").
Proof. cbv zeta. split_and!; reflexivity. Qed.

End ScalarCells.

(** ** Messages of the live channel *)

Module LiveChannel.
Import TradingDashboard.
Local Open Scope nat_scope.
Local Open Scope list_scope.

(** The four discriminators [handleWebSocketMessage] knows. *)
Definition known (type : Js.value) : bool :=
  Js.isString type "price_update" || Js.isString type "trade_update"
  || Js.isString type "balance_update" || Js.isString type "status_update".

(** A message of a type the handler does not know is ignored. *)
Lemma unknown_type_ignored (data type : Js.value) (s : state) :
  Js.get data "type" = Some type → known type = false →
  onmessage (Json data) s = Js.Returns s.
Proof.
  intros Htype Hunknown. unfold onmessage, handleWebSocketMessage. cbn [JSON_parse].
  rewrite Htype. unfold known in Hunknown.
  repeat (apply orb_false_elim in Hunknown as [Hunknown ?]).
  by repeat case_match.
Qed.

(** Text that is not JSON: [JSON.parse] throws, nothing catches it. *)
Lemma malformed_throws (text : string) (s : state) :
  onmessage (Malformed text) s = Js.Throws s.
Proof. reflexivity. Qed.

(** A message without its field throws where the field is used. *)
Lemma missing_price_throws (s : state) :
  is_Some (Dom.priceElement (cells s)) →
  onmessage (Json (Js.VObject [("type", Js.VString "price_update")])) s
  = Js.Throws s.
Proof. intros [old Hold]. cbv -[cells Dom.priceElement]. by rewrite Hold. Qed.

Definition statusWithoutStatus : payload :=
  Json (Js.VObject [("type", Js.VString "status_update")]).

(** C4, against the code.  Nothing in [onmessage] catches or logs: text
    that is not JSON makes it throw with the state untouched and the
    console silent; a price update without a price throws too; and a status
    update without a status throws after the status cell has already been
    overwritten with [undefined].  The socket's other handlers are not
    involved, so a later close still schedules the reconnection. *)
Theorem onmessage_throws :
  (∀ text s, onmessage (Malformed text) s = Js.Throws s)
  ∧ onmessage (Json (Js.VObject [("type", Js.VString "price_update")]))
      Sample.dashboard
    = Js.Throws Sample.dashboard
  ∧ (∃ s', onmessage statusWithoutStatus Sample.dashboard = Js.Throws s'
           ∧ console s' = []
           ∧ Dom.statusText <$> Dom.botStatus (cells s') = Some Js.VUndefined
           ∧ pending (onclose s')
             = [{| due := 5000; task := Reconnect |}]).
Proof.
  split_and!.
  - reflexivity.
  - reflexivity.
  - eexists. split_and!; reflexivity.
Qed.

End LiveChannel.

(** ** Notifications *)

Module Notifications.
Import TradingDashboard.
Local Open Scope nat_scope.
Local Open Scope list_scope.

#[local] Instance timeout_task_eq_dec : EqDecision callback.
Proof. solve_decision. Defined.

(** The nodes of the notifications on display. *)
Definition nodes (s : state) : list nat := node <$> default [] (container s).

(** How many times [remove()] was called on notification [n]. *)
Definition attempts (n : nat) (s : state) : nat :=
  length (filter (fun m => m = n) (removeCalls s)).

(** The timeout [showNotification] sets for notification [n]. *)
Definition removal (n : nat) (due : Z) : timeout :=
  {| due := due; task := RemoveNotification n |}.

(** *** Handlers that do not touch the queue *)

Definition sameQueue (s s' : state) : Prop :=
  container s' = container s ∧ nextNode s' = nextNode s
  ∧ pending s' = pending s ∧ now s' = now s ∧ removeCalls s' = removeCalls s.

Lemma sameQueue_onmessage (p : payload) (s : state) :
  sameQueue s (uncaught (onmessage p s)).
Proof.
  unfold onmessage, handleWebSocketMessage, updatePriceDisplay,
    updateBalanceDisplay, updateTradeHistory, updateBotStatus.
  destruct s. repeat case_match; by split_and!.
Qed.

Lemma sameQueue_outcome (o : Js.outcome state) (f : state → Js.outcome state)
    (s : state) :
  sameQueue s (uncaught o) → (∀ s1, sameQueue s s1 → sameQueue s (uncaught (f s1))) →
  sameQueue s (uncaught (andThen o f)).
Proof. destruct o; cbn; auto. Qed.

Lemma sameQueue_cells (f : Dom.cells → Dom.cells) (s s1 : state) :
  sameQueue s s1 → sameQueue s (onCells f s1).
Proof. by destruct s1. Qed.

Lemma sameQueue_updateDashboardData (data : Js.value) (s : state) :
  sameQueue s (updateDashboardData data s).
Proof.
  assert (sameQueue s s) as Hrefl by (by split_and!).
  assert (∀ line s1, sameQueue s s1 → sameQueue s (log line s1)) as Hlog
    by (intros line []; done).
  unfold updateDashboardData.
  destruct (Js.get data "current_price") as [price|]; [|by apply Hlog].
  set (body := andThen _ _).
  assert (sameQueue s (uncaught body)) as Hbody; [|destruct body; auto].
  subst body. apply sameQueue_outcome.
  { unfold updatePriceDisplay. repeat case_match; cbn; auto using sameQueue_cells. }
  intros s1 H1. apply sameQueue_outcome.
  { unfold updateBalanceDisplay. repeat case_match; cbn; auto using sameQueue_cells. }
  intros s2 H2. apply sameQueue_outcome.
  { unfold updateTradeHistory. repeat case_match; cbn; auto; by destruct s2. }
  intros s3 H3.
  unfold updateBotStatus. repeat case_match; cbn; auto using sameQueue_cells.
Qed.

Lemma elem_of_enqueue (x t : timeout) (queue : list timeout) :
  x ∈ enqueue t queue ↔ x = t ∨ x ∈ queue.
Proof.
  induction queue as [|u rest IH]; cbn.
  - rewrite list_elem_of_singleton. split; [by left|].
    intros [->|Hin]; [done|by apply elem_of_nil in Hin].
  - case_decide.
    + rewrite !elem_of_cons, IH. tauto.
    + apply elem_of_cons.
Qed.

(** *** Removing and firing *)

Lemma nodes_remove (m : nat) (s : state) :
  nodes (remove m s) = filter (fun x => x ≠ m) (nodes s).
Proof.
  unfold nodes, remove. destruct s as [? ? [children|]]; cbn; [|reflexivity].
  induction children as [|x children IH]; [reflexivity|].
  rewrite fmap_cons. destruct (decide (node x = m)) as [Heq|Hne].
  - rewrite filter_cons_False by (by intros ?).
    rewrite filter_cons_False by (by intros ?). exact IH.
  - rewrite filter_cons_True by done.
    rewrite filter_cons_True by done. rewrite fmap_cons. by rewrite IH.
Qed.

Lemma frame_remove (m : nat) (s : state) :
  nextNode (remove m s) = nextNode s ∧ pending (remove m s) = pending s
  ∧ now (remove m s) = now s.
Proof. by destruct s. Qed.

Lemma attempts_remove (n m : nat) (s : state) :
  attempts n (remove m s) = attempts n s + (if decide (m = n) then 1 else 0).
Proof.
  unfold attempts, remove. destruct s. cbn.
  rewrite filter_app, length_app. f_equal.
  rewrite filter_cons. by case_decide.
Qed.

Lemma frame_setupWebSocket (s : state) :
  container (setupWebSocket s) = container s
  ∧ nextNode (setupWebSocket s) = nextNode s
  ∧ pending (setupWebSocket s) = pending s
  ∧ removeCalls (setupWebSocket s) = removeCalls s.
Proof. unfold setupWebSocket. destruct s. by case_match. Qed.

Lemma nodes_fire (s : state) (t : timeout) (x : nat) :
  x ∈ nodes (fire s t) → x ∈ nodes s.
Proof.
  unfold fire. destruct (task t) as [m|].
  - rewrite nodes_remove. intros Hin. by apply list_elem_of_filter in Hin as [_ Hin].
  - unfold nodes. by destruct (frame_setupWebSocket s) as (-> & _).
Qed.

Lemma frame_fire (s : state) (t : timeout) :
  nextNode (fire s t) = nextNode s ∧ pending (fire s t) = pending s.
Proof.
  unfold fire. destruct (task t) as [m|].
  - by destruct (frame_remove m s) as (-> & -> & _).
  - by destruct (frame_setupWebSocket s) as (_ & -> & -> & _).
Qed.

Lemma attempts_fire (n : nat) (s : state) (t : timeout) :
  attempts n (fire s t)
  = attempts n s + (if decide (task t = RemoveNotification n) then 1 else 0).
Proof.
  unfold fire. destruct (task t) as [m|].
  - rewrite attempts_remove. repeat case_decide; congruence.
  - unfold attempts. destruct (frame_setupWebSocket s) as (_ & _ & _ & ->).
    case_decide; [discriminate|lia].
Qed.

Lemma nodes_foldl_fire (ts : list timeout) (s : state) (x : nat) :
  x ∈ nodes (foldl fire s ts) → x ∈ nodes s.
Proof.
  revert s. induction ts as [|t ts IH]; intros s; [done|].
  cbn [foldl]. intros Hin. by apply (nodes_fire s t), IH.
Qed.

Lemma frame_foldl_fire (ts : list timeout) (s : state) :
  nextNode (foldl fire s ts) = nextNode s ∧ pending (foldl fire s ts) = pending s.
Proof.
  revert s. induction ts as [|t ts IH]; intros s; [done|].
  cbn [foldl]. destruct (IH (fire s t)) as [-> ->]. apply frame_fire.
Qed.

(** Once its timeout has fired, the notification is gone. *)
Lemma fired_gone (ts : list timeout) (s : state) (n : nat) (due : Z) :
  removal n due ∈ ts → n ∉ nodes (foldl fire s ts).
Proof.
  revert s. induction ts as [|t ts IH]; intros s Hin.
  - by apply elem_of_nil in Hin.
  - cbn [foldl]. apply elem_of_cons in Hin as [<-|Hin]; [|by apply IH].
    intros Hshown. apply nodes_foldl_fire in Hshown.
    unfold fire, removal in Hshown. cbn [task] in Hshown.
    rewrite nodes_remove in Hshown.
    by apply list_elem_of_filter in Hshown as [Hne _].
Qed.

Lemma attempts_foldl_fire (ts : list timeout) (s : state) (n : nat) :
  attempts n s ≤ attempts n (foldl fire s ts).
Proof.
  revert s. induction ts as [|t ts IH]; intros s; [done|].
  cbn [foldl]. etrans; [|apply IH]. rewrite attempts_fire. lia.
Qed.

Lemma fired_attempt (ts : list timeout) (s : state) (n : nat) (due : Z) :
  removal n due ∈ ts → attempts n s + 1 ≤ attempts n (foldl fire s ts).
Proof.
  revert s. induction ts as [|t ts IH]; intros s Hin.
  - by apply elem_of_nil in Hin.
  - cbn [foldl]. apply elem_of_cons in Hin as [<-|Hin].
    + etrans; [|apply attempts_foldl_fire]. rewrite attempts_fire.
      unfold removal. cbn [task]. by case_decide.
    + etrans; [|by apply IH]. rewrite attempts_fire. lia.
Qed.

(** *** Time moving on *)

Lemma advance_queue (limit : Z) (s : state) :
  nextNode (advance limit s) = nextNode s
  ∧ pending (advance limit s) = filter (fun x => ¬ (due x ≤ limit)%Z) (pending s)
  ∧ ∀ x, x ∈ nodes (advance limit s) → x ∈ nodes s.
Proof.
  unfold advance.
  set (s0 := with_now _ (with_pending _ s)).
  destruct (frame_foldl_fire (filter (fun x => (due x ≤ limit)%Z) (pending s)) s0)
    as [-> ->].
  split_and!; [by destruct s|by destruct s|].
  intros x Hin. apply nodes_foldl_fire in Hin. by destruct s.
Qed.

Lemma advance_expires (limit due : Z) (n : nat) (s : state) :
  removal n due ∈ pending s → (due ≤ limit)%Z →
  (n ∉ nodes (advance limit s))
  ∧ attempts n s + 1 ≤ attempts n (advance limit s).
Proof.
  intros Hin Hdue. unfold advance.
  set (s0 := with_now _ (with_pending _ s)).
  assert (removal n due ∈ filter (fun x => (TradingDashboard.due x ≤ limit)%Z) (pending s))
    as Hfired by (apply list_elem_of_filter; by split).
  split.
  - by apply (fired_gone _ s0 n due).
  - replace (attempts n s) with (attempts n s0) by (by destruct s).
    by apply (fired_attempt _ s0 n due).
Qed.

(** *** One step of the dashboard, seen from the queue *)

Lemma step_queue (s : state) (e : event) :
  nextNode s ≤ nextNode (step s e)
  ∧ (∀ x, x ∈ nodes (step s e) → x ∈ nodes s ∨ x = nextNode s)
  ∧ (∀ t, t ∈ pending s →
       t ∈ pending (step s e) ∨ ∃ limit, e = Advance limit ∧ (due t ≤ limit)%Z).
Proof.
  destruct e as [|p| | |data|message type duration|m|limit]; cbn [step].
  - by destruct s; auto.
  - destruct (sameQueue_onmessage p s) as (Hc & -> & -> & _).
    unfold nodes. rewrite Hc. auto.
  - destruct s. split_and!; auto. intros t Hin. left. cbn.
    apply elem_of_enqueue. by right.
  - by destruct s; auto.
  - destruct (sameQueue_updateDashboardData data s) as (Hc & -> & -> & _).
    unfold nodes. rewrite Hc. auto.
  - unfold showNotification, nodes.
    destruct s as [? ? [children|]]; cbn; [|auto].
    split_and!; [lia| |intros t Hin; left; apply elem_of_enqueue; by right].
    intros x Hin. rewrite fmap_app in Hin.
    apply elem_of_app in Hin as [Hin|Hin]; [by left|].
    apply list_elem_of_singleton in Hin. by right.
  - unfold dismiss. destruct (frame_remove m s) as (-> & -> & _).
    split_and!; [done| |auto].
    intros x Hin. rewrite nodes_remove in Hin.
    apply list_elem_of_filter in Hin as [_ Hin]. by left.
  - destruct (advance_queue limit s) as (-> & -> & Hnodes).
    split_and!; [done|auto|].
    intros t Hin. destruct (decide (due t ≤ limit)%Z) as [Hdue|Hlater].
    + right. by exists limit.
    + left. apply list_elem_of_filter. by split.
Qed.

(** A notification that is gone stays gone: new nodes are fresh. *)
Definition gone (n : nat) (s : state) : Prop := n < nextNode s ∧ n ∉ nodes s.

Lemma gone_step (n : nat) (s : state) (e : event) : gone n s → gone n (step s e).
Proof.
  intros [Hold Hgone]. destruct (step_queue s e) as (Hnext & Hnodes & _).
  split; [lia|]. intros Hin. apply Hnodes in Hin as [Hin| ->]; [done|lia].
Qed.

Lemma gone_run (n : nat) (es : list event) (s : state) : gone n s → gone n (run s es).
Proof.
  revert s. induction es as [|e es IH]; intros s Hs; [exact Hs|].
  apply IH, gone_step, Hs.
Qed.

(** While a notification is on display its removal is pending. *)
Definition armed (n : nat) (due : Z) (s : state) : Prop :=
  n < nextNode s ∧ (n ∈ nodes s → removal n due ∈ pending s).

Lemma armed_step (n : nat) (due : Z) (s : state) (e : event) :
  armed n due s → armed n due (step s e).
Proof.
  intros [Hold Harmed]. destruct (step_queue s e) as (Hnext & Hnodes & Hpending).
  split; [lia|]. intros Hin.
  pose proof Hin as Hin'. apply Hnodes in Hin' as [Hin'| ->]; [|lia].
  destruct (Hpending _ (Harmed Hin')) as [Hstill|(limit & -> & Hdue)]; [exact Hstill|].
  exfalso. cbn [step] in Hin.
  by destruct (advance_expires limit due n s (Harmed Hin') Hdue) as [Hgone _].
Qed.

Lemma armed_run (n : nat) (due : Z) (es : list event) (s : state) :
  armed n due s → armed n due (run s es).
Proof.
  revert s. induction es as [|e es IH]; intros s Hs; [exact Hs|].
  apply IH, armed_step, Hs.
Qed.

(** Runs during which time stays short of [limit]. *)
Definition early (limit : Z) (es : list event) : Prop :=
  ∀ t, Advance t ∈ es → (t < limit)%Z.

Lemma pending_early (t : timeout) (es : list event) (s : state) :
  early (due t) es → t ∈ pending s → t ∈ pending (run s es).
Proof.
  revert s. induction es as [|e es IH]; intros s Hearly Hin; [exact Hin|].
  change (run s (e :: es)) with (run (step s e) es). apply IH.
  - intros limit Hlimit. apply Hearly. by right.
  - destruct (step_queue s e) as (_ & _ & Hpending).
    destruct (Hpending t Hin) as [Hstill|(limit & -> & Hdue)]; [exact Hstill|].
    assert (limit < due t)%Z by (apply Hearly; by left). lia.
Qed.

Lemma showNotification_queue (message type : string) (ttl : Z) (s : state) :
  is_Some (container s) →
  let s1 := showNotification message type ttl s in
  nodes s1 = nodes s ++ [nextNode s]
  ∧ nextNode s1 = S (nextNode s)
  ∧ removal (nextNode s) (now s + Z.max 0 ttl) ∈ pending s1.
Proof.
  intros [children Hc]. unfold showNotification, nodes. rewrite Hc.
  destruct s. cbn in *. subst. rewrite fmap_app. split_and!; [done|done|].
  apply elem_of_enqueue. by left.
Qed.




End Notifications.

(** * Further properties of the two classes *)

Set Warnings "-clear-no-such-hyp".

(** ** One active mark per group *)

Module ActiveMarks.
Import DashboardSwitcher.
Local Open Scope nat_scope.
Local Open Scope list_scope.

(** After the marks are cleared and the first element of that name is
    marked, that element is the only one marked. *)
Lemma activeOnes_addActive (name : string) (els : list Dom.element) :
  Dom.activeOnes (Dom.addActive name (Dom.removeActive els))
  = if decide (name ∈ Dom.attr <$> els) then [name] else [].
Proof.
  induction els as [|el els IH].
  - reflexivity.
  - cbn [Dom.removeActive map Dom.addActive Dom.attr].
    destruct (String.eqb (Dom.attr el) name) eqn:Heq.
    + apply String.eqb_eq in Heq.
      rewrite decide_True by (rewrite fmap_cons, Heq; by left).
      unfold Dom.activeOnes. rewrite filter_cons_True by done.
      rewrite fmap_cons. cbn [Dom.attr]. rewrite Heq. f_equal.
      apply ViewControl.activeOnes_removeActive.
    + apply String.eqb_neq in Heq.
      unfold Dom.activeOnes in *.
      rewrite filter_cons_False by (cbn; discriminate).
      change (map (fun el0 => {| Dom.attr := Dom.attr el0; Dom.active := false |}) els)
        with (Dom.removeActive els).
      rewrite IH. rewrite fmap_cons.
      destruct (decide (name ∈ Dom.attr <$> els)) as [Hin|Hout].
      * rewrite decide_True by (by right). reflexivity.
      * rewrite decide_False; [reflexivity|].
        intros Hin. apply elem_of_cons in Hin as [Hhead|Hin]; congruence.
Qed.


End ActiveMarks.

(** ** Layout classes *)

Module Layouts.
Import DashboardSwitcher.
Local Open Scope nat_scope.
Local Open Scope list_scope.

(** The class list of [.dashboard-container], empty when there is none. *)
Definition classes (s : state) : gset string := default ∅ (dashboardContainer s).

Lemma switchLayout_classes (layout : string) (s : state) :
  dashboardContainer (switchLayout layout s)
  = (fun cs => (cs ∖ layoutClasses) ∪ {[ ("layout-" ++ layout)%string ]})
      <$> dashboardContainer s.
Proof. unfold switchLayout. by destruct s as [? ? ? ? ? ? ? ? ? ? []]. Qed.

(** X2.  After [switchLayout] with one of the three layouts, the container
    carries exactly that one of the three layout classes and every other
    class it had; the layout is stored; and the layout button of that name,
    if any, is the only one marked. *)
Theorem switchLayout_one_layout (layout : string) (cs : gset string) (s : state) :
  dashboardContainer s = Some cs →
  layout ∈ ["grid"; "list"; "compact"] →
  let s' := switchLayout layout s in
  classes s' ∩ layoutClasses = {[ ("layout-" ++ layout)%string ]}
  ∧ classes s' ∖ layoutClasses = cs ∖ layoutClasses
  ∧ localStorage s' !! "dashboard-layout" = Some layout
  ∧ Dom.activeOnes (layoutSwitchers s')
    = (if decide (layout ∈ Dom.attr <$> layoutSwitchers s) then [layout] else []).
Proof.
  intros Hcs Hlayout s'.
  assert (("layout-" ++ layout)%string ∈ layoutClasses) as Hknown.
  { unfold layoutClasses.
    repeat (apply elem_of_cons in Hlayout as [->|Hlayout]; [cbn; set_solver|]).
    by apply elem_of_nil in Hlayout. }
  assert (classes s' = (cs ∖ layoutClasses) ∪ {[ ("layout-" ++ layout)%string ]})
    as Hclasses.
  { unfold classes, s'. by rewrite switchLayout_classes, Hcs. }
  split_and!.
  - rewrite Hclasses. set_solver.
  - rewrite Hclasses. set_solver.
  - unfold s', switchLayout. destruct s as [? ? ? ? ? ? ? ? ? ? []]; cbn;
      apply lookup_insert_eq.
  - unfold s', switchLayout.
    destruct s as [? ? ? ? ? ? ? ? ? ? []]; cbn; apply ActiveMarks.activeOnes_addActive.
Qed.

Lemma switchLayout_one_layout_witness :
  classes (switchLayout "list" Sample.page) ∩ layoutClasses = {[ "layout-list" ]}
  ∧ classes (switchLayout "list" Sample.page) ∖ layoutClasses
    = {[ "dashboard-container" ]} ∖ layoutClasses.
Proof.
  destruct (switchLayout_one_layout "list" {[ "dashboard-container" ]} Sample.page)
    as (Hone & Hrest & _).
  - reflexivity.
  - right. left.
  - split; assumption.
Defined.

(** *** Classes outside the three *)

Lemma container_applyTheme (theme : string) (s : state) :
  dashboardContainer (applyTheme theme s) = dashboardContainer s.
Proof. unfold applyTheme. by case_match. Qed.

Lemma container_listeners (matches : bool) (ls : list listener) (s : state) :
  dashboardContainer (foldl (runListener matches) s ls) = dashboardContainer s.
Proof.
  revert s. induction ls as [|[] ls IH]; intros s; [reflexivity|].
  cbn [foldl runListener]. rewrite IH. apply container_applyTheme.
Qed.

(** Only [switchLayout] writes to the class list. *)
Lemma container_step (s : state) (e : event) :
  dashboardContainer (step s e)
  = match e with
    | SwitchLayout layout =>
        (fun cs => (cs ∖ layoutClasses) ∪ {[ ("layout-" ++ layout)%string ]})
          <$> dashboardContainer s
    | _ => dashboardContainer s
    end.
Proof.
  destruct e; cbn [step].
  - unfold switchView. rewrite SwitcherFrame.initializeView_effect. by destruct s.
  - unfold switchTheme, enableAutoTheme, switchConcreteTheme, applyTheme.
    by repeat case_match.
  - unfold enableAutoTheme, switchConcreteTheme, applyTheme. by repeat case_match.
  - apply switchLayout_classes.
  - unfold setRefreshRate. destruct s as [? ? []]; cbn; by case_match.
  - unfold systemPreferenceChange. rewrite container_listeners. by destruct s.
  - unfold fireTimer. by repeat case_match.
  - unfold dashboardDataArrived.
    by destruct (SwitcherFrame.updateDashboardData_cells data s) as (c & [] & ->).
  - unfold refreshDataArrived.
    by destruct (SwitcherFrame.updateDashboardData_cells data s) as (c & [] & ->).
Qed.



End Layouts.

(** ** Theme tokens *)

Module ThemeTokens.
Import DashboardSwitcher.
Local Open Scope nat_scope.
Local Open Scope list_scope.

(** X4.  [applyTheme] overwrites the theme wholesale: applied after another
    theme it leaves the state it leaves when applied alone; and every name
    other than ['dark'] gets the attribute of its own name with the light
    tokens. *)
Theorem applyTheme_last_wins (first last : string) (s : state) :
  applyTheme last (applyTheme first s) = applyTheme last s
  ∧ rootStyle (applyTheme last s)
    = rootStyle (applyTheme (if String.eqb last "dark" then "dark" else "light") s)
  ∧ bodyTheme (applyTheme last s) = Some last.
Proof.
  split_and!.
  - unfold applyTheme, setProperty. destruct s.
    destruct (String.eqb first "dark"), (String.eqb last "dark"); cbn;
      f_equal; apply map_eq; intros j;
      repeat ThemeControl.strip_insert j; reflexivity.
  - unfold applyTheme. by destruct (String.eqb last "dark").
  - unfold applyTheme. by case_match.
Qed.

End ThemeTokens.

(** ** Start-up *)

Module Startup.
Import DashboardSwitcher.
Local Open Scope nat_scope.
Local Open Scope list_scope.

(** The four keys [loadSavedSettings] reads. *)
Definition keys : list string :=
  ["dashboard-theme"; "dashboard-view"; "dashboard-layout";
   "dashboard-refresh-rate"].

(** X5.  When none of the four keys holds a non-empty string,
    [loadSavedSettings] changes nothing: the defaults of the constructor
    stand, no view is initialised, no request is sent and no timer is
    armed. *)
Theorem nothing_stored (s : state) :
  (∀ key, key ∈ keys → Js.truthyItem (getItem key s) = None) →
  loadSavedSettings s = s.
Proof.
  intros Hnone. unfold loadSavedSettings. cbv zeta.
  rewrite (Hnone "dashboard-theme") by (unfold keys; set_solver).
  rewrite (Hnone "dashboard-view") by (unfold keys; set_solver).
  rewrite (Hnone "dashboard-layout") by (unfold keys; set_solver).
  rewrite (Hnone "dashboard-refresh-rate") by (unfold keys; set_solver).
  reflexivity.
Qed.

Lemma nothing_stored_witness :
  init (with_localStorage {[ "dashboard-view" := ""; "theme" := "dark" ]} Sample.page)
  = constructed
      (with_localStorage {[ "dashboard-view" := ""; "theme" := "dark" ]} Sample.page).
Proof.
  unfold init. apply nothing_stored. intros key Hkey. unfold keys in Hkey.
  repeat (apply elem_of_cons in Hkey as [->|Hkey]; [reflexivity|]).
  by apply elem_of_nil in Hkey.
Defined.

(** With a view and a refresh rate stored together, both are loaded, the
    view first. *)
Lemma load_view_and_rate (view saved : string) (s : state) :
  localStorage s
  = <["dashboard-refresh-rate" := saved]> {[ "dashboard-view" := view ]} →
  String.eqb view "" = false → String.eqb saved "" = false →
  loadSavedSettings s
  = setRefreshRate (Js.parseInt saved) (switchView view (with_currentView view s)).
Proof.
  intros Hstore Hview Hsaved. unfold loadSavedSettings, getItem. cbv zeta.
  rewrite Hstore, lookup_insert_ne, lookup_singleton_ne by done.
  cbn [Js.truthyItem].
  rewrite Hstore, lookup_insert_ne, lookup_singleton_eq by done.
  rewrite Persistence.truthyItem_some by exact Hview.
  rewrite Persistence.storage_switchView, Persistence.storage_with_currentView, Hstore.
  rewrite !lookup_insert_ne, lookup_singleton_ne by done.
  cbn [Js.truthyItem].
  rewrite Persistence.storage_switchView, Persistence.storage_with_currentView, Hstore.
  rewrite lookup_insert_ne, lookup_insert_eq by done.
  by rewrite Persistence.truthyItem_some by exact Hsaved.
Qed.



End Startup.

(** ** Removing one element of a list without repetition *)

Module Lists.
Local Open Scope nat_scope.
Local Open Scope list_scope.

Lemma filter_out_absent {A} `{EqDecision A} (x : A) (l : list A) :
  x ∉ l → filter (fun y => y ≠ x) l = l.
Proof.
  induction l as [|y l IH]; intros Hout; [reflexivity|].
  apply not_elem_of_cons in Hout as [Hne Hout].
  rewrite filter_cons_True by done. by rewrite IH.
Qed.

Lemma length_filter_out {A} `{EqDecision A} (x : A) (l : list A) :
  NoDup l → x ∈ l → length (filter (fun y => y ≠ x) l) + 1 = length l.
Proof.
  induction 1 as [|y l Hy Hl IH]; intros Hin; [by apply elem_of_nil in Hin|].
  apply elem_of_cons in Hin as [->|Hin].
  - rewrite filter_cons_False by (by intros ?).
    rewrite filter_out_absent by exact Hy. cbn. lia.
  - rewrite filter_cons_True by (intros ->; done). cbn. rewrite <- (IH Hin). lia.
Qed.

End Lists.

(** ** Refresh notifications and their timers *)

Module RefreshNotices.
Import DashboardSwitcher.
Local Open Scope nat_scope.
Local Open Scope list_scope.

(** The timeout [showRefreshNotification] sets. *)
Definition removalTimer : timer :=
  {| task := RemoveRefreshNotification; delay := Js.Int 2000; repeats := false |}.

(** A timer table as the class builds it: handles in use and the handle
    held are older than the next handle; the handle held names a refresh
    timer if it names any; and every notification on display, each listed
    once, has its removal pending. *)
Record sound (s : state) : Prop := {
  below : ∀ id t, timers s !! id = Some t → (id < nextTimer s)%positive;
  held_below : ∀ id, refreshInterval s = Some id → (id < nextTimer s)%positive;
  held_refresh : ∀ id t, refreshInterval s = Some id → timers s !! id = Some t →
                         task t = RefreshData;
  shown_pending : ∀ id, id ∈ refreshNotifications s →
                        timers s !! id = Some removalTimer;
  shown_once : NoDup (refreshNotifications s)
}.

(** The part of the state the timers live in. *)
Definition clock (s : state) :=
  (refreshInterval s, timers s, nextTimer s, refreshNotifications s).

Lemma sound_clock (s s' : state) : clock s' = clock s → sound s → sound s'.
Proof.
  unfold clock. intros Heq [H1 H2 H3 H4 H5].
  pose proof (f_equal (fun c => fst (fst (fst c))) Heq) as Hheld.
  pose proof (f_equal (fun c => snd (fst (fst c))) Heq) as Htimers.
  pose proof (f_equal (fun c => snd (fst c)) Heq) as Hnext.
  pose proof (f_equal snd Heq) as Hshown.
  cbn [fst snd] in Hheld, Htimers, Hnext, Hshown.
  split; rewrite ?Hheld, ?Htimers, ?Hnext, ?Hshown; assumption.
Qed.

Lemma clock_applyTheme (theme : string) (s : state) :
  clock (applyTheme theme s) = clock s.
Proof. unfold applyTheme. by case_match. Qed.

Lemma clock_listeners (matches : bool) (ls : list listener) (s : state) :
  clock (foldl (runListener matches) s ls) = clock s.
Proof.
  revert s. induction ls as [|[] ls IH]; intros s; [reflexivity|].
  cbn [foldl runListener]. rewrite IH. apply clock_applyTheme.
Qed.

Lemma clock_setRefreshRate (seconds : Js.integer) (s : state) :
  clock (setRefreshRate seconds s)
  = if Js.aboveZero seconds
    then (Some (nextTimer s),
          <[nextTimer s := RefreshScheduler.refreshTimer seconds]>
            (timers (RefreshScheduler.cleared s)),
          Pos.succ (nextTimer s), refreshNotifications s)
    else (refreshInterval s, timers (RefreshScheduler.cleared s), nextTimer s,
          refreshNotifications s).
Proof.
  unfold setRefreshRate, RefreshScheduler.cleared, clock.
  destruct s as [? ? []]; cbn; destruct (Js.aboveZero seconds); reflexivity.
Qed.

Lemma cleared_lookup (s : state) (id : positive) (t : timer) :
  timers (RefreshScheduler.cleared s) !! id = Some t →
  timers s !! id = Some t ∧ refreshInterval s ≠ Some id.
Proof.
  unfold RefreshScheduler.cleared. destruct (refreshInterval s) as [held|] eqn:Hheld.
  - unfold clearInterval, with_timers. cbn. rewrite lookup_delete_Some.
    intros [Hne Hin]. split; [exact Hin|congruence].
  - intros Hin. by split.
Qed.

Lemma cleared_other (s : state) (id : positive) (t : timer) :
  timers s !! id = Some t → refreshInterval s ≠ Some id →
  timers (RefreshScheduler.cleared s) !! id = Some t.
Proof.
  intros Hin Hne. unfold RefreshScheduler.cleared.
  destruct (refreshInterval s) as [held|]; [|exact Hin].
  unfold clearInterval, with_timers. cbn. rewrite lookup_delete_ne by congruence.
  exact Hin.
Qed.

Lemma sound_setRefreshRate (seconds : Js.integer) (s : state) :
  sound s → sound (setRefreshRate seconds s).
Proof.
  intros [H1 H2 H3 H4 H5].
  pose proof (clock_setRefreshRate seconds s) as Hclock. unfold clock in Hclock.
  assert (∀ id, id ∈ refreshNotifications s →
            timers (RefreshScheduler.cleared s) !! id = Some removalTimer) as Hkept.
  { intros id Hin. apply cleared_other; [by apply H4|].
    intros Hheld. specialize (H3 id _ Hheld (H4 id Hin)). discriminate. }
  destruct (Js.aboveZero seconds);
    pose proof (f_equal (fun c => fst (fst (fst c))) Hclock) as Hheld;
    pose proof (f_equal (fun c => snd (fst (fst c))) Hclock) as Htimers;
    pose proof (f_equal (fun c => snd (fst c)) Hclock) as Hnext;
    pose proof (f_equal snd Hclock) as Hshown;
    cbn [fst snd] in Hheld, Htimers, Hnext, Hshown; clear Hclock; split.
  - intros id t. rewrite Htimers, Hnext. intros Hin.
    apply lookup_insert_Some in Hin as [[<- _]|[_ Hin]]; [lia|].
    apply cleared_lookup in Hin as [Hin _]. specialize (H1 id t Hin). lia.
  - intros id. rewrite Hheld, Hnext. intros [= <-]. lia.
  - intros id t. rewrite Hheld, Htimers. intros [= <-]. rewrite lookup_insert_eq.
    by intros [= <-].
  - intros id. rewrite Hshown, Htimers. intros Hin.
    rewrite lookup_insert_ne; [by apply Hkept|].
    specialize (H1 id _ (H4 id Hin)). lia.
  - by rewrite Hshown.
  - intros id t. rewrite Htimers, Hnext. intros Hin.
    apply cleared_lookup in Hin as [Hin _]. by apply (H1 id t).
  - intros id. rewrite Hheld, Hnext. apply H2.
  - intros id t. rewrite Hheld, Htimers. intros Hh Hin.
    apply cleared_lookup in Hin as [_ Hne]. congruence.
  - intros id. rewrite Hshown, Htimers. apply Hkept.
  - by rewrite Hshown.
Qed.

Lemma sound_showRefreshNotification (s : state) :
  sound s → sound (showRefreshNotification s).
Proof.
  intros [H1 H2 H3 H4 H5]. destruct s. cbn in *. split; cbn.
  - intros id t Hin.
    apply lookup_insert_Some in Hin as [[<- _]|[_ Hin]]; [lia|].
    specialize (H1 id t Hin). lia.
  - intros id Hheld. specialize (H2 id Hheld). lia.
  - intros id t Hheld Hin. specialize (H2 id Hheld).
    rewrite lookup_insert_ne in Hin by lia. by apply (H3 id).
  - intros id Hin. apply elem_of_app in Hin as [Hin|Hin].
    + specialize (H1 id _ (H4 id Hin)). rewrite lookup_insert_ne by lia.
      by apply H4.
    + apply list_elem_of_singleton in Hin as ->. apply lookup_insert_eq.
  - apply NoDup_app. split_and!; [exact H5| |apply NoDup_singleton].
    intros id Hin Hnew. apply list_elem_of_singleton in Hnew as ->.
    specialize (H1 _ _ (H4 _ Hin)). lia.
Qed.

Lemma sound_fireTimer (id : positive) (s : state) : sound s → sound (fireTimer id s).
Proof.
  intros Hs. unfold fireTimer.
  destruct (timers s !! id) as [[[] ? ?]|] eqn:Hid;
    [eapply sound_clock; [|exact Hs]; by destruct s| |exact Hs].
  destruct Hs as [H1 H2 H3 H4 H5]. destruct s. cbn in *. split; cbn.
  - intros j t Hin. apply lookup_delete_Some in Hin as [_ Hin]. by apply (H1 j t).
  - exact H2.
  - intros j t Hheld Hin. apply lookup_delete_Some in Hin as [_ Hin].
    by apply (H3 j t).
  - intros j Hin. apply list_elem_of_filter in Hin as [Hne Hin].
    rewrite lookup_delete_ne by done. by apply H4.
  - by apply NoDup_filter.
Qed.

Lemma sound_step (s : state) (e : event) : sound s → sound (step s e).
Proof.
  intros Hs. destruct e; cbn [step].
  - eapply sound_clock; [|exact Hs]. unfold switchView.
    rewrite SwitcherFrame.initializeView_effect. by destruct s.
  - eapply sound_clock; [|exact Hs].
    unfold switchTheme, enableAutoTheme, switchConcreteTheme, applyTheme.
    by repeat case_match.
  - eapply sound_clock; [|exact Hs].
    unfold enableAutoTheme, switchConcreteTheme, applyTheme. by repeat case_match.
  - eapply sound_clock; [|exact Hs]. unfold switchLayout. by case_match.
  - by apply sound_setRefreshRate.
  - eapply sound_clock; [|exact Hs]. unfold systemPreferenceChange.
    rewrite clock_listeners. by destruct s.
  - by apply sound_fireTimer.
  - eapply sound_clock; [|exact Hs]. unfold dashboardDataArrived.
    by destruct (SwitcherFrame.updateDashboardData_cells data s) as (c & [] & ->).
  - unfold refreshDataArrived.
    destruct (SwitcherFrame.updateDashboardData_cells data s) as (c & [] & ->).
    + eapply sound_clock; [|exact Hs]. by destruct s.
    + apply sound_showRefreshNotification.
      eapply sound_clock; [|exact Hs]. by destruct s.
Qed.

Lemma sound_run (es : list event) (s : state) : sound s → sound (run s es).
Proof.
  revert s. induction es as [|e es IH]; intros s Hs; [exact Hs|].
  apply IH, sound_step, Hs.
Qed.

Lemma sound_page : sound Sample.page.
Proof.
  split; cbn; try done.
  - intros id. by rewrite elem_of_nil.
  - apply NoDup_nil_2.
Qed.

(** X7.  Along every run, each refresh notification on display has its
    own two-second removal pending, and when that timer fires the
    notification, and no other, leaves the page together with the timer. *)
Theorem refresh_notice_removed (s : state) (es : list event) (id : positive) :
  sound s →
  let s' := run s es in
  id ∈ refreshNotifications s' →
  timers s' !! id = Some removalTimer
  ∧ refreshNotifications (fireTimer id s')
    = filter (fun n => n ≠ id) (refreshNotifications s')
  ∧ length (refreshNotifications (fireTimer id s')) + 1
    = length (refreshNotifications s')
  ∧ timers (fireTimer id s') = delete id (timers s').
Proof.
  intros Hs s' Hin.
  destruct (sound_run es s Hs) as [_ _ _ H4 H5]. fold s' in H4, H5.
  pose proof (H4 id Hin) as Hid.
  assert (fireTimer id s'
          = with_refreshNotifications
              (filter (fun n => n ≠ id) (refreshNotifications s'))
              (with_timers (delete id (timers s')) s')) as Hfire
    by (unfold fireTimer; by rewrite Hid).
  split_and!.
  - exact Hid.
  - rewrite Hfire. by destruct s'.
  - rewrite Hfire. replace (refreshNotifications (with_refreshNotifications _ _))
      with (filter (fun n => n ≠ id) (refreshNotifications s')) by (by destruct s').
    by apply Lists.length_filter_out.
  - rewrite Hfire. by destruct s'.
Qed.

Lemma refresh_notice_removed_witness :
  timers (run Sample.page
            [RefreshDataArrived ScalarCells.emptied; SetRefreshRate (Js.Int 5);
             RefreshDataArrived ScalarCells.emptied; SetRefreshRate (Js.Int 0)])
    !! 1%positive
  = Some removalTimer.
Proof.
  apply (refresh_notice_removed Sample.page _ 1%positive sound_page). cbn.
  left.
Defined.

(** X8.  [setRefreshRate] cancels refresh timers only: with a timer table
    as the class builds it, every other timer stays as it is, and the handle
    of the new interval was not in use. *)
Theorem setRefreshRate_spares_others (s : state) (es : list event)
    (seconds : Js.integer) (id : positive) (t : timer) :
  sound s →
  let s' := run s es in
  timers s' !! id = Some t → task t ≠ RefreshData →
  timers (setRefreshRate seconds s') !! id = Some t
  ∧ timers s' !! nextTimer s' = None.
Proof.
  intros Hs s' Hin Hother.
  destruct (sound_run es s Hs) as [H1 _ H3 _ _]. fold s' in H1, H3.
  split.
  - rewrite RefreshScheduler.setRefreshRate_timers.
    assert (timers (RefreshScheduler.cleared s') !! id = Some t) as Hkept.
    { apply cleared_other; [exact Hin|]. intros Hheld. by apply Hother, (H3 id). }
    destruct (Js.aboveZero seconds); [|exact Hkept].
    rewrite lookup_insert_ne; [exact Hkept|].
    specialize (H1 id t Hin). lia.
  - destruct (timers s' !! nextTimer s') as [u|] eqn:Hnext; [|reflexivity].
    specialize (H1 _ _ Hnext). lia.
Qed.

Lemma setRefreshRate_spares_others_witness :
  timers (setRefreshRate (Js.Int 0)
            (run Sample.page
               [SetRefreshRate (Js.Int 5); RefreshDataArrived ScalarCells.emptied]))
    !! 2%positive
  = Some removalTimer.
Proof.
  apply (setRefreshRate_spares_others Sample.page
           [SetRefreshRate (Js.Int 5); RefreshDataArrived ScalarCells.emptied]
           (Js.Int 0) 2%positive removalTimer sound_page).
  - reflexivity.
  - discriminate.
Defined.

End RefreshNotices.

(** ** What a refresh response writes *)

Module RefreshData.
Import DashboardSwitcher.
Local Open Scope nat_scope.
Local Open Scope list_scope.

(** The three fields [updateDashboardData] looks at. *)
Definition fields : list string := ["current_price"; "balance"; "bot_status"].

(** X9.  [updateDashboardData] of the switcher returns without writing
    when each of the three fields is absent or falsy (zero, empty, [null],
    [false]), and also, whatever the fields hold, when the page has none of
    the three elements.  Given [null] or [undefined] for the snapshot itself
    it throws before anything is written. *)
Theorem refresh_writes_nothing (data : Js.value) (s : state) :
  ((∀ key, key ∈ fields → ∃ v, Js.get data key = Some v ∧ Js.truthy v = false) →
   updateDashboardData data s = Js.Returns s)
  ∧ (cells s = {| Dom.priceElement := None; Dom.balanceElement := None;
                  Dom.botStatus := None |} →
     data ≠ Js.VNull → data ≠ Js.VUndefined →
     updateDashboardData data s = Js.Returns s)
  ∧ updateDashboardData Js.VNull s = Js.Throws s
  ∧ updateDashboardData Js.VUndefined s = Js.Throws s.
Proof.
  split_and!; [| |reflexivity|reflexivity].
  - intros Hfalsy. unfold updateDashboardData, fields in *.
    destruct (Hfalsy "current_price") as (v1 & -> & ->); [set_solver|].
    destruct (Hfalsy "balance") as (v2 & -> & ->); [set_solver|].
    destruct (Hfalsy "bot_status") as (v3 & -> & ->); [set_solver|].
    reflexivity.
  - intros Hnone Hnull Hundef. unfold updateDashboardData.
    assert (∀ key, ∃ v, Js.get data key = Some v) as Hget
      by (intros key; destruct data; try done; by eexists).
    destruct (Hget "current_price") as (v1 & ->).
    destruct (Hget "balance") as (v2 & ->).
    destruct (Hget "bot_status") as (v3 & ->).
    destruct s. cbn in Hnone. subst.
    destruct (Js.truthy v1), (Js.truthy v2), (Js.truthy v3); reflexivity.
Qed.

Lemma refresh_writes_nothing_witness :
  updateDashboardData
    (Js.VObject [("current_price", Js.VNumber 0); ("bot_status", Js.VString "")])
    Sample.page
  = Js.Returns Sample.page.
Proof.
  apply (proj1 (refresh_writes_nothing _ Sample.page)).
  intros key Hkey. unfold fields in Hkey.
  repeat (apply elem_of_cons in Hkey as [->|Hkey];
          [eexists; split; reflexivity|]).
  by apply elem_of_nil in Hkey.
Defined.

(** X10.  The cells are written one after the other, and a throw keeps
    what was written before it: with a price that is a number other than
    zero and a balance that is truthy but not a number, the price cell gets
    the new price and [updateDashboardData] throws at the balance, leaving
    balance and status as they were. *)
Theorem refresh_stops_at_balance (data bad : Js.value) (q : Q) (s : state) :
  is_Some (Dom.priceElement (cells s)) →
  is_Some (Dom.balanceElement (cells s)) →
  Js.get data "current_price" = Some (Js.VNumber q) → Qnum q ≠ 0%Z →
  Js.get data "balance" = Some bad →
  Js.truthy bad = true → Js.callToFixed2 bad = None →
  updateDashboardData data s
  = Js.Throws (onCells (Dom.with_price ("$" ++ Js.toFixed2 q)%string) s).
Proof.
  intros [p Hp] [b Hb] Hprice Hq Hbalance Htruthy Hbad.
  unfold updateDashboardData. rewrite Hprice, Hbalance.
  cbn [Js.truthy]. apply Z.eqb_neq in Hq. rewrite Hq. cbn [negb].
  rewrite Hp. cbn [Js.callToFixed2 andThen]. rewrite Htruthy.
  replace (Dom.balanceElement (cells (onCells _ s))) with (Some b)
    by (by destruct s).
  by rewrite Hbad.
Qed.

Lemma refresh_stops_at_balance_witness :
  let data := Js.VObject [("current_price", Js.VNumber 5);
                          ("balance", Js.VString "n/a");
                          ("bot_status", Js.VString "Stopped")] in
  Dom.priceElement (cells (dashboardDataArrived data Sample.page)) = Some "$5.00"
  ∧ Dom.balanceElement (cells (dashboardDataArrived data Sample.page))
    = Some "$2500.00"
  ∧ Dom.botStatus (cells (dashboardDataArrived data Sample.page))
    = Dom.botStatus Sample.cells.
Proof.
  cbv zeta. unfold dashboardDataArrived.
  rewrite (refresh_stops_at_balance _ (Js.VString "n/a") 5 Sample.page).
  all: first [split_and!; reflexivity|by eexists|discriminate].
Defined.


End RefreshData.

(** ** The trade history view of the switcher *)

Module TradeHistoryView.
Local Open Scope nat_scope.
Local Open Scope list_scope.

(** [createTradeRow] of [DashboardSwitcher] is, line for line, the one of
    [TradingDashboard]; both fill the same [.trade-history tbody]. *)
Definition createTradeRow : Js.value -> option Dom.row :=
  TradingDashboard.createTradeRow.

(** The body of [trades.forEach]: a row is built and appended for each
    trade in turn; the first trade whose row cannot be built throws, with
    the rows appended so far in place. *)
Fixpoint appendRows (trades : list Js.value) (rows : list Dom.row)
    : Js.outcome (list Dom.row) :=
  match trades with
  | [] => Js.Returns rows
  | trade :: rest =>
      match createTradeRow trade with
      | Some row => appendRows rest (rows ++ [row])
      | None => Js.Throws rows
      end
  end.

(** [updateTradeHistory(trades)] of [DashboardSwitcher], on the rows of the
    table ([None] when the page has no table).  The table is emptied first;
    only an array has [forEach]. *)
Definition updateTradeHistory (trades : Js.value) (table : option (list Dom.row))
    : Js.outcome (option (list Dom.row)) :=
  match table with
  | Some _ =>
      match trades with
      | Js.VArray items =>
          match appendRows items [] with
          | Js.Returns rows => Js.Returns (Some rows)
          | Js.Throws rows => Js.Throws (Some rows)
          end
      | _ => Js.Throws (Some [])
      end
  | None => Js.Returns None
  end.

(** A row of the table as [filterTrades] sees it: its text and the
    [display] of its style. *)
Record tableRow := { textContent : string; display : string }.

(** [hay.includes(needle)] *)
Fixpoint includes (needle hay : string) : bool :=
  String.prefix needle hay
  || match hay with
     | EmptyString => false
     | String _ rest => includes needle rest
     end.

Definition filterTrades (searchTerm : string) (rows : list tableRow)
    : list tableRow :=
  (fun row =>
     let text := Js.toLowerCase (textContent row) in
     let matches := includes (Js.toLowerCase searchTerm) text in
     {| textContent := textContent row;
        display := if matches then "" else "none" |}) <$> rows.

(** *** Replacing the table *)

Lemma appendRows_valid (trades : list Js.value) (rows new : list Dom.row) :
  Forall2 (fun trade row => createTradeRow trade = Some row) trades new →
  appendRows trades rows = Js.Returns (rows ++ new).
Proof.
  intros Hall. revert rows. induction Hall as [|trade row trades new Hrow _ IH];
    intros rows; cbn [appendRows].
  - by rewrite app_nil_r.
  - rewrite Hrow, IH, <- app_assoc. reflexivity.
Qed.

Lemma appendRows_invalid (good : list Js.value) (bad : Js.value)
    (rest : list Js.value) (rows new : list Dom.row) :
  Forall2 (fun trade row => createTradeRow trade = Some row) good new →
  createTradeRow bad = None →
  appendRows (good ++ bad :: rest) rows = Js.Throws (rows ++ new).
Proof.
  intros Hall Hbad. revert rows. induction Hall as [|trade row good new Hrow _ IH];
    intros rows; cbn [appendRows app].
  - by rewrite Hbad, app_nil_r.
  - rewrite Hrow, IH, <- app_assoc. reflexivity.
Qed.

(** X12.  [updateTradeHistory] of the switcher replaces the table: whatever
    rows it held, it ends with one row per trade, in the order given and
    without any bound on their number.  A trade whose row cannot be built
    stops it with the rows of the trades before; anything but an array
    leaves the table empty; and a page without the table is left alone. *)
Theorem history_replaced (old new : list Dom.row) (good rest : list Js.value)
    (bad : Js.value) :
  Forall2 (fun trade row => createTradeRow trade = Some row) good new →
  createTradeRow bad = None →
  updateTradeHistory (Js.VArray good) (Some old) = Js.Returns (Some new)
  ∧ updateTradeHistory (Js.VArray (good ++ bad :: rest)) (Some old)
    = Js.Throws (Some new)
  ∧ (∀ trades, (∀ items, trades ≠ Js.VArray items) →
       updateTradeHistory trades (Some old) = Js.Throws (Some []))
  ∧ (∀ trades, updateTradeHistory trades None = Js.Returns None).
Proof.
  intros Hgood Hbad. split_and!.
  - unfold updateTradeHistory. by rewrite (appendRows_valid good [] new).
  - unfold updateTradeHistory.
    by rewrite (appendRows_invalid good bad rest [] new).
  - intros trades Hother. destruct trades; try reflexivity.
    by destruct (Hother items).
  - reflexivity.
Qed.

(** Twelve trades fill twelve rows; a record without a price stops the
    filling. *)
Lemma history_replaced_witness :
  let twelve := Sample.trade <$> [1; 2; 3; 4; 5; 6; 7; 8; 9; 10; 11; 12]%Z in
  (∃ rows, updateTradeHistory (Js.VArray twelve) (Some []) = Js.Returns (Some rows)
           ∧ length rows = 12)
  ∧ ∃ rows, updateTradeHistory
              (Js.VArray (twelve ++ [Js.VObject [("symbol", Js.VString "SOL")]]))
              (Some [])
            = Js.Throws (Some rows)
            ∧ length rows = 12.
Proof.
  cbv zeta.
  pose (twelve := Sample.trade <$> [1; 2; 3; 4; 5; 6; 7; 8; 9; 10; 11; 12]%Z).
  pose (rows := omap createTradeRow twelve).
  destruct (history_replaced [] rows twelve []
              (Js.VObject [("symbol", Js.VString "SOL")]))
    as (Hall & Hstop & _).
  - repeat constructor.
  - reflexivity.
  - split; exists rows; split; [exact Hall|reflexivity|exact Hstop|reflexivity].
Defined.

(** *** A table over the bound *)


(** A table of twelve rows, as the switcher's [updateTradeHistory] leaves
    it for twelve trades. *)
Definition crowded : TradingDashboard.state :=
  TradingDashboard.with_tradeTable
    (Some (omap createTradeRow
             (Sample.trade <$> [1; 2; 3; 4; 5; 6; 7; 8; 9; 10; 11; 12]%Z)))
    Sample.dashboard.


(** *** Filtering the rows *)

Lemma includes_empty (hay : string) : includes "" hay = true.
Proof. by destruct hay. Qed.

Lemma lowerAscii_twice (c : ascii) :
  Js.lowerAscii (Js.lowerAscii c) = Js.lowerAscii c.
Proof. by destruct c as [[] [] [] [] [] [] [] []]. Qed.

Lemma toLowerCase_twice (text : string) :
  Js.toLowerCase (Js.toLowerCase text) = Js.toLowerCase text.
Proof.
  induction text as [|c text IH]; [reflexivity|].
  cbn [Js.toLowerCase]. by rewrite lowerAscii_twice, IH.
Qed.


Example filterTrades_sol :
  display <$> filterTrades "SOL"
                [{| textContent := "sol buy $1.00"; display := "" |};
                 {| textContent := "ETH sell $2.00"; display := "" |};
                 {| textContent := "Solana"; display := "none" |}]
  = [""; "none"; ""]%string.
Proof. reflexivity. Qed.

End TradeHistoryView.

(** ** Snapshots and messages of [TradingDashboard] *)

Module Polling.
Import TradingDashboard.
Local Open Scope nat_scope.
Local Open Scope list_scope.

(** *** What the handlers can write to *)

(** The handlers of messages and snapshots write to the cells, the trade
    table and the console only. *)
Definition written (s s' : state) : Prop :=
  ∃ c t l, s' = with_console l (with_tradeTable t (with_cells c s)).

Lemma written_refl (s : state) : written s s.
Proof. exists (cells s), (tradeTable s), (console s). by destruct s. Qed.

Lemma written_trans (s1 s2 s3 : state) : written s1 s2 → written s2 s3 → written s1 s3.
Proof.
  intros (c & t & l & ->) (c' & t' & l' & ->). exists c', t', l'. by destruct s1.
Qed.

Lemma written_cells (f : Dom.cells → Dom.cells) (s : state) : written s (onCells f s).
Proof. exists (f (cells s)), (tradeTable s), (console s). by destruct s. Qed.

Lemma written_log (line : string) (s : state) : written s (log line s).
Proof.
  exists (cells s), (tradeTable s), (console s ++ [line]). by destruct s.
Qed.

Lemma written_updatePriceDisplay (v : Js.value) (s : state) :
  written s (uncaught (updatePriceDisplay v s)).
Proof.
  unfold updatePriceDisplay.
  repeat case_match; cbn; auto using written_refl, written_cells.
Qed.

Lemma written_updateBalanceDisplay (v : Js.value) (s : state) :
  written s (uncaught (updateBalanceDisplay v s)).
Proof.
  unfold updateBalanceDisplay.
  repeat case_match; cbn; auto using written_refl, written_cells.
Qed.

Lemma written_updateBotStatus (v : Js.value) (s : state) :
  written s (uncaught (updateBotStatus v s)).
Proof.
  unfold updateBotStatus.
  repeat case_match; cbn; auto using written_refl, written_cells.
  eapply written_trans; apply written_cells.
Qed.

Lemma written_updateTradeHistory (v : Js.value) (s : state) :
  written s (uncaught (updateTradeHistory v s)).
Proof.
  unfold updateTradeHistory.
  repeat case_match; cbn; auto using written_refl.
  match goal with
  | |- written s (with_tradeTable ?t s) => exists (cells s), t, (console s)
  end.
  by destruct s.
Qed.

Lemma written_onmessage (p : payload) (s : state) :
  written s (uncaught (onmessage p s)).
Proof.
  unfold onmessage, handleWebSocketMessage.
  repeat case_match;
    auto using written_refl, written_updatePriceDisplay,
      written_updateBalanceDisplay, written_updateBotStatus,
      written_updateTradeHistory.
Qed.

Lemma written_andThen (o : Js.outcome state) (f : state → Js.outcome state)
    (s : state) :
  written s (uncaught o) → (∀ s1, written s1 (uncaught (f s1))) →
  written s (uncaught (andThen o f)).
Proof.
  destruct o as [s1|s1]; cbn; [|done].
  intros H1 Hf. eapply written_trans; [exact H1|apply Hf].
Qed.

Lemma written_updateDashboardData (data : Js.value) (s : state) :
  written s (updateDashboardData data s).
Proof.
  unfold updateDashboardData.
  destruct (Js.get data "current_price") as [price|]; [|apply written_log].
  set (body := andThen _ _).
  assert (written s (uncaught body)) as Hbody.
  { subst body. apply written_andThen; [apply written_updatePriceDisplay|].
    intros s1. apply written_andThen; [apply written_updateBalanceDisplay|].
    intros s2. apply written_andThen; [apply written_updateTradeHistory|].
    intros s3. apply written_updateBotStatus. }
  destruct body; [exact Hbody|].
  eapply written_trans; [exact Hbody|apply written_log].
Qed.

(** *** A snapshot that fails half-way *)

(** X15.  The poll applies a snapshot field by field and stops at the
    first that throws: with a price that is a number and a balance that is
    not, the price cell is written, one line is logged, and the balance, the
    trade table and the status stay as they were although the snapshot may
    carry trades and a status. *)
Theorem poll_stops_at_balance (data : Js.value) (q : Q) (s : state) :
  is_Some (Dom.priceElement (cells s)) →
  is_Some (Dom.balanceElement (cells s)) →
  Js.get data "current_price" = Some (Js.VNumber q) →
  Js.callToFixed2 (default Js.VUndefined (Js.get data "balance")) = None →
  updateDashboardData data s
  = log "Failed to update dashboard data:"
      (onCells (Dom.with_price ("$" ++ Js.toFixed2 q)%string) s).
Proof.
  intros [p Hp] [b Hb] Hprice Hbalance.
  unfold updateDashboardData. rewrite Hprice.
  unfold updatePriceDisplay. rewrite Hp. cbn [Js.callToFixed2 andThen].
  unfold updateBalanceDisplay.
  replace (Dom.balanceElement (cells (onCells _ s))) with (Some b)
    by (by destruct s).
  by rewrite Hbalance.
Qed.

Lemma poll_stops_at_balance_witness :
  let data := Js.VObject [("current_price", Js.VNumber 7);
                          ("recent_trades", Js.VArray [Sample.trade 7]);
                          ("bot_status", Js.VString "Stopped")] in
  let s := updateDashboardData data Sample.dashboard in
  Dom.priceElement (cells s) = Some "$7.00"
  ∧ tradeTable s = Some []
  ∧ Dom.botStatus (cells s) = Dom.botStatus Sample.cells
  ∧ console s = ["Failed to update dashboard data:"].
Proof.
  cbv zeta. rewrite (poll_stops_at_balance _ 7 Sample.dashboard).
  all: first [split_and!; reflexivity|by eexists].
Defined.

(** *** The same trade twice *)



(** *** One message, one cell *)

(** X17.  A message of the live channel writes to at most one of the
    price, the balance, the status and the trade table, and to nothing else:
    the console, the notifications, the pending timeouts and the count of
    sockets are as before, whether the handler returns or throws. *)
Theorem message_writes_one (p : payload) (s : state) :
  let s' := uncaught (onmessage p s) in
  (∃ c t, s' = with_tradeTable t (with_cells c s))
  ∧ ((Dom.balanceElement (cells s') = Dom.balanceElement (cells s)
      ∧ Dom.botStatus (cells s') = Dom.botStatus (cells s)
      ∧ tradeTable s' = tradeTable s)
     ∨ (Dom.priceElement (cells s') = Dom.priceElement (cells s)
        ∧ Dom.botStatus (cells s') = Dom.botStatus (cells s)
        ∧ tradeTable s' = tradeTable s)
     ∨ (Dom.priceElement (cells s') = Dom.priceElement (cells s)
        ∧ Dom.balanceElement (cells s') = Dom.balanceElement (cells s)
        ∧ tradeTable s' = tradeTable s)
     ∨ (cells s' = cells s)).
Proof.
  cbv zeta.
  unfold onmessage, handleWebSocketMessage, updatePriceDisplay,
    updateBalanceDisplay, updateTradeHistory, updateBotStatus.
  destruct s.
  repeat case_match; cbn;
    (split; [eexists _, _; reflexivity|]);
    first [by left|by right; left|by right; right; left|by right; right; right].
Qed.

End Polling.

(** ** Reconnecting the live channel *)

Module Reconnection.
Import TradingDashboard.
Local Open Scope nat_scope.
Local Open Scope list_scope.

#[local] Instance task_eq_dec : EqDecision callback.
Proof. solve_decision. Defined.

(** The reconnections among some timeouts, and those still to come. *)
Definition reconnectsIn (ts : list timeout) : nat :=
  length (filter (fun t => task t = Reconnect) ts).

Definition reconnects (s : state) : nat := reconnectsIn (pending s).

Definition isClose (e : event) : bool :=
  match e with
  | Close => true
  | _ => false
  end.

Definition closes (es : list event) : nat :=
  length (filter (fun e => isClose e = true) es).

Lemma enqueue_Permutation (t : timeout) (queue : list timeout) :
  enqueue t queue ≡ₚ t :: queue.
Proof.
  induction queue as [|u rest IH]; cbn; [reflexivity|].
  case_decide; [|reflexivity]. rewrite IH. apply Permutation_swap.
Qed.

Lemma reconnectsIn_enqueue (t : timeout) (queue : list timeout) :
  reconnectsIn (enqueue t queue)
  = (if decide (task t = Reconnect) then 1 else 0) + reconnectsIn queue.
Proof.
  unfold reconnectsIn. rewrite enqueue_Permutation, filter_cons.
  by case_decide.
Qed.

Lemma reconnectsIn_split (limit : Z) (ts : list timeout) :
  reconnectsIn (filter (fun x => (due x ≤ limit)%Z) ts)
  + reconnectsIn (filter (fun x => ¬ (due x ≤ limit)%Z) ts)
  = reconnectsIn ts.
Proof.
  unfold reconnectsIn. rewrite <- length_app, <- filter_app.
  by rewrite filter_app_complement.
Qed.

(** What the channel consists of. *)
Definition channel (s : state) := (webSocketAvailable s, sockets s, pending s).

Lemma channel_written (s s' : state) : Polling.written s s' → channel s' = channel s.
Proof. intros (c & t & l & ->). by destruct s. Qed.

Lemma fire_channel (s : state) (t : timeout) :
  webSocketAvailable s = true →
  webSocketAvailable (fire s t) = true
  ∧ sockets (fire s t) = sockets s + (if decide (task t = Reconnect) then 1 else 0).
Proof.
  intros Hav. unfold fire, setupWebSocket. destruct s. cbn in *. subst.
  destruct (task t) eqn:Htask; cbn; (split; [done|]);
    case_decide; try discriminate; try done; lia.
Qed.

Lemma foldl_fire_channel (ts : list timeout) (s : state) :
  webSocketAvailable s = true →
  webSocketAvailable (foldl fire s ts) = true
  ∧ sockets (foldl fire s ts) = sockets s + reconnectsIn ts.
Proof.
  revert s. induction ts as [|t ts IH]; intros s Hav.
  - split; [exact Hav|cbn; lia].
  - cbn [foldl]. destruct (fire_channel s t Hav) as [Hav' Hsockets].
    destruct (IH _ Hav') as [-> ->]. split; [done|].
    rewrite Hsockets. unfold reconnectsIn. rewrite filter_cons.
    case_decide; cbn; lia.
Qed.

Lemma step_channel (s : state) (e : event) :
  webSocketAvailable s = true →
  webSocketAvailable (step s e) = true
  ∧ sockets (step s e) + reconnects (step s e)
    = sockets s + reconnects s + (if isClose e then 1 else 0).
Proof.
  intros Hav. unfold reconnects.
  destruct e as [|p| | |data|message type duration|m|limit]; cbn [step isClose].
  - destruct s. cbn in *. split; [done|lia].
  - pose proof (channel_written _ _ (Polling.written_onmessage p s)) as Heq.
    unfold channel in Heq. injection Heq as -> -> ->. split; [done|lia].
  - unfold onclose, setTimeout. destruct s. cbn -[reconnectsIn enqueue] in *.
    split; [done|]. rewrite reconnectsIn_enqueue. cbn -[reconnectsIn].
    rewrite decide_True by done. lia.
  - destruct s. cbn in *. split; [done|lia].
  - pose proof (channel_written _ _ (Polling.written_updateDashboardData data s))
      as Heq.
    unfold channel in Heq. injection Heq as -> -> ->. split; [done|lia].
  - unfold showNotification, setTimeout.
    destruct s as [? ? []]; cbn -[reconnectsIn enqueue] in *;
      (split; [done|]); rewrite ?reconnectsIn_enqueue; cbn -[reconnectsIn];
      rewrite ?decide_False by done; lia.
  - destruct s. cbn in *. split; [done|lia].
  - unfold advance.
    set (s0 := with_now _ (with_pending _ s)).
    assert (webSocketAvailable s0 = true) as Hav0 by (by destruct s).
    destruct (foldl_fire_channel
                (filter (fun x => (due x ≤ limit)%Z) (pending s)) s0 Hav0)
      as [-> ->].
    destruct (Notifications.frame_foldl_fire
                (filter (fun x => (due x ≤ limit)%Z) (pending s)) s0) as [_ ->].
    split; [done|].
    replace (sockets s0) with (sockets s) by (by destruct s).
    replace (pending s0)
      with (filter (fun x => ¬ (due x ≤ limit)%Z) (pending s)) by (by destruct s).
    pose proof (reconnectsIn_split limit (pending s)). lia.
Qed.

(** X18.  Where [WebSocket] is available, every close of the channel is
    answered by one reconnection and nothing else creates a socket: along
    every run, the sockets created and the reconnections still pending
    together grow by exactly the number of closes.  Where it is not
    available, no socket is ever created. *)
Theorem one_reconnection_per_close (s : state) (es : list event) :
  (webSocketAvailable s = true →
   sockets (run s es) + reconnects (run s es)
   = sockets s + reconnects s + closes es)
  ∧ (webSocketAvailable s = false → sockets (run s es) = sockets s).
Proof.
  split.
  - revert s. induction es as [|e es IH]; intros s Hav; [cbn; lia|].
    change (run s (e :: es)) with (run (step s e) es).
    destruct (step_channel s e Hav) as [Hav' Hstep].
    rewrite (IH _ Hav'), Hstep. unfold closes. rewrite filter_cons.
    destruct (isClose e).
    + rewrite decide_True by done. cbn [length]. lia.
    + rewrite decide_False by done. lia.
  - revert s. induction es as [|e es IH]; intros s Hav; [reflexivity|].
    change (run s (e :: es)) with (run (step s e) es).
    assert (webSocketAvailable (step s e) = false ∧ sockets (step s e) = sockets s)
      as [Hav' Hsockets].
    { destruct e as [|p| | |data|message type duration|m|limit]; cbn [step].
      - by destruct s.
      - pose proof (channel_written _ _ (Polling.written_onmessage p s)) as Heq.
        unfold channel in Heq. injection Heq as Hav1 Hsockets1 _.
        by rewrite Hav1, Hsockets1.
      - by destruct s.
      - by destruct s.
      - pose proof (channel_written _ _ (Polling.written_updateDashboardData data s))
          as Heq.
        unfold channel in Heq. injection Heq as Hav1 Hsockets1 _.
        by rewrite Hav1, Hsockets1.
      - unfold showNotification. by destruct s as [? ? []].
      - by destruct s.
      - unfold advance. set (s0 := with_now _ (with_pending _ s)).
        assert (webSocketAvailable s0 = false ∧ sockets s0 = sockets s)
          as [Hav0 <-] by (by destruct s).
        clearbody s0. clear -Hav0.
        induction (filter (fun x => (due x ≤ limit)%Z) (pending s)) as [|t ts IH]
          in s0, Hav0 |- *; [done|].
        cbn [foldl].
        assert (webSocketAvailable (fire s0 t) = false
                ∧ sockets (fire s0 t) = sockets s0) as [Hav1 <-].
        { unfold fire, setupWebSocket. destruct s0. cbn in *. subst.
          by destruct (task t). }
        by apply IH. }
    rewrite (IH _ Hav'). exact Hsockets.
Qed.

(** The channel closes twice; once both delays have passed, two sockets
    have been created for it, and no reconnection is pending. *)
Lemma one_reconnection_per_close_witness :
  sockets (run Sample.dashboard [Close; Advance 5000; Open; Close; Advance 9000;
                                  Advance 10000])
  + reconnects (run Sample.dashboard [Close; Advance 5000; Open; Close;
                                      Advance 9000; Advance 10000])
  = 3.
Proof.
  rewrite (proj1 (one_reconnection_per_close Sample.dashboard _)); reflexivity.
Defined.

End Reconnection.

(** ** The notifications on display *)

Module NotificationNodes.
Import TradingDashboard.
Local Open Scope nat_scope.
Local Open Scope list_scope.

(** Each notification on display has a node of its own, created before the
    next one. *)
Definition distinct (s : state) : Prop :=
  NoDup (Notifications.nodes s) ∧ ∀ x, x ∈ Notifications.nodes s → x < nextNode s.

Lemma nodes_written (s s' : state) :
  Polling.written s s' →
  Notifications.nodes s' = Notifications.nodes s ∧ nextNode s' = nextNode s.
Proof. intros (c & t & l & ->). by destruct s. Qed.

Lemma distinct_fire (s : state) (t : timeout) :
  NoDup (Notifications.nodes s) → NoDup (Notifications.nodes (fire s t)).
Proof.
  intros Hs. unfold fire. destruct (task t) as [m|].
  - rewrite Notifications.nodes_remove. by apply NoDup_filter.
  - unfold Notifications.nodes.
    by destruct (Notifications.frame_setupWebSocket s) as (-> & _).
Qed.

Lemma distinct_foldl_fire (ts : list timeout) (s : state) :
  NoDup (Notifications.nodes s) → NoDup (Notifications.nodes (foldl fire s ts)).
Proof.
  revert s. induction ts as [|t ts IH]; intros s Hs; [exact Hs|].
  cbn [foldl]. by apply IH, distinct_fire.
Qed.

Lemma distinct_step (s : state) (e : event) : distinct s → distinct (step s e).
Proof.
  intros [Hnodup Hbelow].
  unfold distinct.
  destruct e as [|p| | |data|message type duration|m|limit]; cbn [step].
  - by destruct s.
  - by destruct (nodes_written _ _ (Polling.written_onmessage p s)) as [-> ->].
  - by destruct s.
  - by destruct s.
  - by destruct (nodes_written _ _ (Polling.written_updateDashboardData data s))
      as [-> ->].
  - destruct (container s) as [children|] eqn:Hc.
    + destruct (Notifications.showNotification_queue message type duration s)
        as (-> & -> & _); [by eexists|].
      split.
      * apply NoDup_app. split_and!; [exact Hnodup| |apply NoDup_singleton].
        intros x Hin Hnew. apply list_elem_of_singleton in Hnew as ->.
        specialize (Hbelow _ Hin). lia.
      * intros x Hin. apply elem_of_app in Hin as [Hin|Hin].
        -- specialize (Hbelow x Hin). lia.
        -- apply list_elem_of_singleton in Hin as ->. lia.
    + unfold showNotification. by rewrite Hc.
  - unfold dismiss. destruct (Notifications.frame_remove m s) as (-> & _).
    rewrite Notifications.nodes_remove. split; [by apply NoDup_filter|].
    intros x Hin. apply list_elem_of_filter in Hin as [_ Hin]. by apply Hbelow.
  - destruct (Notifications.advance_queue limit s) as (-> & _ & Hsub).
    split; [|intros x Hin; by apply Hbelow, Hsub].
    unfold advance. apply distinct_foldl_fire. by destruct s.
Qed.

(** X19.  Along every run the notifications on display have pairwise
    different nodes, so a click on one close button removes that one
    notification and leaves the others in the order they were shown. *)
Theorem dismiss_removes_one (s : state) (es : list event) (n : nat) :
  distinct s →
  let s' := run s es in
  distinct s'
  ∧ Notifications.nodes (dismiss n s')
    = filter (fun x => x ≠ n) (Notifications.nodes s')
  ∧ (n ∈ Notifications.nodes s' →
     length (Notifications.nodes (dismiss n s')) + 1
     = length (Notifications.nodes s')).
Proof.
  intros Hs s'.
  assert (distinct s') as Hs'.
  { subst s'. revert s Hs. induction es as [|e es IH]; intros s Hs; [exact Hs|].
    apply IH, distinct_step, Hs. }
  split_and!; [exact Hs'|apply Notifications.nodes_remove|].
  intros Hin. unfold dismiss. rewrite Notifications.nodes_remove.
  apply Lists.length_filter_out; [apply Hs'|exact Hin].
Qed.

Lemma dismiss_removes_one_witness :
  Notifications.nodes
    (dismiss 1 (run Sample.dashboard
                  [ShowNotification "Saved" "success" 5000;
                   ShowNotification "Failed" "error" 5000;
                   ShowNotification "Again" "info" 5000]))
  = [0; 2].
Proof.
  assert (distinct Sample.dashboard) as Hdistinct.
  { split; [apply NoDup_nil_2|]. intros x Hin. by apply elem_of_nil in Hin. }
  destruct (dismiss_removes_one Sample.dashboard
              [ShowNotification "Saved" "success" 5000;
               ShowNotification "Failed" "error" 5000;
               ShowNotification "Again" "info" 5000] 1 Hdistinct)
    as (_ & -> & _).
  reflexivity.
Defined.

End NotificationNodes.

(** ** The theme toggle of [TradingDashboard] *)

Module ThemeToggle.
Local Open Scope nat_scope.
Local Open Scope list_scope.

(** What [toggleTheme] reads and writes: the [data-theme] attribute of
    [body], [localStorage], and the content of [.theme-toggle] ([None] when
    the page has no such button). *)
Record page := {
  dataTheme : option string;
  storage : gmap string string;
  themeToggle : option string
}.

Definition toggleTheme (p : page) : page :=
  let currentTheme := default "light" (Js.truthyItem (dataTheme p)) in
  let newTheme := if String.eqb currentTheme "light" then "dark" else "light" in
  {| dataTheme := Some newTheme;
     storage := <["theme" := newTheme]> (storage p);
     themeToggle :=
       (fun _ => if String.eqb newTheme "light" then "🌙" else "☀️")
         <$> themeToggle p |}.

(** X20.  [toggleTheme] leaves the page dark when the attribute read
    ['light'] or was absent or empty, and light in every other case
    (['auto'] included); it stores the result under the key ['theme']; and
    from the first toggle on the page alternates between the two, so that
    three toggles leave what one leaves. *)
Theorem toggleTheme_alternates (p : page) :
  dataTheme (toggleTheme p)
  = Some (if decide (dataTheme p ∈ [None; Some ""; Some "light"])
          then "dark" else "light")
  ∧ storage (toggleTheme p) !! "theme" = dataTheme (toggleTheme p)
  ∧ toggleTheme (toggleTheme (toggleTheme p)) = toggleTheme p.
Proof.
  split_and!.
  - unfold toggleTheme. cbn [dataTheme].
    destruct (dataTheme p) as [theme|]; [|by rewrite decide_True by set_solver].
    cbn [Js.truthyItem]. destruct (String.eqb theme "") eqn:Hempty.
    { apply String.eqb_eq in Hempty as ->. by rewrite decide_True by set_solver. }
    cbn [default]. unfold id. destruct (String.eqb theme "light") eqn:Hlight.
    { apply String.eqb_eq in Hlight as ->. by rewrite decide_True by set_solver. }
    apply String.eqb_neq in Hempty, Hlight.
    rewrite decide_False; [reflexivity|].
    intros Hin. repeat (apply elem_of_cons in Hin as [Heq|Hin]; [congruence|]).
    by apply elem_of_nil in Hin.
  - unfold toggleTheme. cbn [dataTheme storage]. apply lookup_insert_eq.
  - unfold toggleTheme. cbn [dataTheme storage themeToggle Js.truthyItem].
    destruct (String.eqb (default "light" (Js.truthyItem (dataTheme p))) "light");
      cbn; f_equal; rewrite ?insert_insert_eq; try reflexivity;
      by destruct (themeToggle p).
Qed.

End ThemeToggle.

(** ** Keys of [localStorage] the switcher does not own *)

Module ForeignKeys.
Import DashboardSwitcher.
Local Open Scope nat_scope.
Local Open Scope list_scope.

(** The four tests of [loadSavedSettings], one at a time. *)
Definition loadTheme (s : state) : state :=
  match Js.truthyItem (getItem "dashboard-theme" s) with
  | Some savedTheme => applyTheme savedTheme (with_currentTheme savedTheme s)
  | None => s
  end.

Definition loadView (s : state) : state :=
  match Js.truthyItem (getItem "dashboard-view" s) with
  | Some savedView => switchView savedView (with_currentView savedView s)
  | None => s
  end.

Definition loadLayout (s : state) : state :=
  match Js.truthyItem (getItem "dashboard-layout" s) with
  | Some savedLayout => applyLayout savedLayout s
  | None => s
  end.

Definition loadRate (s : state) : state :=
  match Js.truthyItem (getItem "dashboard-refresh-rate" s) with
  | Some savedRefreshRate => setRefreshRate (Js.parseInt savedRefreshRate) s
  | None => s
  end.

Lemma loadSavedSettings_steps (s : state) :
  loadSavedSettings s = loadRate (loadLayout (loadView (loadTheme s))).
Proof. reflexivity. Qed.

Section Foreign.
Variables (key value : string).
Hypothesis foreign : key ∉ Startup.keys.

Lemma getItem_foreign (own : string) (s : state) :
  own ∈ Startup.keys → getItem own (setItem key value s) = getItem own s.
Proof.
  intros Hown. unfold getItem, setItem. destruct s. cbn.
  apply lookup_insert_ne. intros ->. by apply foreign.
Qed.

Lemma key_ne (own : string) : own ∈ Startup.keys → own ≠ key.
Proof. intros Hown ->. by apply foreign. Qed.

Lemma loadTheme_foreign (s : state) :
  loadTheme (setItem key value s) = setItem key value (loadTheme s).
Proof.
  unfold loadTheme. rewrite getItem_foreign by (unfold Startup.keys; set_solver).
  destruct (Js.truthyItem (getItem "dashboard-theme" s)) as [theme|]; [|reflexivity].
  unfold applyTheme, setItem. destruct s. by destruct (String.eqb theme "dark").
Qed.

Lemma loadView_foreign (s : state) :
  loadView (setItem key value s) = setItem key value (loadView s).
Proof.
  unfold loadView. rewrite getItem_foreign by (unfold Startup.keys; set_solver).
  destruct (Js.truthyItem (getItem "dashboard-view" s)) as [view|]; [|reflexivity].
  unfold switchView. rewrite !SwitcherFrame.initializeView_effect.
  unfold setItem. destruct s. cbn. f_equal.
  apply insert_insert_ne, key_ne. unfold Startup.keys. set_solver.
Qed.

Lemma loadLayout_foreign (s : state) :
  loadLayout (setItem key value s) = setItem key value (loadLayout s).
Proof.
  unfold loadLayout. rewrite getItem_foreign by (unfold Startup.keys; set_solver).
  destruct (Js.truthyItem (getItem "dashboard-layout" s)) as [layout|];
    [|reflexivity].
  unfold applyLayout, setItem. by destruct s as [? ? ? ? ? ? ? ? ? ? []].
Qed.

Lemma loadRate_foreign (s : state) :
  loadRate (setItem key value s) = setItem key value (loadRate s).
Proof.
  unfold loadRate. rewrite getItem_foreign by (unfold Startup.keys; set_solver).
  destruct (Js.truthyItem (getItem "dashboard-refresh-rate" s)) as [saved|];
    [|reflexivity].
  unfold setRefreshRate, setItem. destruct s as [? ? []]; cbn;
    destruct (Js.aboveZero (Js.parseInt saved)); cbn; f_equal;
    apply insert_insert_ne, key_ne; unfold Startup.keys; set_solver.
Qed.

(** X21.  [loadSavedSettings] reads its four keys and no other: an entry
    under any other key, such as the ['theme'] that [toggleTheme] of
    [TradingDashboard] stores, changes nothing of what is loaded and is
    itself left in place.  A theme chosen with the toggle is therefore not
    brought back by a reload. *)
Theorem other_keys_ignored (s : state) :
  loadSavedSettings (setItem key value s) = setItem key value (loadSavedSettings s).
Proof.
  rewrite !loadSavedSettings_steps.
  by rewrite loadTheme_foreign, loadView_foreign, loadLayout_foreign,
    loadRate_foreign.
Qed.

End Foreign.

Lemma other_keys_ignored_witness :
  let toggled :=
    ThemeToggle.toggleTheme
      {| ThemeToggle.dataTheme := Some "light"; ThemeToggle.storage := ∅;
         ThemeToggle.themeToggle := Some "🌙" |} in
  ThemeToggle.storage toggled = {[ "theme" := "dark" ]}
  ∧ loadSavedSettings (setItem "theme" "dark" (constructed Sample.page))
    = setItem "theme" "dark" (constructed Sample.page).
Proof.
  cbv zeta. split; [reflexivity|].
  rewrite (other_keys_ignored "theme" "dark").
  - f_equal.
  - unfold Startup.keys. set_solver.
Defined.

End ForeignKeys.

(** ** Modals *)

Module Modals.
Local Open Scope nat_scope.
Local Open Scope list_scope.

(** An element that has an [id]: whether it carries the classes [modal]
    and [active]. *)
Record element := { id : string; modal : bool; active : bool }.

(** The elements with an [id], in document order, and [body.style.overflow]. *)
Record page := { elements : list element; overflow : string }.

(** [getElementById] finds the first element of that [id]. *)
Definition getElementById (modalId : string) (p : page) : option element :=
  head (filter (fun el => id el = modalId) (elements p)).

Fixpoint addActive (modalId : string) (els : list element) : list element :=
  match els with
  | [] => []
  | el :: rest =>
      if String.eqb (id el) modalId
      then {| id := id el; modal := modal el; active := true |} :: rest
      else el :: addActive modalId rest
  end.

Definition openModal (modalId : string) (p : page) : page :=
  match getElementById modalId p with
  | Some _ =>
      {| elements := addActive modalId (elements p); overflow := "hidden" |}
  | None => p
  end.

Definition closeAllModals (p : page) : page :=
  {| elements :=
       (fun el => if modal el
                  then {| id := id el; modal := true; active := false |}
                  else el) <$> elements p;
     overflow := "" |}.

(** The modals that are open. *)
Definition openModals (p : page) : list string :=
  id <$> filter (fun el => modal el = true ∧ active el = true) (elements p).

Lemma openModals_closeAllModals (p : page) : openModals (closeAllModals p) = [].
Proof.
  unfold openModals, closeAllModals. cbn [elements].
  induction (elements p) as [|el els IH]; [reflexivity|].
  rewrite fmap_cons, filter_cons_False; [exact IH|].
  destruct el as [? [] ?]; cbn; intros [? ?]; discriminate.
Qed.

Lemma addActive_keeps (modalId : string) (els : list element) (el : element) :
  el ∈ els → active el = true → el ∈ addActive modalId els.
Proof.
  induction els as [|x els IH]; intros Hin Hactive; [by apply elem_of_nil in Hin|].
  cbn [addActive]. apply elem_of_cons in Hin as [->|Hin].
  - destruct (String.eqb (id x) modalId); [|by left].
    apply elem_of_cons. left. destruct x. cbn in *. by subst.
  - destruct (String.eqb (id x) modalId); right; [exact Hin|by apply IH].
Qed.

(** X22.  [closeAllModals] closes every modal and restores scrolling,
    however many were opened before; [openModal] with an [id] that no
    element has changes nothing; and opening a modal closes no other: what
    was active stays active. *)
Theorem modals_close_together (ids : list string) (p : page) :
  (let p' := closeAllModals (foldl (fun q modalId => openModal modalId q) p ids) in
   openModals p' = [] ∧ overflow p' = ""%string)
  ∧ (∀ modalId, getElementById modalId p = None → openModal modalId p = p)
  ∧ (∀ modalId el, el ∈ elements p → active el = true →
       el ∈ elements (openModal modalId p)).
Proof.
  split_and!.
  - split; [apply openModals_closeAllModals|reflexivity].
  - intros modalId Hnone. unfold openModal. by rewrite Hnone.
  - intros modalId el Hin Hactive. unfold openModal.
    destruct (getElementById modalId p); [|exact Hin].
    cbn [elements]. by apply addActive_keeps.
Qed.

Example two_modals_open :
  let p := {| elements := [{| id := "settings"; modal := true; active := false |};
                           {| id := "confirm"; modal := true; active := false |}];
              overflow := "" |} in
  openModals (openModal "confirm" (openModal "settings" p)) = ["settings"; "confirm"]
  ∧ overflow (openModal "confirm" (openModal "settings" p)) = "hidden"%string
  ∧ openModal "missing" p = p.
Proof. cbv zeta. split_and!; reflexivity. Qed.

End Modals.

(** ** The auto theme as applied *)

Module AutoTheme.
Import DashboardSwitcher.
Local Open Scope nat_scope.
Local Open Scope list_scope.

(** X23.  [switchTheme('auto')] stores ['auto'] but shows the theme the
    system resolves to everywhere else: in [currentTheme], on [body], in the
    tokens, and among the theme buttons, where the button of the resolved
    theme is the one marked. *)
Theorem auto_shows_resolved (s : state) :
  let theme := if prefersDark s then "dark" else "light" in
  let s' := switchTheme "auto" s in
  localStorage s' !! "dashboard-theme" = Some "auto"
  ∧ currentTheme s' = theme
  ∧ bodyTheme s' = Some theme
  ∧ rootStyle s' = rootStyle (applyTheme theme s)
  ∧ Dom.activeOnes (themeSwitchers s')
    = (if decide (theme ∈ Dom.attr <$> themeSwitchers s) then [theme] else []).
Proof.
  cbv zeta. change (switchTheme "auto" s) with (enableAutoTheme s).
  unfold enableAutoTheme, switchConcreteTheme, applyTheme, setItem.
  destruct s as [? ? ? ? ? ? ? ? ? ? ? ? ? ? ? []]; cbn -[Dom.activeOnes];
    (split_and!;
     [apply lookup_insert_eq|reflexivity|reflexivity|reflexivity
     |apply ActiveMarks.activeOnes_addActive]).
Qed.

End AutoTheme.

(** ** The notification container *)

Module NotificationContainer.
Import TradingDashboard.
Local Open Scope nat_scope.
Local Open Scope list_scope.

(** X24.  [setupNotifications] creates the container only when the page
    has none, so running it again loses no notification; once it has run,
    [showNotification] always puts its notification last on display; and on
    a page without the container [showNotification] does nothing at all: no
    node, no timeout. *)
Theorem container_set_up (message type : string) (duration : Z) (s : state) :
  setupNotifications (setupNotifications s) = setupNotifications s
  ∧ Notifications.nodes (setupNotifications s) = Notifications.nodes s
  ∧ Notifications.nodes (showNotification message type duration (setupNotifications s))
    = Notifications.nodes s ++ [nextNode s]
  ∧ (container s = None → showNotification message type duration s = s).
Proof.
  split_and!.
  - unfold setupNotifications. by destruct s as [? ? []].
  - unfold setupNotifications, Notifications.nodes. by destruct s as [? ? []].
  - destruct (Notifications.showNotification_queue message type duration
                (setupNotifications s)) as (-> & _).
    + unfold setupNotifications. destruct s as [? ? []]; by eexists.
    + unfold setupNotifications, Notifications.nodes. by destruct s as [? ? []].
  - intros Hnone. unfold showNotification. by rewrite Hnone.
Qed.

End NotificationContainer.

(** ** The settings form of the switcher *)

Module SettingsForm.
Local Open Scope nat_scope.
Local Open Scope list_scope.

(** An element with a [name] attribute and the value last assigned to its
    [value] (the element stores the string conversion).  As for the other
    selectors, names are taken to be free of quotes and backslashes. *)
Record control := { name : string; value : Js.value }.

(** [querySelector('[name="key"]')] finds the first element of that name;
    [input.value = v] when there is one. *)
Fixpoint setValue (key : string) (v : Js.value) (controls : list control)
    : list control :=
  match controls with
  | [] => []
  | c :: rest =>
      if String.eqb (name c) key
      then {| name := name c; value := v |} :: rest
      else c :: setValue key v rest
  end.

Definition index (i : nat) : string := NilZero.string_of_uint (Nat.to_uint i).

(** [Object.keys(settings)], each key with [settings[key]]; [None] is the
    [TypeError] on [null] and [undefined].  An array and a string have their
    indices for keys, a number and a boolean have none.  The keys of an
    object are taken in the order of its properties; [Object.keys] puts
    index-like keys first, which makes no difference to a loop that writes
    each key to an element of its own. *)
Definition entries (settings : Js.value) : option (list (string * Js.value)) :=
  match settings with
  | Js.VUndefined | Js.VNull => None
  | Js.VObject props => Some ((fun kv => (kv.1, Js.assoc kv.1 props)) <$> props)
  | Js.VArray items => Some (imap (fun i item => (index i, item)) items)
  | Js.VString text =>
      Some (imap (fun i c => (index i, Js.VString (String c EmptyString)))
              (String.list_ascii_of_string text))
  | Js.VBool _ | Js.VNumber _ => Some []
  end.

Definition updateSettingsForm (settings : Js.value) (controls : list control)
    : Js.outcome (list control) :=
  match entries settings with
  | Some kvs =>
      Js.Returns (foldl (fun cs kv => setValue kv.1 kv.2 cs) controls kvs)
  | None => Js.Throws controls
  end.

(** The first element of a name. *)
Definition firstNamed (key : string) (controls : list control) : option control :=
  head (filter (fun c => name c = key) controls).

Lemma names_setValue (key : string) (v : Js.value) (controls : list control) :
  name <$> setValue key v controls = name <$> controls.
Proof.
  induction controls as [|c rest IH]; [reflexivity|].
  cbn [setValue]. destruct (String.eqb (name c) key); [reflexivity|].
  rewrite !fmap_cons. by rewrite IH.
Qed.

Lemma setValue_absent (key : string) (v : Js.value) (controls : list control) :
  key ∉ name <$> controls → setValue key v controls = controls.
Proof.
  induction controls as [|c rest IH]; intros Hout; [reflexivity|].
  rewrite fmap_cons in Hout. apply not_elem_of_cons in Hout as [Hne Hout].
  cbn [setValue]. destruct (String.eqb (name c) key) eqn:Heq.
  - apply String.eqb_eq in Heq. congruence.
  - by rewrite IH.
Qed.

Lemma firstNamed_setValue (key other : string) (v : Js.value)
    (controls : list control) :
  value <$> firstNamed key (setValue other v controls)
  = if decide (other = key) then (fun _ => v) <$> firstNamed key controls
    else value <$> firstNamed key controls.
Proof.
  unfold firstNamed. induction controls as [|c rest IH]; [by case_decide|].
  cbn [setValue]. destruct (String.eqb (name c) other) eqn:Heq.
  - apply String.eqb_eq in Heq. rewrite !filter_cons. cbn [name].
    destruct (decide (other = key)) as [<-|Hne].
    + by rewrite !decide_True by done.
    + by rewrite !decide_False by congruence.
  - apply String.eqb_neq in Heq. rewrite !filter_cons.
    destruct (decide (name c = key)) as [Hc|Hc].
    + rewrite decide_False by congruence. reflexivity.
    + exact IH.
Qed.

Lemma kept_setValue (key : string) (v : Js.value) (controls : list control)
    (c : control) :
  c ∈ controls → name c ≠ key → c ∈ setValue key v controls.
Proof.
  induction controls as [|x rest IH]; intros Hin Hne; [by apply elem_of_nil in Hin|].
  cbn [setValue]. apply elem_of_cons in Hin as [->|Hin].
  - destruct (String.eqb (name x) key) eqn:Heq; [|by left].
    apply String.eqb_eq in Heq. congruence.
  - destruct (String.eqb (name x) key); right; [exact Hin|by apply IH].
Qed.

Lemma present_setValue {A} (a : A) (key other : string) (v : Js.value)
    (controls : list control) :
  (fun _ => a) <$> firstNamed key (setValue other v controls)
  = (fun _ => a) <$> firstNamed key controls.
Proof.
  unfold firstNamed. induction controls as [|c rest IH]; [reflexivity|].
  cbn [setValue]. destruct (String.eqb (name c) other) eqn:Heq.
  - rewrite !filter_cons. cbn [name]. by destruct (decide (name c = key)).
  - rewrite !filter_cons. by destruct (decide (name c = key)).
Qed.

Lemma fill_props (props all : list (string * Js.value)) (controls : list control)
    (key : string) :
  (∀ kv, kv ∈ props → kv.2 = Js.assoc kv.1 all) →
  value <$> firstNamed key (foldl (fun cs kv => setValue kv.1 kv.2 cs) controls props)
  = if decide (key ∈ props.*1)
    then (fun _ => Js.assoc key all) <$> firstNamed key controls
    else value <$> firstNamed key controls.
Proof.
  revert controls.
  induction props as [|[k v] props IH]; intros controls Hvalues.
  - cbn. by rewrite decide_False by (apply not_elem_of_nil).
  - cbn [foldl fst snd]. rewrite IH by (intros kv Hkv; apply Hvalues; by right).
    assert (v = Js.assoc k all) as -> by (apply (Hvalues (k, v)); by left).
    rewrite fmap_cons. cbn [fst].
    destruct (decide (key ∈ props.*1)) as [Hin|Hout].
    + destruct (decide (key ∈ k :: props.*1)) as [_|Hno].
      * apply present_setValue.
      * exfalso. apply Hno. by right.
    + rewrite firstNamed_setValue.
      destruct (decide (k = key)) as [->|Hne].
      * destruct (decide (key ∈ key :: props.*1)) as [_|Hno];
          [reflexivity|exfalso; apply Hno; by left].
      * destruct (decide (key ∈ k :: props.*1)) as [Hin|_]; [|reflexivity].
        apply elem_of_cons in Hin as [?|?]; congruence.
Qed.

Lemma names_fill (kvs : list (string * Js.value)) (controls : list control) :
  name <$> foldl (fun cs kv => setValue kv.1 kv.2 cs) controls kvs
  = name <$> controls.
Proof.
  revert controls. induction kvs as [|kv kvs IH]; intros controls; [reflexivity|].
  cbn [foldl]. by rewrite IH, names_setValue.
Qed.

Lemma kept_fill (kvs : list (string * Js.value)) (controls : list control)
    (c : control) :
  c ∈ controls → name c ∉ kvs.*1 →
  c ∈ foldl (fun cs kv => setValue kv.1 kv.2 cs) controls kvs.
Proof.
  revert controls. induction kvs as [|kv kvs IH]; intros controls Hin Hout;
    [exact Hin|].
  rewrite fmap_cons in Hout. apply not_elem_of_cons in Hout as [Hne Hout].
  cbn [foldl]. apply IH; [|exact Hout]. by apply kept_setValue.
Qed.


Example settings_fill_sample :
  updateSettingsForm
    (Js.VObject [("api_key", Js.VString "k"); ("missing", Js.VNull)])
    [ {| name := "risk"; value := Js.VString "low" |};
      {| name := "api_key"; value := Js.VString "" |};
      {| name := "api_key"; value := Js.VString "second" |} ]
  = Js.Returns
      [ {| name := "risk"; value := Js.VString "low" |};
        {| name := "api_key"; value := Js.VString "k" |};
        {| name := "api_key"; value := Js.VString "second" |} ].
Proof. reflexivity. Qed.

End SettingsForm.
